(** * Stream builder: configuration assembly and consumer bridging

    A shallow embedding of [public/service/stream_builder.go], of the tracer
    configuration decoder ([internal/component/tracer]) and of
    [internal/config/schema.go], together with the properties of the
    builder that the specification states.

    Go values are modelled as follows.
    - [error] is the message text; a nil error is [None].
    - [any] is a closed sum over the dynamic types that reach the builder.
    - a [map[string]any] is a [gmap string any].
    - a method with a pointer receiver takes the builder and returns the
      updated builder next to its Go results.
    - randomness ([uuid.NewV4]) and allocation ([make(chan ...)]) are read
      from an explicit [World].
    - what a producer closure meets at a [select], the readiness of the
      stream and Go's pick among the ready cases, is read from an explicit
      [Schedule]. *)

From Stdlib Require Import ZArith String List DecimalString.
From stdpp Require Import base gmap strings list.

Set Warnings "-register-all".
Set Default Proof Using "Type".

Local Open Scope string_scope.
Local Open Scope list_scope.

(** ** Go basics *)

(** [error]: the text of the error. *)
Definition error : Type := string.

(** A Go call that yields [(T, error)] where the caller reads [T] only
    when the error is nil. *)
Inductive result (A : Type) : Type :=
| Ok (a : A)
| Err (e : error).
Arguments Ok {A} a.
Arguments Err {A} e.

(** How a call of a Go function value ends: it returns, or it panics
    (calling a nil function value panics). *)
Inductive outcome (A : Type) : Type :=
| Returns (a : A)
| Panics.
Arguments Returns {A} a.
Arguments Panics {A}.

(** [errors.New] *)
Definition errors_New (msg : string) : error := msg.

(** [%v] of an [int]. *)
Definition fmt_int (n : nat) : string :=
  NilEmpty.string_of_uint (Nat.to_uint n).

(** ** [gopkg.in/yaml.v3] *)

Module yaml.

(** [yaml.Node]: the document tree of the YAML library, with the fields the
    decoders read. *)
Inductive Node : Type :=
  mkNode { Kind : Z; Tag : string; Value : string;
           Content : list Node; Line : Z }.

End yaml.

(** ** Component configurations and dynamically typed values *)

(** Modelled from the spec: the declarations of [input.Config],
    [output.Config], [processor.Config], [cache.Config] and
    [ratelimit.Config] are not among the sources; a component config is the
    tagged value {Type, Plugin, optional Label} of the data model. The zero
    value has empty strings and a nil plugin. *)
Record ComponentConfig (A : Type) : Type := mkComponentConfig {
  Label : string;
  Type_ : string;
  Plugin : A
}.
Arguments mkComponentConfig {A} _ _ _.
Arguments Label {A} _.
Arguments Type_ {A} _.
Arguments Plugin {A} _.

(** [tracer.Config], declared before [any] because a typed tracer config
    is one of the dynamic values. *)
Record TracerConfig (A : Type) : Type := mkTracerConfig {
  tracer_Type : string;
  tracer_Plugin : A
}.
Arguments mkTracerConfig {A} _ _.
Arguments tracer_Type {A} _.
Arguments tracer_Plugin {A} _.

(** [any]: the dynamic types that flow through the builder and the decoders.
    [any_other T] stands for a value of any further Go type, whose [%T]
    rendering is [T]. *)
Inductive any : Type :=
| any_nil
| any_bool (b : bool)
| any_int (n : Z)
| any_string (s : string)
| any_slice (l : list any)
| any_map (m : gmap string any)
| any_yaml (n : yaml.Node)
| any_input (c : ComponentConfig any)
| any_output (c : ComponentConfig any)
| any_processor (c : ComponentConfig any)
| any_tracer (c : TracerConfig any)
| any_other (T : string).

(** [%T]: the name of the dynamic type. *)
Definition fmt_T (v : any) : string :=
  match v with
  | any_nil => "<nil>"
  | any_bool _ => "bool"
  | any_int _ => "int"
  | any_string _ => "string"
  | any_slice _ => "[]interface {}"
  | any_map _ => "map[string]interface {}"
  | any_yaml _ => "*yaml.Node"
  | any_input _ => "input.Config"
  | any_output _ => "output.Config"
  | any_processor _ => "processor.Config"
  | any_tracer _ => "tracer.Config"
  | any_other T => T
  end.

(** ** [internal/docs]: names the decoders use *)

Module docs.

(** [docs.Type]: the component roles. *)
Inductive Type_ : Type :=
| TypeBuffer | TypeCache | TypeInput | TypeMetrics | TypeOutput
| TypeProcessor | TypeRateLimit | TypeTracer | TypeScanner.

(** [docs.LintType]: the two lint kinds the tracer decoder raises. *)
Inductive LintType : Type :=
| LintComponentNotFound
| LintFailedRead.

End docs.

(** ** [internal/component/tracer] *)

Module tracer.

Abbreviation Config := (TracerConfig any).

(** [NewConfig]: fully populated with default values. *)
Definition NewConfig : Config := mkTracerConfig "none" any_nil.

(** The zero value of [Config], what the named result [conf] holds before
    it is assigned. *)
Definition zero : Config := mkTracerConfig "" any_nil.

Section decoders.

(** [docs.Provider] and the functions of [internal/docs] used here; the
    component spec that the inference functions return second is dropped
    by both callers. *)
Variable Provider : Type.
Variable GetInferenceCandidateFromMap :
  Provider -> docs.Type_ -> gmap string any -> string * option error.
Variable GetInferenceCandidateFromYAML :
  Provider -> docs.Type_ -> yaml.Node -> string * option error.
Variable GetPluginConfigYAML : string -> yaml.Node -> yaml.Node * option error.
Variable NewLintError : Z -> docs.LintType -> error -> error.

(** [fromMap] *)
Definition fromMap (prov : Provider) (value : gmap string any)
  : Config * option error :=
  match GetInferenceCandidateFromMap prov docs.TypeTracer value with
  | (ty, Some err) =>
      (mkTracerConfig ty any_nil,
       Some (NewLintError 0 docs.LintComponentNotFound err))
  | (ty, None) =>
      match value !! ty with
      | Some p => (mkTracerConfig ty p, None)
      | None =>
          match value !! "plugin" with
          | Some p => (mkTracerConfig ty p, None)
          | None => (mkTracerConfig ty any_nil, None)
          end
      end
  end.

(** [fromYAML] *)
Definition fromYAML (prov : Provider) (value : yaml.Node)
  : Config * option error :=
  match GetInferenceCandidateFromYAML prov docs.TypeTracer value with
  | (ty, Some err) =>
      (mkTracerConfig ty any_nil,
       Some (NewLintError (yaml.Line value) docs.LintComponentNotFound err))
  | (ty, None) =>
      match GetPluginConfigYAML ty value with
      | (_, Some err) =>
          (mkTracerConfig ty any_nil,
           Some (NewLintError (yaml.Line value) docs.LintFailedRead err))
      | (pluginNode, None) => (mkTracerConfig ty (any_yaml pluginNode), None)
      end
  end.

(** [FromAny]: a tracer config from a parsed config, yaml node or map. *)
Definition FromAny (prov : Provider) (value : any) : Config * option error :=
  match value with
  | any_tracer t => (t, None)
  | any_yaml t => fromYAML prov t
  | any_map t => fromMap prov t
  | _ => (zero, Some ("unexpected value, expected object, got " +:+ fmt_T value))
  end.

End decoders.

(** The three source shapes [FromAny] accepts: an already-typed config, a
    YAML node, a string-keyed map. *)
Definition accepted_shape (value : any) : bool :=
  match value with
  | any_tracer _ | any_yaml _ | any_map _ => true
  | _ => false
  end.

End tracer.

(** ** Declarations of the packages the builder imports *)

(** The configuration types of the imported packages whose declarations are
    not in view, each with its [NewConfig]; the types of the caller's
    values (loggers, multiplexer, messages); the process environment. *)
Class Decls : Type := {
  (** [api.Config] without its [Enabled] field, and [api.NewConfig] *)
  api_ConfigRest : Type;
  api_NewConfig_Enabled : bool;
  api_NewConfig_rest : api_ConfigRest;
  (** [buffer.Config], [metrics.Config], [log.Config] *)
  buffer_Config : Type;
  buffer_NewConfig : buffer_Config;
  metrics_Config : Type;
  metrics_NewConfig : metrics_Config;
  log_Config : Type;
  log_NewConfig : log_Config;
  (** [input.NewConfig], [output.NewConfig] *)
  input_NewConfig : ComponentConfig any;
  output_NewConfig : ComponentConfig any;
  (** [*bundle.Environment] (a [docs.Provider]), [*bloblang.Environment],
      the public [*Environment], [docs.FieldSpecs] *)
  Provider : Type;
  BloblangEnvironment : Type;
  Environment : Type;
  FieldSpecs : Type;
  (** [log.Modular], [PrintLogger], [*slog.Logger], [HTTPMultiplexer] *)
  log_Modular : Type;
  PrintLogger : Type;
  slog_Logger : Type;
  HTTPMultiplexer : Type;
  (** [context.Context], [*Message], [*message.Part] *)
  context_Context : Type;
  context_Background : context_Context;
  Message : Type;
  message_Part : Type;
  NewInternalMessage : message_Part -> Message;
  (** [chan message.Transaction], [chan<- error], and a Go function value of
      type [func(string) (string, bool)] *)
  Chan : Type;
  ResChan : Type;
  EnvLookupFn : Type;
  os_LookupEnv : EnvLookupFn;
  (** what [uuid.NewV4] and [make] read and advance *)
  World : Type
}.

Section data.
Context `{D : Decls}.

(** [api.Config] *)
Record api_Config : Type := mk_api_Config {
  Enabled : bool;
  api_rest : api_ConfigRest
}.

(** [api.NewConfig] *)
Definition api_NewConfig : api_Config :=
  mk_api_Config api_NewConfig_Enabled api_NewConfig_rest.

(** Modelled from the spec: [manager.ResourceConfig] is declared outside the
    sources; the resource set holds the labelled configs per kind, and the
    builder reads the two kinds [ResourceCaches] and [ResourceRateLimits]. *)
Record ResourceConfig : Type := mkResourceConfig {
  ResourceCaches : list (ComponentConfig any);
  ResourceRateLimits : list (ComponentConfig any)
}.

(** Modelled from the spec: [manager.NewResourceConfig] is defined outside
    the sources; a builder is created with empty lists. *)
Definition manager_NewResourceConfig : ResourceConfig :=
  mkResourceConfig [] [].

(** [pipeline.Config] *)
Record pipeline_Config : Type := mk_pipeline_Config {
  Threads : Z;
  Processors : list (ComponentConfig any)
}.

(** [stream.Config] *)
Record stream_Config : Type := mk_stream_Config {
  Input : ComponentConfig any;
  Buffer : buffer_Config;
  Pipeline : pipeline_Config;
  Output : ComponentConfig any
}.

(** [builderConfig]: the two pointer fields are [None] when nil; the inlined
    [stream.Config] and [manager.ResourceConfig] are fields here. *)
Record builderConfig : Type := mk_builderConfig {
  bc_HTTP : option api_Config;
  bc_Config : stream_Config;
  bc_ResourceConfig : ResourceConfig;
  bc_Metrics : metrics_Config;
  bc_Logger : option log_Config;
  bc_Tracer : tracer.Config
}.

(** [ConfigSchema], as far as [SetSchema] reads it. *)
Record ConfigSchema : Type := mkConfigSchema {
  version : string;
  fields : FieldSpecs
}.

(** [manager.APIReg]: the builder stores a [muxWrapper] around the caller's
    multiplexer. *)
Inductive APIReg : Type :=
| muxWrapper (m : HTTPMultiplexer).

(** [message.Transaction] *)
Record Transaction : Type := mkTransaction {
  Payload : list message_Part;
  responseChan : ResChan
}.

(** [MessageBatch] *)
Definition MessageBatch : Type := list Message.

End data.

Module config.
Section config_type.
Context `{D : Decls}.

(** [config.Type]; [rawSource] is an [any]. *)
Record Type_ : Type := mkType {
  HTTP : api_Config;
  Config : stream_Config;
  ResourceConfig_ : ResourceConfig;
  Logger : log_Config;
  Metrics : metrics_Config;
  Tracer : tracer.Config;
  SystemCloseDelay : string;
  SystemCloseTimeout : string;
  Tests : list any;
  rawSource : any
}.

(** [GetRawSource] *)
Definition GetRawSource (t : Type_) : any := rawSource t.

End config_type.
End config.

(** ** The collaborators *)

(** What [config.NewReader(...).ReplaceEnvVariables] returns: the text with
    every reference resolved, a [*config.ErrMissingEnvVars] carrying its
    best attempt, or another error. *)
Inductive EnvVarsResult : Type :=
| EnvReplaced (b : string)
| ErrMissingEnvVars (BestAttempt : string)
| EnvFailed (err : error).

(** The functions of other packages, and of other files of this package,
    that the builder calls. A function that fills a node or a config through
    a pointer returns the filled value. *)
Class Collaborators `{D : Decls} : Type := {
  (** this package *)
  globalEnvironment : Environment;
  env_internal : Environment -> Provider;
  env_bloblangEnv : Environment -> BloblangEnvironment;
  Lint : Type;
  lintsToErr : list Lint -> option error;
  convertDocsLintErr : error -> error;
  (** [uuid.NewV4] followed by [String], and [make(chan message.Transaction)] *)
  uuid_NewV4 : World -> result string * World;
  make_chan : World -> Chan * World;
  (** [internal/log] *)
  log_Wrap : PrintLogger -> log_Modular;
  log_NewBenthosLogAdapter : slog_Logger -> log_Modular;
  log_Spec : FieldSpecs;
  (** [internal/bloblang] *)
  Deactivated : BloblangEnvironment -> BloblangEnvironment;
  (** [internal/docs] *)
  LintConfig : Type;
  LintContext : Type;
  SanitiseConfig : Type;
  ParsedConfig : Type;
  docs_NewLintConfig : Provider -> LintConfig;
  LintConfig_set_DocsProvider : Provider -> LintConfig -> LintConfig;
  LintConfig_set_BloblangEnv : BloblangEnvironment -> LintConfig -> LintConfig;
  docs_NewLintContext : LintConfig -> LintContext;
  docs_LintYAML : LintContext -> docs.Type_ -> yaml.Node -> list Lint;
  docs_UnmarshalYAML : string -> result yaml.Node;
  docs_NewSanitiseConfig : Provider -> SanitiseConfig;
  SanitiseConfig_set_RemoveTypeField : bool -> SanitiseConfig -> SanitiseConfig;
  SanitiseConfig_set_RemoveDeprecated : bool -> SanitiseConfig -> SanitiseConfig;
  SanitiseConfig_set_DocsProvider : Provider -> SanitiseConfig -> SanitiseConfig;
  docs_GetInferenceCandidateFromMap :
    Provider -> docs.Type_ -> gmap string any -> string * option error;
  docs_GetInferenceCandidateFromYAML :
    Provider -> docs.Type_ -> yaml.Node -> string * option error;
  docs_GetPluginConfigYAML : string -> yaml.Node -> yaml.Node * option error;
  docs_NewLintError : Z -> docs.LintType -> error -> error;
  (** methods of [docs.FieldSpecs] *)
  FieldSpecs_SetDefault : any -> list string -> FieldSpecs -> FieldSpecs;
  FieldSpecs_LintYAML : FieldSpecs -> LintContext -> yaml.Node -> list Lint;
  FieldSpecs_ParsedConfigFromAny : FieldSpecs -> any -> result ParsedConfig;
  FieldSpecs_SanitiseYAML :
    FieldSpecs -> yaml.Node -> SanitiseConfig -> result yaml.Node;
  FieldSpecs_SetYAMLPath :
    FieldSpecs -> Provider -> yaml.Node -> yaml.Node -> list string ->
    result yaml.Node;
  (** methods of [*docs.ParsedConfig] *)
  ParsedConfig_Contains : ParsedConfig -> list string -> bool;
  ParsedConfig_Namespace : ParsedConfig -> list string -> ParsedConfig;
  ParsedConfig_FieldAny : ParsedConfig -> list string -> any * option error;
  ParsedConfig_FieldString : ParsedConfig -> list string -> result string;
  ParsedConfig_FieldAnyList :
    ParsedConfig -> list string -> result (list ParsedConfig);
  (** [gopkg.in/yaml.v3], [gabs] *)
  yaml_Encode : builderConfig -> result yaml.Node;
  yaml_Encode_any : any -> result yaml.Node;
  yaml_Marshal : yaml.Node -> result string;
  gabs_DotPathToSlice : string -> list string;
  (** the component packages *)
  input_FromAny : Provider -> any -> result (ComponentConfig any);
  processor_FromAny : Provider -> any -> result (ComponentConfig any);
  output_FromAny : Provider -> any -> result (ComponentConfig any);
  cache_FromAny : Provider -> any -> result (ComponentConfig any);
  ratelimit_FromAny : Provider -> any -> result (ComponentConfig any);
  buffer_FromAny : Provider -> any -> result buffer_Config;
  metrics_FromAny : Provider -> any -> result metrics_Config;
  (** [internal/api], [internal/log], [internal/stream], [internal/manager] *)
  api_FromParsed : ParsedConfig -> result api_Config;
  log_FromParsed : ParsedConfig -> result log_Config;
  stream_FromParsed : Provider -> ParsedConfig -> any -> result stream_Config;
  manager_FromParsed : Provider -> ParsedConfig -> result ResourceConfig;
  manager_Spec : FieldSpecs;
  ResourceConfig_AddFrom :
    ResourceConfig -> ResourceConfig -> ResourceConfig * option error;
  manager_Type : Type;
  manager_GetPipe : manager_Type -> string -> result Chan;
  (** [internal/config]: the reader, and the assembled schema of [Spec] *)
  ReplaceEnvVariables : EnvLookupFn -> World -> string -> EnvVarsResult;
  config_Spec : FieldSpecs
}.

(** ** [internal/config]: [FromParsed] *)

Module config_parse.
Section from_parsed.
Context `{C : Collaborators}.

Definition fieldHTTP : string := "http".
Definition fieldLogger : string := "logger".
Definition fieldMetrics : string := "metrics".
Definition fieldTracer : string := "tracer".
Definition fieldSystemCloseDelay : string := "shutdown_delay".
Definition fieldSystemCloseTimeout : string := "shutdown_timeout".
Definition fieldTests : string := "tests".

(** [tracer.FromAny] over the collaborators of [internal/docs]. *)
Definition tracer_FromAny : Provider -> any -> tracer.Config * option error :=
  tracer.FromAny Provider docs_GetInferenceCandidateFromMap
    docs_GetInferenceCandidateFromYAML docs_GetPluginConfigYAML
    docs_NewLintError.

(** The loop over [tmpTests]: [t, _ := v.FieldAny()], appended in order. *)
Definition collect_tests (tests : list any) (tmpTests : list ParsedConfig)
  : list any :=
  fold_left (fun acc v => acc ++ [fst (ParsedConfig_FieldAny v [])])
            tmpTests tests.

(** [noStreamFromParsed]: fills the service fields of [conf]. The result is
    the filled config, or the first error (the callers read the config only
    when the error is nil). *)
Definition noStreamFromParsed (prov : Provider) (pConf : ParsedConfig)
    (stream : stream_Config) (res : ResourceConfig) (raw : any)
  : result config.Type_ :=
  match (if ParsedConfig_Contains pConf [fieldHTTP]
         then api_FromParsed (ParsedConfig_Namespace pConf [fieldHTTP])
         else Ok api_NewConfig) with
  | Err err => Err err
  | Ok http =>
  match (if ParsedConfig_Contains pConf [fieldLogger]
         then log_FromParsed (ParsedConfig_Namespace pConf [fieldLogger])
         else Ok log_NewConfig) with
  | Err err => Err err
  | Ok logger =>
  match (match fst (ParsedConfig_FieldAny pConf [fieldMetrics]) with
         | any_nil => Ok metrics_NewConfig
         | ga => metrics_FromAny prov ga
         end) with
  | Err err => Err err
  | Ok metrics =>
  match (match fst (ParsedConfig_FieldAny pConf [fieldTracer]) with
         | any_nil => (tracer.NewConfig, None)
         | ga => tracer_FromAny prov ga
         end) with
  | (_, Some err) => Err err
  | (tr, None) =>
  match (if ParsedConfig_Contains pConf [fieldSystemCloseDelay]
         then ParsedConfig_FieldString pConf [fieldSystemCloseDelay]
         else Ok "") with
  | Err err => Err err
  | Ok closeDelay =>
  match (if ParsedConfig_Contains pConf [fieldSystemCloseTimeout]
         then ParsedConfig_FieldString pConf [fieldSystemCloseTimeout]
         else Ok "") with
  | Err err => Err err
  | Ok closeTimeout =>
  match (if ParsedConfig_Contains pConf [fieldTests]
         then match ParsedConfig_FieldAnyList pConf [fieldTests] with
              | Err err => Err err
              | Ok tmpTests => Ok (collect_tests [] tmpTests)
              end
         else Ok []) with
  | Err err => Err err
  | Ok tests =>
      Ok (config.mkType http stream res logger metrics tr
            closeDelay closeTimeout tests raw)
  end end end end end end end.

(** [FromParsed]: the service config of a parsed document. *)
Definition FromParsed (prov : Provider) (pConf : ParsedConfig) (rawSource : any)
  : result config.Type_ :=
  match stream_FromParsed prov pConf any_nil with
  | Err err => Err err
  | Ok stream =>
      match manager_FromParsed prov pConf with
      | Err err => Err err
      | Ok res => noStreamFromParsed prov pConf stream res rawSource
      end
  end.

End from_parsed.
End config_parse.

(** ** [public/service]: the stream builder *)

Section service.
Context `{C : Collaborators}.

(** The state that the caller's function values read and write. *)
Context {HSt : Type}.

(** A non-nil Go function value of type [func(context.Context, X) error]:
    it runs on the caller's state and returns an error (or nil), or panics. *)
Definition handler_fn (X : Type) : Type :=
  context_Context -> X -> HSt -> outcome (option error) * HSt.

(** [MessageHandlerFunc] and [MessageBatchHandlerFunc]; [None] is the nil
    function value. *)
Definition MessageHandlerFunc : Type := option (handler_fn Message).
Definition MessageBatchHandlerFunc : Type := option (handler_fn MessageBatch).

(** Calling a function value: a nil one panics. *)
Definition call {X : Type} (fn : option (handler_fn X))
    (c : context_Context) (x : X) (st : HSt) : outcome (option error) * HSt :=
  match fn with
  | None => (Panics, st)
  | Some f => f c x st
  end.

(** [OutputBrokerPatternType] *)
Definition OutputBrokerPatternType : Type := string.

(** [StreamBuilder] *)
Record StreamBuilder : Type := mkStreamBuilder {
  engineVersion : string;
  http : api_Config;
  threads : Z;
  inputs : list (ComponentConfig any);
  buffer : buffer_Config;
  processors : list (ComponentConfig any);
  outputs : list (ComponentConfig any);
  resources : ResourceConfig;
  metrics : metrics_Config;
  tracer : tracer.Config;
  logger : log_Config;
  producerChan : option Chan;
  producerID : string;
  consumerFunc : MessageBatchHandlerFunc;
  consumerID : string;
  apiMut : option APIReg;
  customLogger : option log_Modular;
  configSpec : FieldSpecs;
  env : Environment;
  lintingDisabled : bool;
  envVarLookupFn : EnvLookupFn;
  outputBrokerPattern : OutputBrokerPatternType
}.

(** [s.engineVersion = v] *)
Definition set_engineVersion (v : string) (s : StreamBuilder) : StreamBuilder :=
  mkStreamBuilder v (http s) (threads s) (inputs s) (buffer s) (processors s)
    (outputs s) (resources s) (metrics s) (tracer s) (logger s)
    (producerChan s) (producerID s) (consumerFunc s)
    (consumerID s) (apiMut s) (customLogger s) (configSpec s)
    (env s) (lintingDisabled s) (envVarLookupFn s)
    (outputBrokerPattern s).

(** [s.http = v] *)
Definition set_http (v : api_Config) (s : StreamBuilder) : StreamBuilder :=
  mkStreamBuilder (engineVersion s) v (threads s) (inputs s) (buffer s)
    (processors s) (outputs s) (resources s) (metrics s)
    (tracer s) (logger s) (producerChan s) (producerID s)
    (consumerFunc s) (consumerID s) (apiMut s) (customLogger s)
    (configSpec s) (env s) (lintingDisabled s)
    (envVarLookupFn s) (outputBrokerPattern s).

(** [s.threads = v] *)
Definition set_threads (v : Z) (s : StreamBuilder) : StreamBuilder :=
  mkStreamBuilder (engineVersion s) (http s) v (inputs s) (buffer s)
    (processors s) (outputs s) (resources s) (metrics s)
    (tracer s) (logger s) (producerChan s) (producerID s)
    (consumerFunc s) (consumerID s) (apiMut s) (customLogger s)
    (configSpec s) (env s) (lintingDisabled s)
    (envVarLookupFn s) (outputBrokerPattern s).

(** [s.inputs = v] *)
Definition set_inputs (v : list (ComponentConfig any)) (s : StreamBuilder) : StreamBuilder :=
  mkStreamBuilder (engineVersion s) (http s) (threads s) v (buffer s)
    (processors s) (outputs s) (resources s) (metrics s)
    (tracer s) (logger s) (producerChan s) (producerID s)
    (consumerFunc s) (consumerID s) (apiMut s) (customLogger s)
    (configSpec s) (env s) (lintingDisabled s)
    (envVarLookupFn s) (outputBrokerPattern s).

(** [s.buffer = v] *)
Definition set_buffer (v : buffer_Config) (s : StreamBuilder) : StreamBuilder :=
  mkStreamBuilder (engineVersion s) (http s) (threads s) (inputs s) v
    (processors s) (outputs s) (resources s) (metrics s)
    (tracer s) (logger s) (producerChan s) (producerID s)
    (consumerFunc s) (consumerID s) (apiMut s) (customLogger s)
    (configSpec s) (env s) (lintingDisabled s)
    (envVarLookupFn s) (outputBrokerPattern s).

(** [s.processors = v] *)
Definition set_processors (v : list (ComponentConfig any)) (s : StreamBuilder) : StreamBuilder :=
  mkStreamBuilder (engineVersion s) (http s) (threads s) (inputs s) (buffer s)
    v (outputs s) (resources s) (metrics s) (tracer s)
    (logger s) (producerChan s) (producerID s) (consumerFunc s)
    (consumerID s) (apiMut s) (customLogger s) (configSpec s)
    (env s) (lintingDisabled s) (envVarLookupFn s)
    (outputBrokerPattern s).

(** [s.outputs = v] *)
Definition set_outputs (v : list (ComponentConfig any)) (s : StreamBuilder) : StreamBuilder :=
  mkStreamBuilder (engineVersion s) (http s) (threads s) (inputs s) (buffer s)
    (processors s) v (resources s) (metrics s) (tracer s)
    (logger s) (producerChan s) (producerID s) (consumerFunc s)
    (consumerID s) (apiMut s) (customLogger s) (configSpec s)
    (env s) (lintingDisabled s) (envVarLookupFn s)
    (outputBrokerPattern s).

(** [s.resources = v] *)
Definition set_resources (v : ResourceConfig) (s : StreamBuilder) : StreamBuilder :=
  mkStreamBuilder (engineVersion s) (http s) (threads s) (inputs s) (buffer s)
    (processors s) (outputs s) v (metrics s) (tracer s)
    (logger s) (producerChan s) (producerID s) (consumerFunc s)
    (consumerID s) (apiMut s) (customLogger s) (configSpec s)
    (env s) (lintingDisabled s) (envVarLookupFn s)
    (outputBrokerPattern s).

(** [s.metrics = v] *)
Definition set_metrics (v : metrics_Config) (s : StreamBuilder) : StreamBuilder :=
  mkStreamBuilder (engineVersion s) (http s) (threads s) (inputs s) (buffer s)
    (processors s) (outputs s) (resources s) v (tracer s)
    (logger s) (producerChan s) (producerID s) (consumerFunc s)
    (consumerID s) (apiMut s) (customLogger s) (configSpec s)
    (env s) (lintingDisabled s) (envVarLookupFn s)
    (outputBrokerPattern s).

(** [s.tracer = v] *)
Definition set_tracer (v : tracer.Config) (s : StreamBuilder) : StreamBuilder :=
  mkStreamBuilder (engineVersion s) (http s) (threads s) (inputs s) (buffer s)
    (processors s) (outputs s) (resources s) (metrics s) v
    (logger s) (producerChan s) (producerID s) (consumerFunc s)
    (consumerID s) (apiMut s) (customLogger s) (configSpec s)
    (env s) (lintingDisabled s) (envVarLookupFn s)
    (outputBrokerPattern s).

(** [s.logger = v] *)
Definition set_logger (v : log_Config) (s : StreamBuilder) : StreamBuilder :=
  mkStreamBuilder (engineVersion s) (http s) (threads s) (inputs s) (buffer s)
    (processors s) (outputs s) (resources s) (metrics s)
    (tracer s) v (producerChan s) (producerID s)
    (consumerFunc s) (consumerID s) (apiMut s) (customLogger s)
    (configSpec s) (env s) (lintingDisabled s)
    (envVarLookupFn s) (outputBrokerPattern s).

(** [s.producerChan = v] *)
Definition set_producerChan (v : option Chan) (s : StreamBuilder) : StreamBuilder :=
  mkStreamBuilder (engineVersion s) (http s) (threads s) (inputs s) (buffer s)
    (processors s) (outputs s) (resources s) (metrics s)
    (tracer s) (logger s) v (producerID s) (consumerFunc s)
    (consumerID s) (apiMut s) (customLogger s) (configSpec s)
    (env s) (lintingDisabled s) (envVarLookupFn s)
    (outputBrokerPattern s).

(** [s.producerID = v] *)
Definition set_producerID (v : string) (s : StreamBuilder) : StreamBuilder :=
  mkStreamBuilder (engineVersion s) (http s) (threads s) (inputs s) (buffer s)
    (processors s) (outputs s) (resources s) (metrics s)
    (tracer s) (logger s) (producerChan s) v (consumerFunc s)
    (consumerID s) (apiMut s) (customLogger s) (configSpec s)
    (env s) (lintingDisabled s) (envVarLookupFn s)
    (outputBrokerPattern s).

(** [s.consumerFunc = v] *)
Definition set_consumerFunc (v : MessageBatchHandlerFunc) (s : StreamBuilder) : StreamBuilder :=
  mkStreamBuilder (engineVersion s) (http s) (threads s) (inputs s) (buffer s)
    (processors s) (outputs s) (resources s) (metrics s)
    (tracer s) (logger s) (producerChan s) (producerID s) v
    (consumerID s) (apiMut s) (customLogger s) (configSpec s)
    (env s) (lintingDisabled s) (envVarLookupFn s)
    (outputBrokerPattern s).

(** [s.consumerID = v] *)
Definition set_consumerID (v : string) (s : StreamBuilder) : StreamBuilder :=
  mkStreamBuilder (engineVersion s) (http s) (threads s) (inputs s) (buffer s)
    (processors s) (outputs s) (resources s) (metrics s)
    (tracer s) (logger s) (producerChan s) (producerID s)
    (consumerFunc s) v (apiMut s) (customLogger s)
    (configSpec s) (env s) (lintingDisabled s)
    (envVarLookupFn s) (outputBrokerPattern s).

(** [s.apiMut = v] *)
Definition set_apiMut (v : option APIReg) (s : StreamBuilder) : StreamBuilder :=
  mkStreamBuilder (engineVersion s) (http s) (threads s) (inputs s) (buffer s)
    (processors s) (outputs s) (resources s) (metrics s)
    (tracer s) (logger s) (producerChan s) (producerID s)
    (consumerFunc s) (consumerID s) v (customLogger s)
    (configSpec s) (env s) (lintingDisabled s)
    (envVarLookupFn s) (outputBrokerPattern s).

(** [s.customLogger = v] *)
Definition set_customLogger (v : option log_Modular) (s : StreamBuilder) : StreamBuilder :=
  mkStreamBuilder (engineVersion s) (http s) (threads s) (inputs s) (buffer s)
    (processors s) (outputs s) (resources s) (metrics s)
    (tracer s) (logger s) (producerChan s) (producerID s)
    (consumerFunc s) (consumerID s) (apiMut s) v (configSpec s)
    (env s) (lintingDisabled s) (envVarLookupFn s)
    (outputBrokerPattern s).

(** [s.configSpec = v] *)
Definition set_configSpec (v : FieldSpecs) (s : StreamBuilder) : StreamBuilder :=
  mkStreamBuilder (engineVersion s) (http s) (threads s) (inputs s) (buffer s)
    (processors s) (outputs s) (resources s) (metrics s)
    (tracer s) (logger s) (producerChan s) (producerID s)
    (consumerFunc s) (consumerID s) (apiMut s) (customLogger s)
    v (env s) (lintingDisabled s) (envVarLookupFn s)
    (outputBrokerPattern s).

(** [s.lintingDisabled = v] *)
Definition set_lintingDisabled (v : bool) (s : StreamBuilder) : StreamBuilder :=
  mkStreamBuilder (engineVersion s) (http s) (threads s) (inputs s) (buffer s)
    (processors s) (outputs s) (resources s) (metrics s)
    (tracer s) (logger s) (producerChan s) (producerID s)
    (consumerFunc s) (consumerID s) (apiMut s) (customLogger s)
    (configSpec s) (env s) v (envVarLookupFn s)
    (outputBrokerPattern s).

(** [s.envVarLookupFn = v] *)
Definition set_envVarLookupFn (v : EnvLookupFn) (s : StreamBuilder) : StreamBuilder :=
  mkStreamBuilder (engineVersion s) (http s) (threads s) (inputs s) (buffer s)
    (processors s) (outputs s) (resources s) (metrics s)
    (tracer s) (logger s) (producerChan s) (producerID s)
    (consumerFunc s) (consumerID s) (apiMut s) (customLogger s)
    (configSpec s) (env s) (lintingDisabled s) v
    (outputBrokerPattern s).

(** [s.outputBrokerPattern = v] *)
Definition set_outputBrokerPattern (v : OutputBrokerPatternType) (s : StreamBuilder) : StreamBuilder :=
  mkStreamBuilder (engineVersion s) (http s) (threads s) (inputs s) (buffer s)
    (processors s) (outputs s) (resources s) (metrics s)
    (tracer s) (logger s) (producerChan s) (producerID s)
    (consumerFunc s) (consumerID s) (apiMut s) (customLogger s)
    (configSpec s) (env s) (lintingDisabled s)
    (envVarLookupFn s) v.

(** [NewStreamBuilder] *)
Definition NewStreamBuilder : StreamBuilder :=
  let httpConf := mk_api_Config false (api_rest api_NewConfig) in
  let tmpSpec :=
    FieldSpecs_SetDefault (any_bool false) ["http"; "enabled"] config_Spec in
  {| engineVersion := "";
     http := httpConf;
     threads := 0;
     inputs := [];
     buffer := buffer_NewConfig;
     processors := [];
     outputs := [];
     resources := manager_NewResourceConfig;
     metrics := metrics_NewConfig;
     tracer := tracer.NewConfig;
     logger := log_NewConfig;
     producerChan := None;
     producerID := "";
     consumerFunc := None;
     consumerID := "";
     apiMut := None;
     customLogger := None;
     configSpec := tmpSpec;
     env := globalEnvironment;
     lintingDisabled := false;
     envVarLookupFn := os_LookupEnv;
     outputBrokerPattern := "" |}.

(** [getLintContext] *)
Definition getLintContext (s : StreamBuilder) : LintContext :=
  let conf := docs_NewLintConfig (env_internal (env s)) in
  let conf := LintConfig_set_DocsProvider (env_internal (env s)) conf in
  let conf :=
    LintConfig_set_BloblangEnv (Deactivated (env_bloblangEnv (env s))) conf in
  docs_NewLintContext conf.

(** [SetEngineVersion] *)
Definition SetEngineVersion (ev : string) (s : StreamBuilder) : StreamBuilder :=
  set_engineVersion ev s.

(** [SetSchema] *)
Definition SetSchema (schema : ConfigSchema) (s : StreamBuilder)
  : StreamBuilder :=
  let s :=
    if decide (engineVersion s = "")
    then set_engineVersion (version schema) s else s in
  set_configSpec (fields schema) s.

(** [DisableLinting] *)
Definition DisableLinting (s : StreamBuilder) : StreamBuilder :=
  set_lintingDisabled true s.

(** [SetEnvVarLookupFunc] *)
Definition SetEnvVarLookupFunc (fn : EnvLookupFn) (s : StreamBuilder)
  : StreamBuilder :=
  set_envVarLookupFn fn s.

(** [SetThreads] *)
Definition SetThreads (n : Z) (s : StreamBuilder) : StreamBuilder :=
  set_threads n s.

(** [SetOutputBrokerPattern] *)
Definition SetOutputBrokerPattern (pattern : OutputBrokerPatternType)
    (s : StreamBuilder) : StreamBuilder :=
  set_outputBrokerPattern pattern s.

(** [SetPrintLogger] *)
Definition SetPrintLogger (l : PrintLogger) (s : StreamBuilder) : StreamBuilder :=
  set_customLogger (Some (log_Wrap l)) s.

(** [SetLogger] *)
Definition SetLogger (l : slog_Logger) (s : StreamBuilder) : StreamBuilder :=
  set_customLogger (Some (log_NewBenthosLogAdapter l)) s.

(** [SetHTTPMux] *)
Definition SetHTTPMux (m : HTTPMultiplexer) (s : StreamBuilder) : StreamBuilder :=
  set_apiMut (Some (muxWrapper m)) s.

(** [getYAMLNode]: a missing environment variable is not an error, the
    best attempt is parsed. *)
Definition getYAMLNode (s : StreamBuilder) (w : World) (b : string)
  : result yaml.Node :=
  match ReplaceEnvVariables (envVarLookupFn s) w b with
  | EnvReplaced b' => docs_UnmarshalYAML b'
  | ErrMissingEnvVars BestAttempt => docs_UnmarshalYAML BestAttempt
  | EnvFailed err => Err err
  end.

(** [lintYAMLSpec] *)
Definition lintYAMLSpec (s : StreamBuilder) (spec : FieldSpecs)
    (node : yaml.Node) : option error :=
  if lintingDisabled s then None
  else lintsToErr (FieldSpecs_LintYAML spec (getLintContext s) node).

(** [lintYAMLComponent] *)
Definition lintYAMLComponent (s : StreamBuilder) (node : yaml.Node)
    (ctype : docs.Type_) : option error :=
  if lintingDisabled s then None
  else lintsToErr (docs_LintYAML (getLintContext s) ctype node).

(** The closures that [AddProducerFunc] and [AddBatchProducerFunc] return.
    Each captures the transaction channel [tChan] made by the call; its
    body exchanges a transaction and its response with the running stream
    over channels. *)
Inductive ProducerClosure : Type :=
| producer_func (tChan : Chan)
| batch_producer_func (tChan : Chan).

(** The synthetic [inproc] config that a registration appends:
    [NewConfig()] with [Type] and [Plugin] overwritten. *)
Definition inproc_conf (base : ComponentConfig any) (id : string)
  : ComponentConfig any :=
  mkComponentConfig (Label base) "inproc" (any_string id).

(** [AddProducerFunc] *)
Definition AddProducerFunc (w : World) (s : StreamBuilder)
  : result ProducerClosure * World * StreamBuilder :=
  match producerChan s with
  | Some _ =>
      (Err (errors_New
              "unable to add multiple producer funcs to a stream builder"),
       w, s)
  | None =>
      match uuid_NewV4 w with
      | (Err err, w) =>
          (Err ("failed to generate a producer uuid: " +:+ err), w, s)
      | (Ok uuid, w) =>
          let (tChan, w) := make_chan w in
          let s := set_producerChan (Some tChan) s in
          let s := set_producerID uuid s in
          let conf := inproc_conf input_NewConfig (producerID s) in
          let s := set_inputs (inputs s ++ [conf]) s in
          (Ok (producer_func tChan), w, s)
      end
  end.

(** [AddBatchProducerFunc] *)
Definition AddBatchProducerFunc (w : World) (s : StreamBuilder)
  : result ProducerClosure * World * StreamBuilder :=
  match producerChan s with
  | Some _ =>
      (Err (errors_New
              "unable to add multiple producer funcs to a stream builder"),
       w, s)
  | None =>
      match uuid_NewV4 w with
      | (Err err, w) =>
          (Err ("failed to generate a producer uuid: " +:+ err), w, s)
      | (Ok uuid, w) =>
          let (tChan, w) := make_chan w in
          let s := set_producerChan (Some tChan) s in
          let s := set_producerID uuid s in
          let conf := inproc_conf input_NewConfig (producerID s) in
          let s := set_inputs (inputs s ++ [conf]) s in
          (Ok (batch_producer_func tChan), w, s)
      end
  end.

(** [AddInputYAML] *)
Definition AddInputYAML (conf : string) (w : World) (s : StreamBuilder)
  : option error * StreamBuilder :=
  match getYAMLNode s w conf with
  | Err err => (Some err, s)
  | Ok nconf =>
  match lintYAMLComponent s nconf docs.TypeInput with
  | Some err => (Some err, s)
  | None =>
  match input_FromAny (env_internal (env s)) (any_yaml nconf) with
  | Err err => (Some (convertDocsLintErr err), s)
  | Ok iconf => (None, set_inputs (inputs s ++ [iconf]) s)
  end end end.

(** [AddProcessorYAML] *)
Definition AddProcessorYAML (conf : string) (w : World) (s : StreamBuilder)
  : option error * StreamBuilder :=
  match getYAMLNode s w conf with
  | Err err => (Some err, s)
  | Ok nconf =>
  match lintYAMLComponent s nconf docs.TypeProcessor with
  | Some err => (Some err, s)
  | None =>
  match processor_FromAny (env_internal (env s)) (any_yaml nconf) with
  | Err err => (Some (convertDocsLintErr err), s)
  | Ok pconf => (None, set_processors (processors s ++ [pconf]) s)
  end end end.

(** The closure [AddConsumerFunc] stores: [fn] on each message of the batch
    in order, returning at the first error. *)
Fixpoint per_message (fn : MessageHandlerFunc) (c : context_Context)
    (mb : MessageBatch) (st : HSt) : outcome (option error) * HSt :=
  match mb with
  | [] => (Returns None, st)
  | m :: rest =>
      match call fn c m st with
      | (Returns None, st) => per_message fn c rest st
      | (Returns (Some err), st) => (Returns (Some err), st)
      | (Panics, st) => (Panics, st)
      end
  end.

(** [AddConsumerFunc]: the stored function is the closure over [fn], which
    is not nil whatever [fn] is. *)
Definition AddConsumerFunc (fn : MessageHandlerFunc)
    (w : World) (s : StreamBuilder) : option error * World * StreamBuilder :=
  match consumerFunc s with
  | Some _ =>
      (Some (errors_New
               "unable to add multiple consumer funcs to a stream builder"),
       w, s)
  | None =>
      match uuid_NewV4 w with
      | (Err err, w) =>
          (Some ("failed to generate a consumer uuid: " +:+ err), w, s)
      | (Ok uuid, w) =>
          let s := set_consumerFunc (Some (per_message fn)) s in
          let s := set_consumerID uuid s in
          let conf := inproc_conf output_NewConfig (consumerID s) in
          let s := set_outputs (outputs s ++ [conf]) s in
          (None, w, s)
      end
  end.

(** [AddBatchConsumerFunc]: the stored function is [fn] itself. *)
Definition AddBatchConsumerFunc (fn : MessageBatchHandlerFunc)
    (w : World) (s : StreamBuilder) : option error * World * StreamBuilder :=
  match consumerFunc s with
  | Some _ =>
      (Some (errors_New
               "unable to add multiple consumer funcs to a stream builder"),
       w, s)
  | None =>
      match uuid_NewV4 w with
      | (Err err, w) =>
          (Some ("failed to generate a consumer uuid: " +:+ err), w, s)
      | (Ok uuid, w) =>
          let s := set_consumerFunc fn s in
          let s := set_consumerID uuid s in
          let conf := inproc_conf output_NewConfig (consumerID s) in
          let s := set_outputs (outputs s ++ [conf]) s in
          (None, w, s)
      end
  end.

(** [AddOutputYAML] *)
Definition AddOutputYAML (conf : string) (w : World) (s : StreamBuilder)
  : option error * StreamBuilder :=
  match getYAMLNode s w conf with
  | Err err => (Some err, s)
  | Ok nconf =>
  match lintYAMLComponent s nconf docs.TypeOutput with
  | Some err => (Some err, s)
  | None =>
  match output_FromAny (env_internal (env s)) (any_yaml nconf) with
  | Err err => (Some (convertDocsLintErr err), s)
  | Ok oconf => (None, set_outputs (outputs s ++ [oconf]) s)
  end end end.

(** The loop over the resources of one kind: the first one whose label
    equals [label], when there is one. *)
Definition first_with_label (label : string)
    (rs : list (ComponentConfig any)) : option (ComponentConfig any) :=
  find (fun cc => bool_decide (Label cc = label)) rs.

(** [fmt.Errorf("label %v collides with a previously defined resource", l)] *)
Definition collision_error (l : string) : error :=
  "label " +:+ l +:+ " collides with a previously defined resource".

(** [AddCacheYAML] *)
Definition AddCacheYAML (conf : string) (w : World) (s : StreamBuilder)
  : option error * StreamBuilder :=
  match getYAMLNode s w conf with
  | Err err => (Some err, s)
  | Ok nconf =>
  match lintYAMLComponent s nconf docs.TypeCache with
  | Some err => (Some err, s)
  | None =>
  match cache_FromAny (env_internal (env s)) (any_yaml nconf) with
  | Err err => (Some (convertDocsLintErr err), s)
  | Ok cconf =>
      if decide (Label cconf = "") then
        (Some (errors_New "a label must be specified for cache resources"), s)
      else
        match first_with_label (Label cconf) (ResourceCaches (resources s)) with
        | Some cc => (Some (collision_error (Label cc)), s)
        | None =>
            (None,
             set_resources
               (mkResourceConfig
                  (ResourceCaches (resources s) ++ [cconf])
                  (ResourceRateLimits (resources s))) s)
        end
  end end end.

(** [AddRateLimitYAML] *)
Definition AddRateLimitYAML (conf : string) (w : World) (s : StreamBuilder)
  : option error * StreamBuilder :=
  match getYAMLNode s w conf with
  | Err err => (Some err, s)
  | Ok nconf =>
  match lintYAMLComponent s nconf docs.TypeRateLimit with
  | Some err => (Some err, s)
  | None =>
  match ratelimit_FromAny (env_internal (env s)) (any_yaml nconf) with
  | Err err => (Some (convertDocsLintErr err), s)
  | Ok rconf =>
      if decide (Label rconf = "") then
        (Some (errors_New
                 "a label must be specified for rate limit resources"), s)
      else
        match first_with_label (Label rconf)
                (ResourceRateLimits (resources s)) with
        | Some rl => (Some (collision_error (Label rl)), s)
        | None =>
            (None,
             set_resources
               (mkResourceConfig
                  (ResourceCaches (resources s))
                  (ResourceRateLimits (resources s) ++ [rconf])) s)
        end
  end end end.

(** [AddResourcesYAML]: [AddFrom] writes into [s.resources] and may have
    done so when it returns an error. *)
Definition AddResourcesYAML (conf : string) (w : World) (s : StreamBuilder)
  : option error * StreamBuilder :=
  match getYAMLNode s w conf with
  | Err err => (Some err, s)
  | Ok node =>
  let spec := manager_Spec in
  match lintYAMLSpec s spec node with
  | Some err => (Some err, s)
  | None =>
  match FieldSpecs_ParsedConfigFromAny spec (any_yaml node) with
  | Err err => (Some (convertDocsLintErr err), s)
  | Ok pConf =>
  match manager_FromParsed (env_internal (env s)) pConf with
  | Err err => (Some (convertDocsLintErr err), s)
  | Ok rconf =>
      let (res, err) := ResourceConfig_AddFrom (resources s) rconf in
      (err, set_resources res s)
  end end end end.

(** [setFromConfig] *)
Definition setFromConfig (sconf : config.Type_) (s : StreamBuilder)
  : StreamBuilder :=
  let s := set_http (config.HTTP sconf) s in
  let s := set_inputs [Input (config.Config sconf)] s in
  let s := set_buffer (Buffer (config.Config sconf)) s in
  let s := set_processors (Processors (Pipeline (config.Config sconf))) s in
  let s := set_threads (Threads (Pipeline (config.Config sconf))) s in
  let s := set_outputs [Output (config.Config sconf)] s in
  let s := set_resources (config.ResourceConfig_ sconf) s in
  let s := set_logger (config.Logger sconf) s in
  let s := set_metrics (config.Metrics sconf) s in
  let s := set_tracer (config.Tracer sconf) s in
  s.

(** [SetYAML] *)
Definition SetYAML (conf : string) (w : World) (s : StreamBuilder)
  : option error * StreamBuilder :=
  match producerChan s with
  | Some _ =>
      (Some (errors_New
         "attempted to override inputs config after adding a func producer"),
       s)
  | None =>
  match consumerFunc s with
  | Some _ =>
      (Some (errors_New
         "attempted to override outputs config after adding a func consumer"),
       s)
  | None =>
  match getYAMLNode s w conf with
  | Err err => (Some err, s)
  | Ok node =>
  let spec := configSpec s in
  match lintYAMLSpec s spec node with
  | Some err => (Some err, s)
  | None =>
  match FieldSpecs_ParsedConfigFromAny spec (any_yaml node) with
  | Err err => (Some (convertDocsLintErr err), s)
  | Ok pConf =>
  match config_parse.FromParsed (env_internal (env s)) pConf any_nil with
  | Err err => (Some (convertDocsLintErr err), s)
  | Ok sconf => (None, setFromConfig sconf s)
  end end end end end end.

(** The broker payload of the composed input: the map literal
    [{"inputs": iSlice}], [iSlice] holding the configs in slice order. *)
Definition input_broker_payload (ins : list (ComponentConfig any))
  : gmap string any :=
  {[ "inputs" := any_slice (any_input <$> ins) ]}.

(** The broker payload of the composed output: [{"outputs": iSlice}], and
    the [pattern] entry when the builder's pattern is not empty. *)
Definition output_broker_payload (outs : list (ComponentConfig any))
    (pattern : OutputBrokerPatternType) : gmap string any :=
  let broker : gmap string any :=
    {[ "outputs" := any_slice (any_output <$> outs) ]} in
  if decide (pattern = "") then broker
  else <[ "pattern" := any_string pattern ]> broker.

(** [buildConfig]. The three branches on [len(s.inputs)] (one, more than
    one, none) are the three shapes of the list; the broker config starts
    from the zero value, so it carries no label. *)
Definition buildConfig (s : StreamBuilder) : builderConfig :=
  let HTTP := match apiMut s with
              | None => Some (http s)
              | Some _ => None
              end in
  let Input := match inputs s with
               | [c] => c
               | _ :: _ :: _ =>
                   mkComponentConfig "" "broker"
                     (any_map (input_broker_payload (inputs s)))
               | [] => input_NewConfig
               end in
  let Output := match outputs s with
                | [c] => c
                | _ :: _ :: _ =>
                    mkComponentConfig "" "broker"
                      (any_map (output_broker_payload (outputs s)
                                  (outputBrokerPattern s)))
                | [] => output_NewConfig
                end in
  {| bc_HTTP := HTTP;
     bc_Config :=
       {| Input := Input;
          Buffer := buffer s;
          Pipeline := {| Threads := threads s; Processors := processors s |};
          Output := Output |};
     bc_ResourceConfig := resources s;
     bc_Metrics := metrics s;
     bc_Logger := match customLogger s with
                  | None => Some (logger s)
                  | Some _ => None
                  end;
     bc_Tracer := tracer s |}.

(** The composed input and output of the snapshot. *)
Definition composed_input (s : StreamBuilder) : ComponentConfig any :=
  Input (bc_Config (buildConfig s)).

Definition composed_output (s : StreamBuilder) : ComponentConfig any :=
  Output (bc_Config (buildConfig s)).

(** The sanitiser settings shared by [AsYAML] and [SetFields]. *)
Definition sanitConf (s : StreamBuilder) : SanitiseConfig :=
  let c := docs_NewSanitiseConfig (env_internal (env s)) in
  let c := SanitiseConfig_set_RemoveTypeField true c in
  let c := SanitiseConfig_set_RemoveDeprecated false c in
  SanitiseConfig_set_DocsProvider (env_internal (env s)) c.

(** The loop of [SetFields] over the pairs, [i] the index of the path. *)
Fixpoint set_paths (s : StreamBuilder) (i : nat) (pathValues : list any)
    (rootNode : yaml.Node) : result yaml.Node :=
  match pathValues with
  | path :: value :: rest =>
      match yaml_Encode_any value with
      | Err err => Err err
      | Ok valueNode =>
          match path with
          | any_string pathString =>
              match FieldSpecs_SetYAMLPath (configSpec s)
                      (env_internal (env s)) rootNode valueNode
                      (gabs_DotPathToSlice pathString) with
              | Err err => Err err
              | Ok rootNode => set_paths s (i + 2) rest rootNode
              end
          | _ =>
              Err ("variadic pair element " +:+ fmt_int i
                   +:+ " should be a string, got a " +:+ fmt_T path)
          end
      end
  | _ => Ok rootNode
  end.

(** [SetFields] *)
Definition SetFields (pathValues : list any) (s : StreamBuilder)
  : option error * StreamBuilder :=
  match producerChan s with
  | Some _ =>
      (Some (errors_New
         "attempted to override config after adding a func producer"), s)
  | None =>
  match consumerFunc s with
  | Some _ =>
      (Some (errors_New
         "attempted to override config after adding a func consumer"), s)
  | None =>
  if negb (Nat.even (length pathValues)) then
    (Some (errors_New "invalid odd number of pathValues provided"), s)
  else
  match yaml_Encode (buildConfig s) with
  | Err err => (Some err, s)
  | Ok rootNode =>
  match FieldSpecs_SanitiseYAML (configSpec s) rootNode (sanitConf s) with
  | Err err => (Some err, s)
  | Ok rootNode =>
  match set_paths s 0 pathValues rootNode with
  | Err err => (Some err, s)
  | Ok rootNode =>
  let spec := configSpec s in
  match lintYAMLSpec s spec rootNode with
  | Some err => (Some err, s)
  | None =>
  match FieldSpecs_ParsedConfigFromAny spec (any_yaml rootNode) with
  | Err err => (Some err, s)
  | Ok pConf =>
  match config_parse.FromParsed (env_internal (env s)) pConf any_nil with
  | Err err => (Some (convertDocsLintErr err), s)
  | Ok sconf => (None, setFromConfig sconf s)
  end end end end end end end end.

(** [SetBufferYAML] *)
Definition SetBufferYAML (conf : string) (w : World) (s : StreamBuilder)
  : option error * StreamBuilder :=
  match getYAMLNode s w conf with
  | Err err => (Some err, s)
  | Ok nconf =>
  match lintYAMLComponent s nconf docs.TypeBuffer with
  | Some err => (Some err, s)
  | None =>
  match buffer_FromAny (env_internal (env s)) (any_yaml nconf) with
  | Err err => (Some (convertDocsLintErr err), s)
  | Ok bconf => (None, set_buffer bconf s)
  end end end.

(** [SetMetricsYAML] *)
Definition SetMetricsYAML (conf : string) (w : World) (s : StreamBuilder)
  : option error * StreamBuilder :=
  match getYAMLNode s w conf with
  | Err err => (Some err, s)
  | Ok nconf =>
  match lintYAMLComponent s nconf docs.TypeMetrics with
  | Some err => (Some err, s)
  | None =>
  match metrics_FromAny (env_internal (env s)) (any_yaml nconf) with
  | Err err => (Some (convertDocsLintErr err), s)
  | Ok mconf => (None, set_metrics mconf s)
  end end end.

(** [SetTracerYAML] *)
Definition SetTracerYAML (conf : string) (w : World) (s : StreamBuilder)
  : option error * StreamBuilder :=
  match getYAMLNode s w conf with
  | Err err => (Some err, s)
  | Ok nconf =>
  match lintYAMLComponent s nconf docs.TypeTracer with
  | Some err => (Some err, s)
  | None =>
  match config_parse.tracer_FromAny (env_internal (env s)) (any_yaml nconf) with
  | (_, Some err) => (Some (convertDocsLintErr err), s)
  | (tconf, None) => (None, set_tracer tconf s)
  end end end.

(** [SetLoggerYAML] *)
Definition SetLoggerYAML (conf : string) (w : World) (s : StreamBuilder)
  : option error * StreamBuilder :=
  match getYAMLNode s w conf with
  | Err err => (Some err, s)
  | Ok node =>
  let spec := log_Spec in
  match lintYAMLSpec s spec node with
  | Some err => (Some err, s)
  | None =>
  match FieldSpecs_ParsedConfigFromAny spec (any_yaml node) with
  | Err err => (Some (convertDocsLintErr err), s)
  | Ok pConf =>
  match log_FromParsed pConf with
  | Err err => (Some err, s)
  | Ok lconf => (None, set_logger lconf s)
  end end end end.

(** [AsYAML] *)
Definition AsYAML (s : StreamBuilder) : result string :=
  let conf := buildConfig s in
  match yaml_Encode conf with
  | Err err => Err err
  | Ok node =>
      match FieldSpecs_SanitiseYAML (configSpec s) node (sanitConf s) with
      | Err err => Err err
      | Ok node => yaml_Marshal node
      end
  end.

(** One turn of the loop that [runConsumerFunc] starts: the batch is
    rebuilt from the payload in order, the consumer function runs on it,
    and its result is what [tran.Ack] sends on the response channel. *)
Definition consume (s : StreamBuilder) (tran : Transaction) (st : HSt)
  : outcome (ResChan * option error) * HSt :=
  let batch := NewInternalMessage <$> Payload tran in
  match call (consumerFunc s) context_Background batch st with
  | (Returns err, st) => (Returns (responseChan tran, err), st)
  | (Panics, st) => (Panics, st)
  end.

(** The loop itself, over the transactions received before the pipe is
    closed: the acknowledgements sent, in order. *)
Fixpoint consume_all (s : StreamBuilder) (trans : list Transaction)
    (st : HSt) : outcome (list (ResChan * option error)) * HSt :=
  match trans with
  | [] => (Returns [], st)
  | tran :: rest =>
      match consume s tran st with
      | (Panics, st) => (Panics, st)
      | (Returns ack, st) =>
          match consume_all s rest st with
          | (Panics, st) => (Panics, st)
          | (Returns acks, st) => (Returns (ack :: acks), st)
          end
      end
  end.

(** [runConsumerFunc]: nothing to run without a consumer function; with
    one, the pipe named by the consumer id is looked up and the loop is
    started on it ([Ok (Some tChan)]). *)
Definition runConsumerFunc (s : StreamBuilder) (mgr : manager_Type)
  : result (option Chan) :=
  match consumerFunc s with
  | None => Ok None
  | Some _ =>
      match manager_GetPipe mgr (consumerID s) with
      | Err err => Err err
      | Ok tChan => Ok (Some tChan)
      end
  end.

(** ** Sequences of builder calls *)

(** One call of a mutating method of the builder, with its arguments. *)
Inductive Op : Type :=
| CallSetEngineVersion (ev : string)
| CallSetSchema (schema : ConfigSchema)
| CallDisableLinting
| CallSetEnvVarLookupFunc (fn : EnvLookupFn)
| CallSetThreads (n : Z)
| CallSetOutputBrokerPattern (pattern : OutputBrokerPatternType)
| CallSetPrintLogger (l : PrintLogger)
| CallSetLogger (l : slog_Logger)
| CallSetHTTPMux (m : HTTPMultiplexer)
| CallAddProducerFunc
| CallAddBatchProducerFunc
| CallAddInputYAML (conf : string)
| CallAddProcessorYAML (conf : string)
| CallAddConsumerFunc (fn : MessageHandlerFunc)
| CallAddBatchConsumerFunc (fn : MessageBatchHandlerFunc)
| CallAddOutputYAML (conf : string)
| CallAddCacheYAML (conf : string)
| CallAddRateLimitYAML (conf : string)
| CallAddResourcesYAML (conf : string)
| CallSetYAML (conf : string)
| CallSetFields (pathValues : list any)
| CallSetBufferYAML (conf : string)
| CallSetMetricsYAML (conf : string)
| CallSetTracerYAML (conf : string)
| CallSetLoggerYAML (conf : string).

(** A producer registration yields its closure or an error; here only the
    error is kept. *)
Definition error_of {A : Type} (r : result A) : option error :=
  match r with
  | Ok _ => None
  | Err err => Some err
  end.

(** The call [op] on the builder [s] in the world [w]: the error returned
    ([None] also for the methods that return nothing), the world and the
    builder after the call. *)
Definition step (op : Op) (w : World) (s : StreamBuilder)
  : option error * World * StreamBuilder :=
  match op with
  | CallSetEngineVersion ev => (None, w, SetEngineVersion ev s)
  | CallSetSchema schema => (None, w, SetSchema schema s)
  | CallDisableLinting => (None, w, DisableLinting s)
  | CallSetEnvVarLookupFunc fn => (None, w, SetEnvVarLookupFunc fn s)
  | CallSetThreads n => (None, w, SetThreads n s)
  | CallSetOutputBrokerPattern p => (None, w, SetOutputBrokerPattern p s)
  | CallSetPrintLogger l => (None, w, SetPrintLogger l s)
  | CallSetLogger l => (None, w, SetLogger l s)
  | CallSetHTTPMux m => (None, w, SetHTTPMux m s)
  | CallAddProducerFunc =>
      let '(r, w, s) := AddProducerFunc w s in (error_of r, w, s)
  | CallAddBatchProducerFunc =>
      let '(r, w, s) := AddBatchProducerFunc w s in (error_of r, w, s)
  | CallAddInputYAML conf => let (e, s) := AddInputYAML conf w s in (e, w, s)
  | CallAddProcessorYAML conf =>
      let (e, s) := AddProcessorYAML conf w s in (e, w, s)
  | CallAddConsumerFunc fn => AddConsumerFunc fn w s
  | CallAddBatchConsumerFunc fn => AddBatchConsumerFunc fn w s
  | CallAddOutputYAML conf => let (e, s) := AddOutputYAML conf w s in (e, w, s)
  | CallAddCacheYAML conf => let (e, s) := AddCacheYAML conf w s in (e, w, s)
  | CallAddRateLimitYAML conf =>
      let (e, s) := AddRateLimitYAML conf w s in (e, w, s)
  | CallAddResourcesYAML conf =>
      let (e, s) := AddResourcesYAML conf w s in (e, w, s)
  | CallSetYAML conf => let (e, s) := SetYAML conf w s in (e, w, s)
  | CallSetFields pathValues =>
      let (e, s) := SetFields pathValues s in (e, w, s)
  | CallSetBufferYAML conf => let (e, s) := SetBufferYAML conf w s in (e, w, s)
  | CallSetMetricsYAML conf =>
      let (e, s) := SetMetricsYAML conf w s in (e, w, s)
  | CallSetTracerYAML conf => let (e, s) := SetTracerYAML conf w s in (e, w, s)
  | CallSetLoggerYAML conf => let (e, s) := SetLoggerYAML conf w s in (e, w, s)
  end.

(** The calls [ops] one after the other: each call with the error it
    returned, and the final world and builder. *)
Fixpoint run (ops : list Op) (w : World) (s : StreamBuilder)
  : list (Op * option error) * World * StreamBuilder :=
  match ops with
  | [] => ([], w, s)
  | op :: rest =>
      let '(e, w, s) := step op w s in
      let '(log, w, s) := run rest w s in
      ((op, e) :: log, w, s)
  end.

(** The kinds of registration. *)
Definition is_producer_registration (op : Op) : bool :=
  match op with
  | CallAddProducerFunc | CallAddBatchProducerFunc => true
  | _ => false
  end.

Definition is_consumer_registration (op : Op) : bool :=
  match op with
  | CallAddConsumerFunc _ | CallAddBatchConsumerFunc _ => true
  | _ => false
  end.

(** Every call but a batch consumer registration given the nil function. *)
Definition gives_handler (op : Op) : bool :=
  match op with
  | CallAddBatchConsumerFunc None => false
  | _ => true
  end.

(** The calls of a log that satisfy [kind] and returned no error. *)
Definition succeeded (kind : Op -> bool) (log : list (Op * option error))
  : list (Op * option error) :=
  filter (fun c => kind (fst c) = true /\ snd c = None) log.

(** The cache and rate limit additions. *)
Definition is_resource_add (op : Op) : bool :=
  match op with
  | CallAddCacheYAML _ | CallAddRateLimitYAML _ => true
  | _ => false
  end.

(** The labels of the resources of each kind. *)
Definition cache_labels (s : StreamBuilder) : list string :=
  Label <$> ResourceCaches (resources s).

Definition rate_limit_labels (s : StreamBuilder) : list string :=
  Label <$> ResourceRateLimits (resources s).

(** The registry invariant: within each kind the labels are pairwise
    distinct and none is empty. *)
Definition labels_ok (s : StreamBuilder) : Prop :=
  NoDup (cache_labels s) /\ ("" ∉ cache_labels s)
  /\ NoDup (rate_limit_labels s) /\ ("" ∉ rate_limit_labels s).

End service.

Arguments handler_fn {D} HSt X.
Arguments MessageHandlerFunc {D} HSt.
Arguments MessageBatchHandlerFunc {D} HSt.
Arguments StreamBuilder {D} HSt.
Arguments Op {D} HSt.
Arguments NewStreamBuilder {D C} HSt.

(** ** The closures returned by the producer registrations

    A call of such a closure runs next to the stream and meets it at two
    [select] statements. What the call finds there is read from a
    schedule, as a uuid is read from the world. *)

Section producer_calls.
Context `{D : Decls}.

(** [m.part], and [make(chan error)]. *)
Variable part : Message -> message_Part.
Variable make_resChan : World -> ResChan * World.

(** What one call meets. When the first [select] is decided: whether
    [ctx.Done()] is already closed, whether the stream is receiving on
    [tChan], and the case Go picks when both can proceed. When the second
    is decided: whether the context was cancelled in between (a closed
    channel stays closed), the response that the stream is sending on
    [resChan], if it is sending one, and Go's pick again. [ctx_Err] is
    what [ctx.Err()] returns once the context is done. *)
Record Schedule : Type := mkSchedule {
  ctx_Err : error;
  done_before_call : bool;
  stream_receives : bool;
  picks_send : bool;
  done_meanwhile : bool;
  stream_responds : option (option error);
  picks_response : bool
}.

(** The case of a [select] of two communications that proceeds: with one
    of them ready it is that one, with both ready the one Go picks, and
    with none ready the [select] blocks. *)
Inductive Selected : Type :=
| first_case
| second_case
| no_case.

Definition select (first second pick_first : bool) : Selected :=
  match first, second with
  | true, true => if pick_first then first_case else second_case
  | true, false => first_case
  | false, true => second_case
  | false, false => no_case
  end.

(** How a call ends: it returns an error value, or it stays blocked at a
    [select] none of whose cases can proceed. *)
Inductive CallEnd : Type :=
| Returned (err : option error)
| Blocked.

(** A call as the stream sees it: how it ended, the transaction that was
    sent on the channel, if the send proceeded, and whether the response
    was received from [resChan]. *)
Record Delivery : Type := mkDelivery {
  ended : CallEnd;
  handed_over : option (Chan * Transaction);
  response_received : bool
}.

(** The closure that [AddProducerFunc] returns. *)
Definition producer_func_body (tChan : Chan) (ctx : context_Context)
    (m : Message) (sch : Schedule) (w : World) : Delivery * World :=
  let tmpMsg := [part m] in
  let (resChan, w) := make_resChan w in
  let tran := mkTransaction tmpMsg resChan in
  match select (stream_receives sch) (done_before_call sch) (picks_send sch)
  with
  | no_case => (mkDelivery Blocked None false, w)
  | second_case =>
      (mkDelivery (Returned (Some (ctx_Err sch))) None false, w)
  | first_case =>
      let done := done_before_call sch || done_meanwhile sch in
      match stream_responds sch with
      | Some res =>
          match select true done (picks_response sch) with
          | first_case =>
              (mkDelivery (Returned res) (Some (tChan, tran)) true, w)
          | second_case =>
              (mkDelivery (Returned (Some (ctx_Err sch)))
                 (Some (tChan, tran)) false, w)
          | no_case => (mkDelivery Blocked (Some (tChan, tran)) false, w)
          end
      | None =>
          match select false done (picks_response sch) with
          | second_case =>
              (mkDelivery (Returned (Some (ctx_Err sch)))
                 (Some (tChan, tran)) false, w)
          | _ => (mkDelivery Blocked (Some (tChan, tran)) false, w)
          end
      end
  end.

(** The closure that [AddBatchProducerFunc] returns. *)
Definition batch_producer_func_body (tChan : Chan) (ctx : context_Context)
    (b : MessageBatch) (sch : Schedule) (w : World) : Delivery * World :=
  let tmpMsg := part <$> b in
  let (resChan, w) := make_resChan w in
  let tran := mkTransaction tmpMsg resChan in
  match select (stream_receives sch) (done_before_call sch) (picks_send sch)
  with
  | no_case => (mkDelivery Blocked None false, w)
  | second_case =>
      (mkDelivery (Returned (Some (ctx_Err sch))) None false, w)
  | first_case =>
      let done := done_before_call sch || done_meanwhile sch in
      match stream_responds sch with
      | Some res =>
          match select true done (picks_response sch) with
          | first_case =>
              (mkDelivery (Returned res) (Some (tChan, tran)) true, w)
          | second_case =>
              (mkDelivery (Returned (Some (ctx_Err sch)))
                 (Some (tChan, tran)) false, w)
          | no_case => (mkDelivery Blocked (Some (tChan, tran)) false, w)
          end
      | None =>
          match select false done (picks_response sch) with
          | second_case =>
              (mkDelivery (Returned (Some (ctx_Err sch)))
                 (Some (tChan, tran)) false, w)
          | _ => (mkDelivery Blocked (Some (tChan, tran)) false, w)
          end
      end
  end.

End producer_calls.

(** ** Invariants of the builder *)

Section invariants.
Context `{C : Collaborators} {HSt : Type}.

(** The synthetic endpoints are wired: a builder with a producer channel
    holds the [inproc] input named by its producer id, and a builder with
    a consumer function holds the [inproc] output named by its consumer
    id. *)
Definition wired (s : StreamBuilder HSt) : Prop :=
  (producerChan s <> None ->
   inproc_conf input_NewConfig (producerID s) ∈ inputs s)
  /\ (consumerFunc s <> None ->
      inproc_conf output_NewConfig (consumerID s) ∈ outputs s).

(** The two calls that replace the configuration wholesale. *)
Definition is_replacement (op : Op HSt) : bool :=
  match op with
  | CallSetYAML _ | CallSetFields _ => true
  | _ => false
  end.

End invariants.

(** ** [internal/config]: the schema *)

Module schema.
Section spec.

(** [docs.FieldSpec] with its [Name], and the constructors and methods of
    [internal/docs] that the schema is built with. *)
Variable FieldSpec : Type.
Variable Name : FieldSpec -> string.
Variable FieldObject : string -> string -> FieldSpec.
Variable FieldMetrics : string -> string -> FieldSpec.
Variable FieldTracer : string -> string -> FieldSpec.
Variable FieldString : string -> string -> FieldSpec.
Variable WithChildren : FieldSpec -> list FieldSpec -> FieldSpec.
Variable HasDefault : FieldSpec -> any -> FieldSpec.
Variable Advanced : FieldSpec -> FieldSpec.

(** [api.Spec], [log.Spec], [stream.Spec], [manager.Spec],
    [test.ConfigSpec], and whether [bundle.GlobalEnvironment.GetDocs] finds
    a component. *)
Variable api_Spec : list FieldSpec.
Variable log_Spec : list FieldSpec.
Variable stream_Spec : list FieldSpec.
Variable manager_Spec : list FieldSpec.
Variable test_ConfigSpec : FieldSpec.
Variable GetDocs_exists : string -> docs.Type_ -> bool.

(** [httpField] *)
Definition httpField : FieldSpec :=
  WithChildren
    (FieldObject config_parse.fieldHTTP
       "Configures the service-wide HTTP server.")
    api_Spec.

(** [observabilityFields] *)
Definition observabilityFields : list FieldSpec :=
  let defaultMetrics :=
    if GetDocs_exists "prometheus" docs.TypeMetrics then "prometheus"
    else "none" in
  [ WithChildren
      (FieldObject config_parse.fieldLogger
         "Describes how operational logs should be emitted.")
      log_Spec;
    HasDefault
      (FieldMetrics config_parse.fieldMetrics
         "A mechanism for exporting metrics.")
      (any_map (<[ defaultMetrics := any_map ∅ ]>
                  {[ "mapping" := any_string "" ]}));
    HasDefault
      (FieldTracer config_parse.fieldTracer
         "A mechanism for exporting traces.")
      (any_map {[ "none" := any_map ∅ ]});
    HasDefault
      (FieldString config_parse.fieldSystemCloseDelay
         "A period of time to wait for metrics and traces to be pulled or pushed from the process.")
      (any_string "0s");
    HasDefault
      (FieldString config_parse.fieldSystemCloseTimeout
         "The maximum period of time to wait for a clean shutdown. If this time is exceeded Redpanda Connect will forcefully close.")
      (any_string "20s") ].

(** [Spec]: the fields of an entire configuration. *)
Definition Spec : list FieldSpec :=
  let fields := [httpField] in
  let fields := fields ++ stream_Spec in
  let fields := fields ++ manager_Spec in
  let fields := fields ++ observabilityFields in
  let fields := fields ++ [Advanced test_ConfigSpec] in
  fields.

(** The set [streamFields] of [SpecWithoutStream]: the names of the fields
    of [stream.Spec]. *)
Definition streamFields : gset string :=
  foldl (fun names f => {[ Name f ]} ∪ names) ∅ stream_Spec.

(** [SpecWithoutStream]: the fields of [spec], in order, but for those
    whose name is in [streamFields]. *)
Definition SpecWithoutStream (spec : list FieldSpec) : list FieldSpec :=
  foldl (fun fields f =>
           if decide (Name f ∈ streamFields) then fields
           else fields ++ [f])
        [] spec.

End spec.
End schema.

(** ** Observing the calls of a handler *)

Section observation.
Context `{D : Decls} {HSt : Type}.

(** [traced f] behaves as [f] and appends each message it is called with
    to a log kept next to the caller's state. *)
Definition traced (f : handler_fn HSt Message)
  : handler_fn (HSt * list Message) Message :=
  fun c m stl =>
    let (r, st) := f c m (fst stl) in (r, (st, snd stl ++ [m])).

(** [quiet f c ms st st']: called on the messages [ms] one after the
    other from the state [st], [f] returns nil every time and leaves the
    state [st']. *)
Inductive quiet (f : handler_fn HSt Message) (c : context_Context)
  : list Message -> HSt -> HSt -> Prop :=
| quiet_nil st : quiet f c [] st st
| quiet_cons m ms st st1 st2 :
    f c m st = (Returns None, st1) ->
    quiet f c ms st1 st2 ->
    quiet f c (m :: ms) st st2.

End observation.

(** ** Observing the calls of a batch handler *)

Section batch_observation.
Context `{D : Decls} {HSt : Type}.

(** [traced_batch f] behaves as [f] and appends each batch it is called
    with to a log kept next to the caller's state. *)
Definition traced_batch (f : handler_fn HSt MessageBatch)
  : handler_fn (HSt * list MessageBatch) MessageBatch :=
  fun c b stl =>
    let (r, st) := f c b (fst stl) in (r, (st, snd stl ++ [b])).

(** [answers f c bs st errs st']: called on the batches [bs] one after the
    other from the state [st], [f] returns the errors [errs], one for each
    batch and in that order, and leaves the state [st']. *)
Inductive answers (f : handler_fn HSt MessageBatch) (c : context_Context)
  : list MessageBatch -> HSt -> list (option error) -> HSt -> Prop :=
| answers_nil st : answers f c [] st [] st
| answers_cons b bs st err st1 errs st2 :
    f c b st = (Returns err, st1) ->
    answers f c bs st1 errs st2 ->
    answers f c (b :: bs) st (err :: errs) st2.

End batch_observation.

(** ** A concrete environment

    Small collaborators on which the definitions above evaluate: a YAML
    document is a scalar node holding its text, a component decoded from a
    node takes the text as its label, uuids and channels are numbered. *)

Module demo.

Definition scalar (b : string) : yaml.Node := yaml.mkNode 8 "!!str" b [] 1.

Definition component (ty : string) (v : any) : result (ComponentConfig any) :=
  match v with
  | any_yaml n => Ok (mkComponentConfig (yaml.Value n) ty any_nil)
  | _ => Err ("unexpected value, expected object, got " +:+ fmt_T v)
  end.

#[export] Instance decls : Decls := {|
  api_ConfigRest := string;
  api_NewConfig_Enabled := true;
  api_NewConfig_rest := "0.0.0.0:4195";
  buffer_Config := string;
  buffer_NewConfig := "none";
  metrics_Config := string;
  metrics_NewConfig := "none";
  log_Config := string;
  log_NewConfig := "INFO";
  input_NewConfig := mkComponentConfig "" "stdin" any_nil;
  output_NewConfig := mkComponentConfig "" "stdout" any_nil;
  Provider := unit;
  BloblangEnvironment := unit;
  Environment := unit;
  FieldSpecs := list string;
  log_Modular := unit;
  PrintLogger := unit;
  slog_Logger := unit;
  HTTPMultiplexer := unit;
  context_Context := unit;
  context_Background := tt;
  Message := string;
  message_Part := string;
  NewInternalMessage := fun p => p;
  Chan := nat;
  ResChan := nat;
  EnvLookupFn := string -> option string;
  os_LookupEnv := fun _ => None;
  World := nat
|}.

#[export] Instance collaborators : Collaborators := {|
  globalEnvironment := tt;
  env_internal := fun _ => tt;
  env_bloblangEnv := fun _ => tt;
  Lint := string;
  lintsToErr := fun ls => match ls with [] => None | l :: _ => Some l end;
  convertDocsLintErr := fun e => e;
  uuid_NewV4 := fun w => (Ok ("uuid-" +:+ fmt_int w), S w);
  make_chan := fun w => (w, S w);
  log_Wrap := fun _ => tt;
  log_NewBenthosLogAdapter := fun _ => tt;
  log_Spec := ["level"];
  Deactivated := fun e => e;
  LintConfig := unit;
  LintContext := unit;
  SanitiseConfig := unit;
  ParsedConfig := yaml.Node;
  docs_NewLintConfig := fun _ => tt;
  LintConfig_set_DocsProvider := fun _ c => c;
  LintConfig_set_BloblangEnv := fun _ c => c;
  docs_NewLintContext := fun c => c;
  docs_LintYAML := fun _ _ _ => [];
  docs_UnmarshalYAML := fun b => Ok (scalar b);
  docs_NewSanitiseConfig := fun _ => tt;
  SanitiseConfig_set_RemoveTypeField := fun _ c => c;
  SanitiseConfig_set_RemoveDeprecated := fun _ c => c;
  SanitiseConfig_set_DocsProvider := fun _ c => c;
  docs_GetInferenceCandidateFromMap := fun _ _ _ => ("none", None);
  docs_GetInferenceCandidateFromYAML := fun _ _ n => (yaml.Value n, None);
  docs_GetPluginConfigYAML := fun _ n => (n, None);
  docs_NewLintError := fun _ _ e => e;
  FieldSpecs_SetDefault := fun _ _ spec => spec;
  FieldSpecs_LintYAML := fun _ _ _ => [];
  FieldSpecs_ParsedConfigFromAny := fun _ v =>
    match v with
    | any_yaml n => Ok n
    | _ => Err "expected a document"
    end;
  FieldSpecs_SanitiseYAML := fun _ n _ => Ok n;
  FieldSpecs_SetYAMLPath := fun _ _ root _ _ => Ok root;
  ParsedConfig_Contains := fun _ _ => false;
  ParsedConfig_Namespace := fun p _ => p;
  ParsedConfig_FieldAny := fun _ _ => (any_nil, None);
  ParsedConfig_FieldString := fun _ _ => Ok "";
  ParsedConfig_FieldAnyList := fun _ _ => Ok [];
  yaml_Encode := fun _ => Ok (scalar "");
  yaml_Encode_any := fun _ => Ok (scalar "");
  yaml_Marshal := fun n => Ok (yaml.Value n);
  gabs_DotPathToSlice := fun p => [p];
  input_FromAny := fun _ => component "generate";
  processor_FromAny := fun _ => component "mapping";
  output_FromAny := fun _ => component "drop";
  cache_FromAny := fun _ => component "memory";
  ratelimit_FromAny := fun _ => component "local";
  buffer_FromAny := fun _ _ => Ok "memory";
  metrics_FromAny := fun _ _ => Ok "prometheus";
  api_FromParsed := fun _ => Ok api_NewConfig;
  log_FromParsed := fun _ => Ok "DEBUG";
  stream_FromParsed := fun _ p _ =>
    Ok {| Input := mkComponentConfig "" "stdin" any_nil;
          Buffer := "none";
          Pipeline := {| Threads := (-1)%Z; Processors := [] |};
          Output := mkComponentConfig "" "stdout" any_nil |};
  manager_FromParsed := fun _ _ => Ok manager_NewResourceConfig;
  manager_Spec := ["cache_resources"; "rate_limit_resources"];
  ResourceConfig_AddFrom := fun r _ => (r, None);
  manager_Type := unit;
  manager_GetPipe := fun _ _ => Ok 0;
  ReplaceEnvVariables := fun _ _ b => EnvReplaced b;
  config_Spec := ["http"; "input"; "buffer"; "pipeline"; "output"]
|}.

(** The world in which [n] uuids and channels were handed out. *)
Definition world (n : nat) : World := n.

(** A fresh builder whose handlers run on a counter. *)
Definition fresh : StreamBuilder nat := NewStreamBuilder nat.

(** The fresh builder after two output configs were added. *)
Definition two_outputs : StreamBuilder nat :=
  snd (AddOutputYAML "b" (world 0)
         (snd (AddOutputYAML "a" (world 0) fresh))).

(** The fresh builder after a producer was registered. *)
Definition with_producer : StreamBuilder nat :=
  snd (AddProducerFunc (world 0) fresh).

(** The fresh builder after three input configs were added. *)
Definition three_inputs : StreamBuilder nat :=
  snd (AddInputYAML "c" (world 0)
         (snd (AddInputYAML "b" (world 0)
                 (snd (AddInputYAML "a" (world 0) fresh))))).

(** The fresh builder after one input config was added. *)
Definition one_input : StreamBuilder nat :=
  snd (AddInputYAML "a" (world 0) fresh).

(** The fresh builder after a cache and a rate limit, both labelled [a],
    were added. *)
Definition with_resources : StreamBuilder nat :=
  snd (run [CallAddCacheYAML "a"; CallAddRateLimitYAML "a"] (world 0) fresh).

(** A handler that fails on the message [bad] and counts its calls. *)
Definition fails_on (bad : string) : handler_fn nat string :=
  fun _ m n =>
    if decide (m = bad) then (Returns (Some ("rejected " +:+ m)), S n)
    else (Returns None, S n).

(** A builder on which [fails_on "m2"], observed, is the consumer. *)
Definition with_consumer : StreamBuilder (nat * list string) :=
  snd (AddConsumerFunc (Some (traced (fails_on "m2"))) (world 0)
         (NewStreamBuilder (nat * list string))).

(** A transaction of three messages. *)
Definition three_messages : Transaction :=
  {| Payload := ["m1"; "m2"; "m3"]; responseChan := 7 |}.

(** The builder with one input after a producer was registered. *)
Definition input_and_producer : StreamBuilder nat :=
  snd (step CallAddProducerFunc (world 0) one_input).

(** The builder with two outputs after a per-message consumer was
    registered. *)
Definition outputs_and_consumer : StreamBuilder nat :=
  snd (step (CallAddConsumerFunc None) (world 0) two_outputs).

(** The fresh builder after one output config was added. *)
Definition one_output : StreamBuilder nat :=
  snd (AddOutputYAML "a" (world 0) fresh).

(** The builder with three inputs after a whole document was set. *)
Definition replaced : StreamBuilder nat :=
  snd (SetYAML "input: {}" (world 0) three_inputs).

(** A builder whose per-message consumer is the nil function. *)
Definition with_nil_consumer : StreamBuilder nat :=
  snd (AddConsumerFunc None (world 0) fresh).

(** A transaction without messages. *)
Definition no_messages : Transaction := {| Payload := []; responseChan := 8 |}.

(** A tracer section given as a map with both a typed entry and a
    [plugin] entry. *)
Definition tracer_map : gmap string any :=
  <[ "none" := any_string "typed" ]> {[ "plugin" := any_string "generic" ]}.

(** A schema with a version of its own. *)
Definition short_schema : ConfigSchema :=
  {| version := "9.9.9"; fields := ["input"] |}.

(** A schema whose fields are their names. *)
Definition stream_names : list string :=
  ["input"; "buffer"; "pipeline"; "output"].

Definition named (n _ : string) : string := n.

Definition whole_spec : list string :=
  schema.Spec string named named named named (fun f _ => f) (fun f _ => f)
    (fun f => f) ["address"] ["level"] stream_names ["cache_resources"]
    "tests" (fun _ _ => false).

(** A cache config with a label. *)
Definition cache (label : string) : ComponentConfig any :=
  mkComponentConfig label "memory" any_nil.

(** A registry that takes the caches of [extra] one after the other and
    stops with an error at the first label it already holds, keeping the
    caches it took before. *)
Fixpoint add_caches_from (have extra : list (ComponentConfig any))
  : list (ComponentConfig any) * option error :=
  match extra with
  | [] => (have, None)
  | c :: rest =>
      if decide (Label c ∈ Label <$> have) then
        (have, Some ("resource label collides: " +:+ Label c))
      else add_caches_from (have ++ [c]) rest
  end.

Definition add_caches (r extra : ResourceConfig)
  : ResourceConfig * option error :=
  let (caches, err) :=
    add_caches_from (ResourceCaches r) (ResourceCaches extra) in
  (mkResourceConfig caches (ResourceRateLimits r), err).

(** The collaborators above, but for the resources: every resources
    document parses to the caches [a], [b], [a], and [AddFrom] is
    [add_caches]. *)
Definition strict : Collaborators := {|
  globalEnvironment := tt;
  env_internal := fun _ => tt;
  env_bloblangEnv := fun _ => tt;
  Lint := string;
  lintsToErr := fun ls => match ls with [] => None | l :: _ => Some l end;
  convertDocsLintErr := fun e => e;
  uuid_NewV4 := fun w => (Ok ("uuid-" +:+ fmt_int w), S w);
  make_chan := fun w => (w, S w);
  log_Wrap := fun _ => tt;
  log_NewBenthosLogAdapter := fun _ => tt;
  log_Spec := ["level"];
  Deactivated := fun e => e;
  LintConfig := unit;
  LintContext := unit;
  SanitiseConfig := unit;
  ParsedConfig := yaml.Node;
  docs_NewLintConfig := fun _ => tt;
  LintConfig_set_DocsProvider := fun _ c => c;
  LintConfig_set_BloblangEnv := fun _ c => c;
  docs_NewLintContext := fun c => c;
  docs_LintYAML := fun _ _ _ => [];
  docs_UnmarshalYAML := fun b => Ok (scalar b);
  docs_NewSanitiseConfig := fun _ => tt;
  SanitiseConfig_set_RemoveTypeField := fun _ c => c;
  SanitiseConfig_set_RemoveDeprecated := fun _ c => c;
  SanitiseConfig_set_DocsProvider := fun _ c => c;
  docs_GetInferenceCandidateFromMap := fun _ _ _ => ("none", None);
  docs_GetInferenceCandidateFromYAML := fun _ _ n => (yaml.Value n, None);
  docs_GetPluginConfigYAML := fun _ n => (n, None);
  docs_NewLintError := fun _ _ e => e;
  FieldSpecs_SetDefault := fun _ _ spec => spec;
  FieldSpecs_LintYAML := fun _ _ _ => [];
  FieldSpecs_ParsedConfigFromAny := fun _ v =>
    match v with
    | any_yaml n => Ok n
    | _ => Err "expected a document"
    end;
  FieldSpecs_SanitiseYAML := fun _ n _ => Ok n;
  FieldSpecs_SetYAMLPath := fun _ _ root _ _ => Ok root;
  ParsedConfig_Contains := fun _ _ => false;
  ParsedConfig_Namespace := fun p _ => p;
  ParsedConfig_FieldAny := fun _ _ => (any_nil, None);
  ParsedConfig_FieldString := fun _ _ => Ok "";
  ParsedConfig_FieldAnyList := fun _ _ => Ok [];
  yaml_Encode := fun _ => Ok (scalar "");
  yaml_Encode_any := fun _ => Ok (scalar "");
  yaml_Marshal := fun n => Ok (yaml.Value n);
  gabs_DotPathToSlice := fun p => [p];
  input_FromAny := fun _ => component "generate";
  processor_FromAny := fun _ => component "mapping";
  output_FromAny := fun _ => component "drop";
  cache_FromAny := fun _ => component "memory";
  ratelimit_FromAny := fun _ => component "local";
  buffer_FromAny := fun _ _ => Ok "memory";
  metrics_FromAny := fun _ _ => Ok "prometheus";
  api_FromParsed := fun _ => Ok api_NewConfig;
  log_FromParsed := fun _ => Ok "DEBUG";
  stream_FromParsed := fun _ p _ =>
    Ok {| Input := mkComponentConfig "" "stdin" any_nil;
          Buffer := "none";
          Pipeline := {| Threads := (-1)%Z; Processors := [] |};
          Output := mkComponentConfig "" "stdout" any_nil |};
  manager_FromParsed := fun _ _ => Ok (mkResourceConfig (cache <$> ["a"; "b"; "a"]) []);
  manager_Spec := ["cache_resources"; "rate_limit_resources"];
  ResourceConfig_AddFrom := add_caches;
  manager_Type := unit;
  manager_GetPipe := fun _ _ => Ok 0;
  ReplaceEnvVariables := fun _ _ b => EnvReplaced b;
  config_Spec := ["http"; "input"; "buffer"; "pipeline"; "output"]
|}.

(** A fresh builder over the stricter registry. *)
Definition fresh_strict : StreamBuilder nat :=
  @NewStreamBuilder decls strict nat.

(** [m.part] and [make(chan error)]: a message is its part, response
    channels are numbered as the others. *)
Definition part_of (m : Message) : message_Part := m.
Definition make_resChan (w : World) : ResChan * World := (w, S w).

(** A call whose context is already done, while the stream is receiving
    and has its response ready, and Go picks the communication with the
    stream both times. *)
Definition raced : Schedule :=
  {| ctx_Err := "context canceled";
     done_before_call := true;
     stream_receives := true;
     picks_send := true;
     done_meanwhile := false;
     stream_responds := Some None;
     picks_response := true |}.

(** A call whose context is already done, while the stream is not
    receiving. *)
Definition stalled : Schedule :=
  {| ctx_Err := "context canceled";
     done_before_call := true;
     stream_receives := false;
     picks_send := true;
     done_meanwhile := false;
     stream_responds := None;
     picks_response := true |}.

(** A batch handler that rejects the batches of more than two messages
    and counts the messages it has seen. *)
Definition rejects_long : handler_fn nat (list string) :=
  fun _ b n =>
    if decide (2 < length b) then
      (Returns (Some "batch too long"), n + length b)
    else (Returns None, n + length b).

(** A builder on which [rejects_long], observed, is the batch consumer. *)
Definition with_batch_consumer : StreamBuilder (nat * list (list string)) :=
  snd (AddBatchConsumerFunc (Some (traced_batch rejects_long)) (world 0)
         (NewStreamBuilder (nat * list (list string)))).

(** What the parser above makes of every document. *)
Definition parsed : config.Type_ :=
  {| config.HTTP := {| Enabled := true; api_rest := "0.0.0.0:4195" |};
     config.Config :=
       {| Input := mkComponentConfig "" "stdin" any_nil;
          Buffer := "none";
          Pipeline := {| Threads := (-1)%Z; Processors := [] |};
          Output := mkComponentConfig "" "stdout" any_nil |};
     config.ResourceConfig_ := manager_NewResourceConfig;
     config.Logger := "INFO";
     config.Metrics := "none";
     config.Tracer := tracer.NewConfig;
     config.SystemCloseDelay := "";
     config.SystemCloseTimeout := "";
     config.Tests := [];
     config.rawSource := any_nil |}.

End demo.

(** * Properties *)

(** ** The tracer decoder *)

Section tracer_properties.
Variable Provider : Type.
Variable GetInferenceCandidateFromMap :
  Provider -> docs.Type_ -> gmap string any -> string * option error.
Variable GetInferenceCandidateFromYAML :
  Provider -> docs.Type_ -> yaml.Node -> string * option error.
Variable GetPluginConfigYAML : string -> yaml.Node -> yaml.Node * option error.
Variable NewLintError : Z -> docs.LintType -> error -> error.

Local Abbreviation FromAny :=
  (tracer.FromAny Provider GetInferenceCandidateFromMap
     GetInferenceCandidateFromYAML GetPluginConfigYAML NewLintError).

(** An already-typed config is returned as it is. *)
Lemma FromAny_typed prov t : FromAny prov (any_tracer t) = (t, None).
Proof. reflexivity. Qed.

(** C10. For every value that is none of the three accepted source shapes
    (a typed tracer config, a YAML node, a string-keyed map), [FromAny]
    returns the zero-valued config together with an error that states the
    unexpected dynamic type; in particular the error is never nil. *)
Theorem FromAny_unexpected_shape (prov : Provider) (value : any) :
  tracer.accepted_shape value = false ->
  FromAny prov value =
    (tracer.zero,
     Some ("unexpected value, expected object, got " +:+ fmt_T value))
  /\ snd (FromAny prov value) <> None.
Proof.
  intros Hshape.
  assert (Heq : FromAny prov value =
    (tracer.zero,
     Some ("unexpected value, expected object, got " +:+ fmt_T value))).
  { destruct value; simpl in Hshape; try discriminate Hshape; reflexivity. }
  split; [exact Heq|].
  rewrite Heq. simpl. discriminate.
Qed.

End tracer_properties.

(** ** The composed input and output *)

Section composition.
Context `{D : Decls} {HSt : Type}.
Implicit Types s : StreamBuilder HSt.

(** Without any input config the default input is used. *)
Lemma composed_input_none s :
  inputs s = [] -> composed_input s = input_NewConfig.
Proof. unfold composed_input, buildConfig. intros ->. reflexivity. Qed.

(** The shape of the composed input for two or more configs. *)
Lemma composed_input_many s :
  1 < length (inputs s) ->
  composed_input s =
    mkComponentConfig "" "broker" (any_map (input_broker_payload (inputs s))).
Proof.
  unfold composed_input, buildConfig.
  destruct (inputs s) as [|a [|b l]]; simpl; intros Hlen;
    [lia | lia | reflexivity].
Qed.

(** The shape of the composed output for two or more configs. *)
Lemma composed_output_many s :
  1 < length (outputs s) ->
  composed_output s =
    mkComponentConfig "" "broker"
      (any_map (output_broker_payload (outputs s) (outputBrokerPattern s))).
Proof.
  unfold composed_output, buildConfig.
  destruct (outputs s) as [|a [|b l]]; simpl; intros Hlen;
    [lia | lia | reflexivity].
Qed.

(** The entries of the output broker payload. *)
Lemma output_broker_payload_outputs outs pattern :
  output_broker_payload outs pattern !! "outputs"
  = Some (any_slice (any_output <$> outs)).
Proof.
  unfold output_broker_payload. case_decide.
  - apply lookup_singleton_eq.
  - rewrite lookup_insert_ne by discriminate. apply lookup_singleton_eq.
Qed.

Lemma output_broker_payload_pattern outs pattern :
  output_broker_payload outs pattern !! "pattern"
  = if decide (pattern = "") then None else Some (any_string pattern).
Proof.
  unfold output_broker_payload. case_decide.
  - apply lookup_singleton_ne. discriminate.
  - apply lookup_insert_eq.
Qed.

(** The setter stores the pattern and touches no other field read by the
    composition. *)
Lemma SetOutputBrokerPattern_fields pattern s :
  outputBrokerPattern (SetOutputBrokerPattern pattern s) = pattern
  /\ outputs (SetOutputBrokerPattern pattern s) = outputs s
  /\ inputs (SetOutputBrokerPattern pattern s) = inputs s.
Proof. repeat split. Qed.

(** C7. A builder that holds exactly one input config yields that config
    itself as the composed input of the snapshot: the input list is the
    one-element list of the composed input, so nothing wraps it. *)
Theorem single_input_unwrapped s :
  length (inputs s) = 1 ->
  inputs s = [composed_input s].
Proof.
  unfold composed_input, buildConfig.
  destruct (inputs s) as [|a [|b l]]; simpl; intros Hlen;
    [lia | reflexivity | lia].
Qed.

(** C4. A builder that holds more than one input config yields a broker
    config (type [broker], no label) whose payload is a map with the single
    key [inputs], bound to the slice of exactly the held configs in the
    order of the builder's list: same length, same element at every
    index. *)
Theorem many_inputs_broker_in_order s :
  1 < length (inputs s) ->
  exists (m : gmap string any) (subs : list any),
    composed_input s = mkComponentConfig "" "broker" (any_map m)
    /\ m = {[ "inputs" := any_slice subs ]}
    /\ subs = any_input <$> inputs s
    /\ length subs = length (inputs s)
    /\ forall i : nat, subs !! i = any_input <$> (inputs s !! i).
Proof.
  intros Hlen.
  exists (input_broker_payload (inputs s)), (any_input <$> inputs s).
  split; [now apply composed_input_many|].
  split; [reflexivity|].
  split; [reflexivity|].
  split; [apply length_fmap|].
  intros i. apply list_lookup_fmap.
Qed.

(** C1, as the code has it. A builder that holds more than one output
    config yields a broker config whose payload binds [outputs] to the held
    configs in order; the payload has a [pattern] entry exactly when the
    builder's pattern is not empty, and the entry is then that pattern.
    After the pattern setter was called with a non-empty symbol the entry
    is the caller's symbol; with an empty pattern no entry is attached. *)
Theorem many_outputs_broker_pattern s :
  1 < length (outputs s) ->
  (exists m : gmap string any,
     composed_output s = mkComponentConfig "" "broker" (any_map m)
     /\ m !! "outputs" = Some (any_slice (any_output <$> outputs s))
     /\ m !! "pattern" =
          (if decide (outputBrokerPattern s = "") then None
           else Some (any_string (outputBrokerPattern s))))
  /\ (forall pattern : OutputBrokerPatternType,
        pattern <> "" ->
        exists m : gmap string any,
          composed_output (SetOutputBrokerPattern pattern s)
          = mkComponentConfig "" "broker" (any_map m)
          /\ m !! "outputs" = Some (any_slice (any_output <$> outputs s))
          /\ m !! "pattern" = Some (any_string pattern)).
Proof.
  intros Hlen. split.
  - exists (output_broker_payload (outputs s) (outputBrokerPattern s)).
    split; [now apply composed_output_many|].
    split; [apply output_broker_payload_outputs|].
    apply output_broker_payload_pattern.
  - intros pattern Hne.
    exists (output_broker_payload (outputs s) pattern).
    split; [now apply (composed_output_many (SetOutputBrokerPattern pattern s))|].
    split; [apply output_broker_payload_outputs|].
    rewrite output_broker_payload_pattern. now case_decide.
Qed.

End composition.

(** ** Registrations and wholesale replacement *)

Section registration.
Context `{C : Collaborators} {HSt : Type}.
Implicit Types (s : StreamBuilder HSt) (w : World) (op : Op HSt).

(** Opens the body of a builder method case by case. *)
Local Ltac open_method :=
  repeat first
    [ progress simpl in *
    | progress simplify_eq
    | case_match ].

(** A producer registration on a builder that already has a producer
    channel returns the duplicate error and changes nothing. *)
Lemma AddProducerFunc_duplicate w s :
  producerChan s <> None ->
  AddProducerFunc w s =
    (Err "unable to add multiple producer funcs to a stream builder", w, s).
Proof.
  intros Hreg. unfold AddProducerFunc.
  destruct (producerChan s); [reflexivity | congruence].
Qed.

Lemma AddBatchProducerFunc_duplicate w s :
  producerChan s <> None ->
  AddBatchProducerFunc w s =
    (Err "unable to add multiple producer funcs to a stream builder", w, s).
Proof.
  intros Hreg. unfold AddBatchProducerFunc.
  destruct (producerChan s); [reflexivity | congruence].
Qed.

(** A successful producer registration stores the channel and the id and
    appends the [inproc] input named by the id. *)
Lemma AddProducerFunc_success w s h w' s' :
  AddProducerFunc w s = (Ok h, w', s') ->
  producerChan s = None
  /\ producerChan s' <> None
  /\ inputs s' = inputs s ++ [inproc_conf input_NewConfig (producerID s')].
Proof.
  unfold AddProducerFunc. intros H.
  destruct (producerChan s) eqn:Hp; [discriminate|].
  destruct (uuid_NewV4 w) as [[u|e] w1]; [|discriminate].
  destruct (make_chan w1) as [tChan w2]. simplify_eq. simpl.
  repeat split; congruence.
Qed.

Lemma AddBatchProducerFunc_success w s h w' s' :
  AddBatchProducerFunc w s = (Ok h, w', s') ->
  producerChan s = None
  /\ producerChan s' <> None
  /\ inputs s' = inputs s ++ [inproc_conf input_NewConfig (producerID s')].
Proof.
  unfold AddBatchProducerFunc. intros H.
  destruct (producerChan s) eqn:Hp; [discriminate|].
  destruct (uuid_NewV4 w) as [[u|e] w1]; [|discriminate].
  destruct (make_chan w1) as [tChan w2]. simplify_eq. simpl.
  repeat split; congruence.
Qed.

(** A consumer registration on a builder that already has a consumer
    function returns the duplicate error and changes nothing. *)
Lemma AddConsumerFunc_duplicate fn w s :
  consumerFunc s <> None ->
  AddConsumerFunc fn w s =
    (Some "unable to add multiple consumer funcs to a stream builder", w, s).
Proof.
  intros Hreg. unfold AddConsumerFunc.
  destruct (consumerFunc s); [reflexivity | congruence].
Qed.

Lemma AddBatchConsumerFunc_duplicate fn w s :
  consumerFunc s <> None ->
  AddBatchConsumerFunc fn w s =
    (Some "unable to add multiple consumer funcs to a stream builder", w, s).
Proof.
  intros Hreg. unfold AddBatchConsumerFunc.
  destruct (consumerFunc s); [reflexivity | congruence].
Qed.

(** A successful per-message registration stores the closure over the
    handler and appends the [inproc] output named by the consumer id. *)
Lemma AddConsumerFunc_success fn w s w' s' :
  AddConsumerFunc fn w s = (None, w', s') ->
  consumerFunc s = None
  /\ consumerFunc s' = Some (per_message fn)
  /\ outputs s' = outputs s ++ [inproc_conf output_NewConfig (consumerID s')].
Proof.
  unfold AddConsumerFunc. intros H.
  destruct (consumerFunc s) eqn:Hc; [discriminate|].
  destruct (uuid_NewV4 w) as [[u|e] w1]; [|discriminate].
  simplify_eq. simpl. repeat split; congruence.
Qed.

(** A successful batch registration stores the handler as it was given. *)
Lemma AddBatchConsumerFunc_success fn w s w' s' :
  AddBatchConsumerFunc fn w s = (None, w', s') ->
  consumerFunc s = None
  /\ consumerFunc s' = fn
  /\ outputs s' = outputs s ++ [inproc_conf output_NewConfig (consumerID s')].
Proof.
  unfold AddBatchConsumerFunc. intros H.
  destruct (consumerFunc s) eqn:Hc; [discriminate|].
  destruct (uuid_NewV4 w) as [[u|e] w1]; [|discriminate].
  simplify_eq. simpl. repeat split; congruence.
Qed.

(** [SetYAML] and [SetFields] refuse a builder with a producer channel or a
    consumer function. *)
Lemma SetYAML_refused conf w s :
  producerChan s <> None \/ consumerFunc s <> None ->
  snd (SetYAML conf w s) = s /\ fst (SetYAML conf w s) <> None.
Proof.
  unfold SetYAML. intros [H|H].
  - destruct (producerChan s); [split; [reflexivity|discriminate] | congruence].
  - destruct (producerChan s); [split; [reflexivity|discriminate]|].
    destruct (consumerFunc s); [split; [reflexivity|discriminate] | congruence].
Qed.

Lemma SetFields_refused pathValues s :
  producerChan s <> None \/ consumerFunc s <> None ->
  snd (SetFields pathValues s) = s /\ fst (SetFields pathValues s) <> None.
Proof.
  unfold SetFields. intros [H|H].
  - destruct (producerChan s); [split; [reflexivity|discriminate] | congruence].
  - destruct (producerChan s); [split; [reflexivity|discriminate]|].
    destruct (consumerFunc s); [split; [reflexivity|discriminate] | congruence].
Qed.

(** No call clears or replaces the producer channel once it is set. *)
Lemma step_keeps_producerChan op w s :
  producerChan s <> None ->
  producerChan (snd (step op w s)) = producerChan s.
Proof.
  intros Hreg. destruct op; unfold step; try reflexivity.
  - unfold SetSchema. simpl. case_decide; reflexivity.
  - rewrite AddProducerFunc_duplicate by assumption. reflexivity.
  - rewrite AddBatchProducerFunc_duplicate by assumption. reflexivity.
  - unfold AddInputYAML. open_method; reflexivity.
  - unfold AddProcessorYAML. open_method; reflexivity.
  - unfold AddConsumerFunc. open_method; reflexivity.
  - unfold AddBatchConsumerFunc. open_method; reflexivity.
  - unfold AddOutputYAML. open_method; reflexivity.
  - unfold AddCacheYAML. open_method; reflexivity.
  - unfold AddRateLimitYAML. open_method; reflexivity.
  - unfold AddResourcesYAML. open_method; reflexivity.
  - destruct (SetYAML conf w s) as [e s1] eqn:Hs. simpl.
    destruct (SetYAML_refused conf w s (or_introl Hreg)) as [Hs1 _].
    rewrite Hs in Hs1. simpl in Hs1. now subst.
  - destruct (SetFields pathValues s) as [e s1] eqn:Hs. simpl.
    destruct (SetFields_refused pathValues s (or_introl Hreg)) as [Hs1 _].
    rewrite Hs in Hs1. simpl in Hs1. now subst.
  - unfold SetBufferYAML. open_method; reflexivity.
  - unfold SetMetricsYAML. open_method; reflexivity.
  - unfold SetTracerYAML. open_method; reflexivity.
  - unfold SetLoggerYAML. open_method; reflexivity.
Qed.

(** No call clears or replaces the consumer function once it is set. *)
Lemma step_keeps_consumerFunc op w s :
  consumerFunc s <> None ->
  consumerFunc (snd (step op w s)) = consumerFunc s.
Proof.
  intros Hreg. destruct op; unfold step; try reflexivity.
  - unfold SetSchema. simpl. case_decide; reflexivity.
  - unfold AddProducerFunc. open_method; reflexivity.
  - unfold AddBatchProducerFunc. open_method; reflexivity.
  - unfold AddInputYAML. open_method; reflexivity.
  - unfold AddProcessorYAML. open_method; reflexivity.
  - rewrite AddConsumerFunc_duplicate by assumption. reflexivity.
  - rewrite AddBatchConsumerFunc_duplicate by assumption. reflexivity.
  - unfold AddOutputYAML. open_method; reflexivity.
  - unfold AddCacheYAML. open_method; reflexivity.
  - unfold AddRateLimitYAML. open_method; reflexivity.
  - unfold AddResourcesYAML. open_method; reflexivity.
  - destruct (SetYAML conf w s) as [e s1] eqn:Hs. simpl.
    destruct (SetYAML_refused conf w s (or_intror Hreg)) as [Hs1 _].
    rewrite Hs in Hs1. simpl in Hs1. now subst.
  - destruct (SetFields pathValues s) as [e s1] eqn:Hs. simpl.
    destruct (SetFields_refused pathValues s (or_intror Hreg)) as [Hs1 _].
    rewrite Hs in Hs1. simpl in Hs1. now subst.
  - unfold SetBufferYAML. open_method; reflexivity.
  - unfold SetMetricsYAML. open_method; reflexivity.
  - unfold SetTracerYAML. open_method; reflexivity.
  - unfold SetLoggerYAML. open_method; reflexivity.
Qed.

(** The unfolding of [run] on a non-empty sequence. *)
Lemma run_cons op ops w s :
  run (op :: ops) w s =
    let '(e, w1, s1) := step op w s in
    let '(log, w2, s2) := run ops w1 s1 in
    ((op, e) :: log, w2, s2).
Proof. reflexivity. Qed.

(** A producer registration that returns no error sets the channel. *)
Lemma producer_step_success op w s w' s' :
  is_producer_registration op = true ->
  step op w s = (None, w', s') ->
  producerChan s = None /\ producerChan s' <> None.
Proof.
  intros Hk Hs. destruct op; try discriminate Hk; unfold step in Hs.
  - destruct (AddProducerFunc w s) as [[[h|e] w1] s1] eqn:Ha;
      simpl in Hs; [|discriminate].
    simplify_eq. destruct (AddProducerFunc_success _ _ _ _ _ Ha) as (?&?&?).
    now split.
  - destruct (AddBatchProducerFunc w s) as [[[h|e] w1] s1] eqn:Ha;
      simpl in Hs; [|discriminate].
    simplify_eq.
    destruct (AddBatchProducerFunc_success _ _ _ _ _ Ha) as (?&?&?).
    now split.
Qed.

(** On a builder that has a producer channel every producer registration
    of a sequence fails. *)
Lemma no_producer_success_after_registration ops :
  forall w s log w' s',
    producerChan s <> None ->
    run ops w s = (log, w', s') ->
    succeeded is_producer_registration log = [].
Proof.
  induction ops as [|op ops IH]; intros w s log w' s' Hreg Hrun.
  - simpl in Hrun. now simplify_eq.
  - rewrite run_cons in Hrun.
    destruct (step op w s) as [[e w1] s1] eqn:Hstep.
    destruct (run ops w1 s1) as [[log1 w2] s2] eqn:Hrest.
    simplify_eq. unfold succeeded. rewrite filter_cons.
    assert (Hs1 : producerChan s1 <> None).
    { replace s1 with (snd (step op w s)) by now rewrite Hstep.
      now rewrite step_keeps_producerChan. }
    case_decide as Hsucc.
    + simpl in Hsucc. destruct Hsucc as [Hk ->].
      destruct (producer_step_success _ _ _ _ _ Hk Hstep) as [Hnone _].
      contradiction.
    + exact (IH _ _ _ _ _ Hs1 Hrest).
Qed.

(** In every sequence of calls, from every builder, at most one producer
    registration returns no error. *)
Lemma at_most_one_producer_registration ops :
  forall w s log w' s',
    run ops w s = (log, w', s') ->
    length (succeeded is_producer_registration log) <= 1.
Proof.
  induction ops as [|op ops IH]; intros w s log w' s' Hrun.
  - simpl in Hrun. simplify_eq. simpl. lia.
  - rewrite run_cons in Hrun.
    destruct (step op w s) as [[e w1] s1] eqn:Hstep.
    destruct (run ops w1 s1) as [[log1 w2] s2] eqn:Hrest.
    simplify_eq. unfold succeeded. rewrite filter_cons.
    case_decide as Hsucc.
    + simpl in Hsucc. destruct Hsucc as [Hk ->].
      destruct (producer_step_success _ _ _ _ _ Hk Hstep) as [_ Hset].
      pose proof (no_producer_success_after_registration
                    _ _ _ _ _ _ Hset Hrest) as Hnil.
      unfold succeeded in Hnil. rewrite Hnil. simpl. lia.
    + exact (IH _ _ _ _ _ Hrest).
Qed.

(** A consumer registration with a handler that is not nil, when it
    returns no error, sets the consumer function. *)
Lemma consumer_step_success op w s w' s' :
  is_consumer_registration op = true ->
  gives_handler op = true ->
  step op w s = (None, w', s') ->
  consumerFunc s = None /\ consumerFunc s' <> None.
Proof.
  intros Hk Hg Hs. destruct op; try discriminate Hk; unfold step in Hs.
  - destruct (AddConsumerFunc_success _ _ _ _ _ Hs) as (?&Hc&?).
    split; [assumption|]. rewrite Hc. discriminate.
  - destruct (AddBatchConsumerFunc_success _ _ _ _ _ Hs) as (?&Hc&?).
    split; [assumption|]. rewrite Hc.
    destruct fn; [discriminate | discriminate Hg].
Qed.

(** On a builder that has a consumer function every consumer registration
    of a sequence fails. *)
Lemma no_consumer_success_after_registration ops :
  forall w s log w' s',
    consumerFunc s <> None ->
    run ops w s = (log, w', s') ->
    succeeded is_consumer_registration log = [].
Proof.
  induction ops as [|op ops IH]; intros w s log w' s' Hreg Hrun.
  - simpl in Hrun. now simplify_eq.
  - rewrite run_cons in Hrun.
    destruct (step op w s) as [[e w1] s1] eqn:Hstep.
    destruct (run ops w1 s1) as [[log1 w2] s2] eqn:Hrest.
    simplify_eq. unfold succeeded. rewrite filter_cons.
    assert (Hs1 : consumerFunc s1 <> None).
    { replace s1 with (snd (step op w s)) by now rewrite Hstep.
      now rewrite step_keeps_consumerFunc. }
    case_decide as Hsucc.
    + simpl in Hsucc. destruct Hsucc as [Hk ->].
      destruct op; try discriminate Hk; unfold step in Hstep.
      * rewrite AddConsumerFunc_duplicate in Hstep by assumption.
        discriminate.
      * rewrite AddBatchConsumerFunc_duplicate in Hstep by assumption.
        discriminate.
    + exact (IH _ _ _ _ _ Hs1 Hrest).
Qed.

(** In every sequence of calls whose batch registrations all give a
    handler that is not nil, at most one consumer registration returns no
    error. *)
Lemma at_most_one_consumer_registration ops :
  forall w s log w' s',
    Forall (fun op => gives_handler op = true) ops ->
    run ops w s = (log, w', s') ->
    length (succeeded is_consumer_registration log) <= 1.
Proof.
  induction ops as [|op ops IH]; intros w s log w' s' Hgiven Hrun.
  - simpl in Hrun. simplify_eq. simpl. lia.
  - rewrite run_cons in Hrun.
    destruct (step op w s) as [[e w1] s1] eqn:Hstep.
    destruct (run ops w1 s1) as [[log1 w2] s2] eqn:Hrest.
    simplify_eq. unfold succeeded. rewrite filter_cons.
    apply Forall_cons in Hgiven as [Hg Hgiven].
    case_decide as Hsucc.
    + simpl in Hsucc. destruct Hsucc as [Hk ->].
      destruct (consumer_step_success _ _ _ _ _ Hk Hg Hstep) as [_ Hset].
      pose proof (no_consumer_success_after_registration
                    _ _ _ _ _ _ Hset Hrest) as Hnil.
      unfold succeeded in Hnil. rewrite Hnil. simpl. lia.
    + exact (IH _ _ _ _ _ Hgiven Hrest).
Qed.

(** X28. On every builder that has a producer channel or a consumer
    function [SetYAML] returns the error that names the conflict, the
    inputs for a producer channel and the outputs otherwise, and the
    builder after the call is the builder before it, field by field. *)
Theorem SetYAML_conflict_leaves_builder (conf : string) w s :
  producerChan s <> None \/ consumerFunc s <> None ->
  exists err : error,
    SetYAML conf w s = (Some err, s)
    /\ (producerChan s <> None ->
        err = "attempted to override inputs config after adding a func producer")
    /\ (producerChan s = None ->
        err = "attempted to override outputs config after adding a func consumer").
Proof.
  intros Hreg. unfold SetYAML.
  destruct (producerChan s) as [ch|] eqn:Hp.
  - eexists. split; [reflexivity|]. split; [reflexivity|discriminate].
  - destruct (consumerFunc s) as [h|] eqn:Hc.
    + eexists. split; [reflexivity|]. split; [congruence|reflexivity].
    + destruct Hreg; congruence.
Qed.

(** Each registration that returns no error with a handler leaves a
    builder on which [SetYAML] is refused. *)
Lemma registration_sets_marker op w s w' s' :
  is_producer_registration op = true
  \/ (is_consumer_registration op = true /\ gives_handler op = true) ->
  step op w s = (None, w', s') ->
  producerChan s' <> None \/ consumerFunc s' <> None.
Proof.
  intros [Hk|[Hk Hg]] Hstep.
  - left. now destruct (producer_step_success _ _ _ _ _ Hk Hstep).
  - right. now destruct (consumer_step_success _ _ _ _ _ Hk Hg Hstep).
Qed.

(** C3, where the code departs from it. Given the nil function,
    [AddBatchConsumerFunc] stores nil, so the builder still reads as
    having no consumer: a second such call succeeds as well, and the
    builder then holds two [inproc] outputs. *)
Theorem nil_batch_consumer_registers_twice w s (u1 u2 : string) w1 w2 :
  consumerFunc s = None ->
  uuid_NewV4 w = (Ok u1, w1) ->
  uuid_NewV4 w1 = (Ok u2, w2) ->
  exists s1 s2 : StreamBuilder HSt,
    AddBatchConsumerFunc None w s = (None, w1, s1)
    /\ AddBatchConsumerFunc None w1 s1 = (None, w2, s2)
    /\ consumerFunc s2 = None
    /\ outputs s2 =
         outputs s ++ [inproc_conf output_NewConfig u1;
                       inproc_conf output_NewConfig u2]
    /\ length (succeeded is_consumer_registration
                 (fst (fst (run [CallAddBatchConsumerFunc None;
                                 CallAddBatchConsumerFunc None] w s)))) = 2.
Proof.
  intros Hc Hu1 Hu2.
  assert (H1 : exists s1, AddBatchConsumerFunc None w s = (None, w1, s1)
                          /\ consumerFunc s1 = None
                          /\ outputs s1 =
                               outputs s ++ [inproc_conf output_NewConfig u1]).
  { unfold AddBatchConsumerFunc. rewrite Hc, Hu1. eexists.
    split; [reflexivity|]. split; reflexivity. }
  destruct H1 as (s1 & Ha1 & Hc1 & Ho1).
  assert (H2 : exists s2, AddBatchConsumerFunc None w1 s1 = (None, w2, s2)
                          /\ consumerFunc s2 = None
                          /\ outputs s2 =
                               outputs s1 ++ [inproc_conf output_NewConfig u2]).
  { unfold AddBatchConsumerFunc. rewrite Hc1, Hu2. eexists.
    split; [reflexivity|]. split; reflexivity. }
  destruct H2 as (s2 & Ha2 & Hc2 & Ho2).
  exists s1, s2. repeat split; try assumption.
  - rewrite Ho2, Ho1, <- app_assoc. reflexivity.
  - rewrite run_cons. unfold step at 1. rewrite Ha1. cbv beta iota.
    rewrite run_cons. unfold step at 1. rewrite Ha2. reflexivity.
Qed.

(** X1. In every sequence of builder calls, run on any builder in any
    world, at most one producer registration ([AddProducerFunc] or
    [AddBatchProducerFunc]) returns no error. *)
Theorem producer_registered_at_most_once (ops : list (Op HSt)) w s :
  length (succeeded is_producer_registration (fst (fst (run ops w s)))) <= 1.
Proof.
  destruct (run ops w s) as [[log w'] s'] eqn:Hrun. simpl.
  exact (at_most_one_producer_registration ops w s log w' s' Hrun).
Qed.

(** X2. In every sequence of builder calls that never passes the nil
    function to [AddBatchConsumerFunc], at most one consumer registration
    returns no error. *)
Theorem consumer_registered_at_most_once (ops : list (Op HSt)) w s :
  Forall (fun op => gives_handler op = true) ops ->
  length (succeeded is_consumer_registration (fst (fst (run ops w s)))) <= 1.
Proof.
  intros Hgiven.
  destruct (run ops w s) as [[log w'] s'] eqn:Hrun. simpl.
  exact (at_most_one_consumer_registration ops w s log w' s' Hgiven Hrun).
Qed.

(** X3. On a builder that has a producer channel, both producer
    registrations return the duplicate error and leave the world and the
    builder as they were; on a builder that has a consumer function, both
    consumer registrations do, whatever handler they are given. *)
Theorem duplicate_registration_leaves_builder w s :
  (producerChan s <> None ->
   AddProducerFunc w s =
     (Err "unable to add multiple producer funcs to a stream builder", w, s)
   /\ AddBatchProducerFunc w s =
        (Err "unable to add multiple producer funcs to a stream builder", w, s))
  /\ (consumerFunc s <> None ->
      forall fn fnb,
        AddConsumerFunc fn w s =
          (Some "unable to add multiple consumer funcs to a stream builder",
           w, s)
        /\ AddBatchConsumerFunc fnb w s =
             (Some "unable to add multiple consumer funcs to a stream builder",
              w, s)).
Proof.
  split.
  - intros Hp. split.
    + now apply AddProducerFunc_duplicate.
    + now apply AddBatchProducerFunc_duplicate.
  - intros Hc fn fnb. split.
    + now apply AddConsumerFunc_duplicate.
    + now apply AddBatchConsumerFunc_duplicate.
Qed.

(** X4. [SetFields] on a builder that has a producer channel or a consumer
    function returns an error and leaves the builder; on a builder that has
    neither, a list of odd length is refused and the builder is left as it
    was. *)
Theorem SetFields_conflict_or_odd (pathValues : list any) s :
  producerChan s <> None \/ consumerFunc s <> None
  \/ Nat.even (length pathValues) = false ->
  exists err : error, SetFields pathValues s = (Some err, s).
Proof.
  unfold SetFields. intros Hcase.
  destruct (producerChan s) as [ch|]; [eexists; reflexivity|].
  destruct (consumerFunc s) as [h|]; [eexists; reflexivity|].
  destruct Hcase as [H|[H|H]]; try congruence.
  rewrite H. simpl. eexists; reflexivity.
Qed.

(** X5. Once linting is disabled neither lint entry point returns an
    error, whatever the schema, the role and the document. *)
Theorem disabled_linting_accepts s spec node ctype :
  lintYAMLSpec (DisableLinting s) spec node = None
  /\ lintYAMLComponent (DisableLinting s) node ctype = None.
Proof. unfold lintYAMLSpec, lintYAMLComponent, DisableLinting. now split. Qed.

(** X6. An input document that is read, linted and decoded is appended
    after the inputs already held, and no other field changes. *)
Theorem AddInputYAML_appends (conf : string) w s nconf iconf :
  getYAMLNode s w conf = Ok nconf ->
  lintYAMLComponent s nconf docs.TypeInput = None ->
  input_FromAny (env_internal (env s)) (any_yaml nconf) = Ok iconf ->
  AddInputYAML conf w s = (None, set_inputs (inputs s ++ [iconf]) s).
Proof. intros Hn Hl Hd. unfold AddInputYAML. now rewrite Hn, Hl, Hd. Qed.

End registration.

(** ** [SetYAML] after a registration of the nil function *)

Section nil_consumer.
Context `{C : Collaborators} {HSt : Type}.
Implicit Types (s : StreamBuilder HSt) (w : World).

(** C2, where the code departs from it. Given the nil function,
    [AddBatchConsumerFunc] returns no error and appends the [inproc]
    output, yet stores nil, so the builder still reads as having no
    consumer: [SetYAML] passes both guards, returns no error for a
    document that parses, and replaces the outputs by the output of the
    document. The consumer id stays while the [inproc] output it names is
    gone. *)
Theorem SetYAML_after_nil_batch_consumer w s (u : string) w1 (conf : string)
    w2 node pConf sconf :
  producerChan s = None ->
  consumerFunc s = None ->
  uuid_NewV4 w = (Ok u, w1) ->
  getYAMLNode s w2 conf = Ok node ->
  lintYAMLSpec s (configSpec s) node = None ->
  FieldSpecs_ParsedConfigFromAny (configSpec s) (any_yaml node) = Ok pConf ->
  config_parse.FromParsed (env_internal (env s)) pConf any_nil = Ok sconf ->
  exists s1 : StreamBuilder HSt,
    AddBatchConsumerFunc None w s = (None, w1, s1)
    /\ outputs s1 = outputs s ++ [inproc_conf output_NewConfig u]
    /\ consumerID s1 = u
    /\ SetYAML conf w2 s1 = (None, setFromConfig sconf s1)
    /\ consumerID (setFromConfig sconf s1) = u
    /\ outputs (setFromConfig sconf s1) = [Output (config.Config sconf)]
    /\ (Output (config.Config sconf) <> inproc_conf output_NewConfig u ->
        inproc_conf output_NewConfig u ∉ outputs (setFromConfig sconf s1)).
Proof.
  intros Hp Hc Hu Hn Hl Hpc Hf.
  eexists. split.
  { unfold AddBatchConsumerFunc. rewrite Hc, Hu. reflexivity. }
  split; [reflexivity|]. split; [reflexivity|].
  split.
  { unfold SetYAML. simpl. rewrite Hp.
    change (getYAMLNode _ w2 conf) with (getYAMLNode s w2 conf).
    rewrite Hn. simpl.
    change (lintYAMLSpec _ (configSpec s) node)
      with (lintYAMLSpec s (configSpec s) node).
    rewrite Hl, Hpc. simpl. rewrite Hf. reflexivity. }
  split; [reflexivity|]. split; [reflexivity|].
  intros Hne Hin. simpl in Hin. apply list_elem_of_singleton in Hin.
  congruence.
Qed.

End nil_consumer.

(** ** A producer call after cancellation *)

Section cancellation.
Context `{C : Collaborators} {HSt : Type}.
Variable part : Message -> message_Part.
Variable make_resChan : World -> ResChan * World.
Implicit Types (s : StreamBuilder HSt) (w : World) (sch : Schedule).

(** A producer registration that returns a closure stored the channel
    that the closure sends on. *)
Lemma registered_closure w s cl w' s' :
  AddProducerFunc w s = (Ok cl, w', s')
  \/ AddBatchProducerFunc w s = (Ok cl, w', s') ->
  exists tChan : Chan,
    producerChan s' = Some tChan
    /\ (AddProducerFunc w s = (Ok cl, w', s') -> cl = producer_func tChan)
    /\ (AddBatchProducerFunc w s = (Ok cl, w', s') ->
        cl = batch_producer_func tChan).
Proof.
  intros [H|H].
  - pose proof H as H0. unfold AddProducerFunc in H.
    destruct (producerChan s) eqn:Hp; [discriminate|].
    destruct (uuid_NewV4 w) as [[u|e] w1] eqn:Hu; [|discriminate].
    destruct (make_chan w1) as [tChan w2] eqn:Hc. simplify_eq.
    exists tChan. split; [reflexivity|]. split; [reflexivity|].
    unfold AddBatchProducerFunc. rewrite Hp, Hu, Hc. discriminate.
  - pose proof H as H0. unfold AddBatchProducerFunc in H.
    destruct (producerChan s) eqn:Hp; [discriminate|].
    destruct (uuid_NewV4 w) as [[u|e] w1] eqn:Hu; [|discriminate].
    destruct (make_chan w1) as [tChan w2] eqn:Hc. simplify_eq.
    exists tChan. split; [reflexivity|]. split; [|reflexivity].
    unfold AddProducerFunc. rewrite Hp, Hu, Hc. discriminate.
Qed.

(** C9, as the code has it. A call of a registered producer closure whose context
    is already done never blocks. It returns the cancellation error, with
    nothing sent to the stream, when the stream is not receiving at that
    moment or when Go picks the cancellation case of the first [select].
    When the stream is receiving and Go picks the send, the transaction is
    handed to the stream; the call then returns the response of the stream
    when that is ready and picked at the second [select], and the
    cancellation error otherwise. *)
Theorem cancelled_producer_call w s cl w' s' (ctx : context_Context)
    (m : Message) (b : MessageBatch) sch w0 :
  AddProducerFunc w s = (Ok cl, w', s')
  \/ AddBatchProducerFunc w s = (Ok cl, w', s') ->
  done_before_call sch = true ->
  exists (tChan : Chan) (parts : list message_Part) (d : Delivery),
    producerChan s' = Some tChan
    /\ ((cl = producer_func tChan /\ parts = [part m]
         /\ d = fst (producer_func_body part make_resChan tChan ctx m sch w0))
        \/ (cl = batch_producer_func tChan /\ parts = part <$> b
            /\ d = fst (batch_producer_func_body part make_resChan tChan ctx
                          b sch w0)))
    /\ ended d <> Blocked
    /\ (stream_receives sch = false \/ picks_send sch = false ->
        d = mkDelivery (Returned (Some (ctx_Err sch))) None false)
    /\ (stream_receives sch = true -> picks_send sch = true ->
        handed_over d
        = Some (tChan, mkTransaction parts (fst (make_resChan w0)))
        /\ match stream_responds sch with
           | Some res =>
               if picks_response sch then
                 ended d = Returned res /\ response_received d = true
               else
                 ended d = Returned (Some (ctx_Err sch))
                 /\ response_received d = false
           | None =>
               ended d = Returned (Some (ctx_Err sch))
               /\ response_received d = false
           end).
Proof.
  intros Hreg Hdone.
  destruct (registered_closure _ _ _ _ _ Hreg) as (tChan & Hch & Hp & Hb).
  destruct Hreg as [H|H].
  - exists tChan, [part m],
      (fst (producer_func_body part make_resChan tChan ctx m sch w0)).
    split; [exact Hch|]. split; [left; auto|].
    unfold producer_func_body. rewrite Hdone.
    destruct (make_resChan w0) as [resChan w1]. simpl.
    destruct (stream_receives sch), (picks_send sch),
      (stream_responds sch) as [res|], (picks_response sch); simpl;
      repeat split; try discriminate; try reflexivity;
      intros; try discriminate;
      repeat match goal with
             | H : _ \/ _ |- _ => destruct H; try discriminate
             end; try reflexivity.
  - exists tChan, (part <$> b),
      (fst (batch_producer_func_body part make_resChan tChan ctx b sch w0)).
    split; [exact Hch|]. split; [right; auto|].
    unfold batch_producer_func_body. rewrite Hdone.
    destruct (make_resChan w0) as [resChan w1]. simpl.
    destruct (stream_receives sch), (picks_send sch),
      (stream_responds sch) as [res|], (picks_response sch); simpl;
      repeat split; try discriminate; try reflexivity;
      intros; try discriminate;
      repeat match goal with
             | H : _ \/ _ |- _ => destruct H; try discriminate
             end; try reflexivity.
Qed.

End cancellation.

(** ** The resource registry *)

Section resource_registry.
Context `{C : Collaborators} {HSt : Type}.
Implicit Types (s : StreamBuilder HSt) (w : World) (op : Op HSt).
Implicit Types (rs : list (ComponentConfig any)) (rc : ComponentConfig any).

(** The search finds a resource exactly when the label is taken, and the
    resource found carries the label. *)
Lemma first_with_label_found label rs cc :
  first_with_label label rs = Some cc -> Label cc = label /\ cc ∈ rs.
Proof.
  unfold first_with_label. intros Hf.
  apply find_some in Hf as [Hin Hl].
  apply bool_decide_eq_true in Hl. split; [assumption|].
  now apply list_elem_of_In.
Qed.

Lemma first_with_label_taken label rs :
  label ∈ (Label <$> rs) ->
  exists cc, first_with_label label rs = Some cc /\ Label cc = label.
Proof.
  intros Hin. destruct (first_with_label label rs) as [cc|] eqn:Hf.
  - exists cc. split; [reflexivity|].
    now destruct (first_with_label_found _ _ _ Hf).
  - exfalso. apply list_elem_of_fmap in Hin as (cc & Hl & Hcc).
    apply list_elem_of_In in Hcc.
    pose proof (find_none _ _ Hf cc Hcc) as Hno. simpl in Hno.
    apply bool_decide_eq_false in Hno. congruence.
Qed.

Lemma first_with_label_free label rs :
  first_with_label label rs = None -> label ∉ (Label <$> rs).
Proof.
  intros Hf Hin.
  destruct (first_with_label_taken _ _ Hin) as (cc & Hsome & _). congruence.
Qed.

(** [AddCacheYAML] once the document is read, linted and decoded. *)
Lemma AddCacheYAML_decoded conf w s nconf rc :
  getYAMLNode s w conf = Ok nconf ->
  lintYAMLComponent s nconf docs.TypeCache = None ->
  cache_FromAny (env_internal (env s)) (any_yaml nconf) = Ok rc ->
  AddCacheYAML conf w s =
    if decide (Label rc = "") then
      (Some "a label must be specified for cache resources", s)
    else
      match first_with_label (Label rc) (ResourceCaches (resources s)) with
      | Some cc => (Some (collision_error (Label cc)), s)
      | None =>
          (None,
           set_resources
             (mkResourceConfig (ResourceCaches (resources s) ++ [rc])
                (ResourceRateLimits (resources s))) s)
      end.
Proof. intros Hn Hl Hd. unfold AddCacheYAML. now rewrite Hn, Hl, Hd. Qed.

(** [AddRateLimitYAML] once the document is read, linted and decoded. *)
Lemma AddRateLimitYAML_decoded conf w s nconf rc :
  getYAMLNode s w conf = Ok nconf ->
  lintYAMLComponent s nconf docs.TypeRateLimit = None ->
  ratelimit_FromAny (env_internal (env s)) (any_yaml nconf) = Ok rc ->
  AddRateLimitYAML conf w s =
    if decide (Label rc = "") then
      (Some "a label must be specified for rate limit resources", s)
    else
      match first_with_label (Label rc) (ResourceRateLimits (resources s)) with
      | Some rl => (Some (collision_error (Label rl)), s)
      | None =>
          (None,
           set_resources
             (mkResourceConfig (ResourceCaches (resources s))
                (ResourceRateLimits (resources s) ++ [rc])) s)
      end.
Proof. intros Hn Hl Hd. unfold AddRateLimitYAML. now rewrite Hn, Hl, Hd. Qed.

(** Whatever the document, a cache addition either fails and leaves the
    builder, or appends one resource with a fresh non-empty label. *)
Lemma AddCacheYAML_cases conf w s :
  (fst (AddCacheYAML conf w s) <> None /\ snd (AddCacheYAML conf w s) = s)
  \/ (fst (AddCacheYAML conf w s) = None
      /\ exists rc,
           Label rc <> "" /\ (Label rc ∉ cache_labels s)
           /\ cache_labels (snd (AddCacheYAML conf w s))
              = cache_labels s ++ [Label rc]
           /\ rate_limit_labels (snd (AddCacheYAML conf w s))
              = rate_limit_labels s).
Proof.
  unfold AddCacheYAML.
  destruct (getYAMLNode s w conf) as [nconf|e]; [|left; split; [discriminate|reflexivity]].
  destruct (lintYAMLComponent s nconf docs.TypeCache);
    [left; split; [discriminate|reflexivity]|].
  destruct (cache_FromAny _ _) as [rc|e];
    [|left; split; [discriminate|reflexivity]].
  case_decide as Hl; [left; split; [discriminate|reflexivity]|].
  destruct (first_with_label _ _) as [cc|] eqn:Hf;
    [left; split; [discriminate|reflexivity]|].
  right. split; [reflexivity|]. exists rc.
  split; [assumption|]. split; [now apply first_with_label_free|].
  split; [|reflexivity].
  unfold cache_labels. simpl. now rewrite fmap_app.
Qed.

Lemma AddRateLimitYAML_cases conf w s :
  (fst (AddRateLimitYAML conf w s) <> None
   /\ snd (AddRateLimitYAML conf w s) = s)
  \/ (fst (AddRateLimitYAML conf w s) = None
      /\ exists rc,
           Label rc <> "" /\ (Label rc ∉ rate_limit_labels s)
           /\ rate_limit_labels (snd (AddRateLimitYAML conf w s))
              = rate_limit_labels s ++ [Label rc]
           /\ cache_labels (snd (AddRateLimitYAML conf w s))
              = cache_labels s).
Proof.
  unfold AddRateLimitYAML.
  destruct (getYAMLNode s w conf) as [nconf|e]; [|left; split; [discriminate|reflexivity]].
  destruct (lintYAMLComponent s nconf docs.TypeRateLimit);
    [left; split; [discriminate|reflexivity]|].
  destruct (ratelimit_FromAny _ _) as [rc|e];
    [|left; split; [discriminate|reflexivity]].
  case_decide as Hl; [left; split; [discriminate|reflexivity]|].
  destruct (first_with_label _ _) as [cc|] eqn:Hf;
    [left; split; [discriminate|reflexivity]|].
  right. split; [reflexivity|]. exists rc.
  split; [assumption|]. split; [now apply first_with_label_free|].
  split; [|reflexivity].
  unfold rate_limit_labels. simpl. now rewrite fmap_app.
Qed.

(** Appending a fresh non-empty label keeps a list of labels in order. *)
Lemma labels_snoc (ls : list string) (l : string) :
  NoDup ls -> "" ∉ ls -> l <> "" -> l ∉ ls ->
  NoDup (ls ++ [l]) /\ ("" ∉ ls ++ [l]).
Proof.
  intros Hnd He Hl Hfresh. split.
  - apply NoDup_app. split; [assumption|]. split.
    + intros x Hx Hx'. apply list_elem_of_singleton in Hx'. now subst.
    + apply NoDup_singleton.
  - intros Hin. apply elem_of_app in Hin as [Hin|Hin]; [now apply He|].
    apply list_elem_of_singleton in Hin. congruence.
Qed.

(** A resource addition keeps the invariant and only ever extends the
    lists of labels. *)
Lemma resource_add_keeps_labels op w s :
  is_resource_add op = true ->
  labels_ok s ->
  labels_ok (snd (step op w s))
  /\ cache_labels s `prefix_of` cache_labels (snd (step op w s))
  /\ rate_limit_labels s `prefix_of` rate_limit_labels (snd (step op w s)).
Proof.
  intros Hk (Hnc & Hec & Hnr & Her).
  destruct op; try discriminate Hk; unfold step.
  - destruct (AddCacheYAML_cases conf w s)
      as [[_ Hs]|[_ (rc & Hl & Hfresh & Hcl & Hrl)]];
      destruct (AddCacheYAML conf w s) as [e s1]; simpl in *.
    + subst s1. repeat split; try assumption; reflexivity.
    + destruct (labels_snoc _ _ Hnc Hec Hl Hfresh) as [Hnd' He'].
      unfold labels_ok. rewrite Hcl, Hrl.
      repeat split; try assumption; [now eexists | reflexivity].
  - destruct (AddRateLimitYAML_cases conf w s)
      as [[_ Hs]|[_ (rc & Hl & Hfresh & Hrl & Hcl)]];
      destruct (AddRateLimitYAML conf w s) as [e s1]; simpl in *.
    + subst s1. repeat split; try assumption; reflexivity.
    + destruct (labels_snoc _ _ Hnr Her Hl Hfresh) as [Hnd' He'].
      unfold labels_ok. rewrite Hcl, Hrl.
      repeat split; try assumption; [reflexivity | now eexists].
Qed.

(** A sequence of resource additions keeps the invariant, and every label
    held before the sequence is still held after it. *)
Lemma resource_adds_keep_labels ops :
  forall w s log w' s',
    Forall (fun op => is_resource_add op = true) ops ->
    labels_ok s ->
    run ops w s = (log, w', s') ->
    labels_ok s'
    /\ cache_labels s `prefix_of` cache_labels s'
    /\ rate_limit_labels s `prefix_of` rate_limit_labels s'.
Proof.
  induction ops as [|op ops IH]; intros w s log w' s' Hk Hok Hrun.
  - simpl in Hrun. simplify_eq. repeat split; try apply Hok; reflexivity.
  - rewrite run_cons in Hrun.
    destruct (step op w s) as [[e w1] s1] eqn:Hstep.
    destruct (run ops w1 s1) as [[log1 w2] s2] eqn:Hrest.
    simplify_eq. apply Forall_cons in Hk as [Hop Hk].
    destruct (resource_add_keeps_labels op w s Hop Hok) as (Hok1 & Hp1 & Hq1).
    rewrite Hstep in Hok1, Hp1, Hq1. simpl in Hok1, Hp1, Hq1.
    destruct (IH _ _ _ _ _ Hk Hok1 Hrest) as (Hok2 & Hp2 & Hq2).
    split; [assumption|]. split; etrans; eassumption.
Qed.

(** A new builder holds no resource. *)
Lemma new_builder_labels_ok : labels_ok (NewStreamBuilder HSt).
Proof.
  unfold labels_ok, cache_labels, rate_limit_labels. simpl.
  repeat split; try apply NoDup_nil_2; apply not_elem_of_nil.
Qed.

(** C5. After every sequence of cache and rate limit additions, started
    on a builder whose labels are distinct and non-empty within each kind
    (a new builder is one), the labels are still so, and for a further
    addition whose document decodes to the resource [rc]:
    if the label of [rc] is the label of a resource of the same kind held
    by the builder, the call returns the collision error and the builder,
    hence the resources of that kind, is as before the call; if the call
    returns no error, the label of [rc] is not empty and was free, and the
    resources of that kind are those held before followed by [rc], the
    other kind being as before. *)
Theorem label_collision_rejected ops w0 (s0 : StreamBuilder HSt) log w1 s :
  labels_ok s0 ->
  Forall (fun op => is_resource_add op = true) ops ->
  run ops w0 s0 = (log, w1, s) ->
  labels_ok s
  /\ forall (conf : string) w nconf rc,
       getYAMLNode s w conf = Ok nconf ->
       (lintYAMLComponent s nconf docs.TypeCache = None ->
        cache_FromAny (env_internal (env s)) (any_yaml nconf) = Ok rc ->
        (Label rc ∈ cache_labels s ->
         AddCacheYAML conf w s = (Some (collision_error (Label rc)), s))
        /\ (forall s', AddCacheYAML conf w s = (None, s') ->
              Label rc <> "" /\ (Label rc ∉ cache_labels s)
              /\ resources s' =
                   mkResourceConfig (ResourceCaches (resources s) ++ [rc])
                     (ResourceRateLimits (resources s))))
       /\ (lintYAMLComponent s nconf docs.TypeRateLimit = None ->
           ratelimit_FromAny (env_internal (env s)) (any_yaml nconf) = Ok rc ->
           (Label rc ∈ rate_limit_labels s ->
            AddRateLimitYAML conf w s = (Some (collision_error (Label rc)), s))
           /\ (forall s', AddRateLimitYAML conf w s = (None, s') ->
                 Label rc <> "" /\ (Label rc ∉ rate_limit_labels s)
                 /\ resources s' =
                      mkResourceConfig (ResourceCaches (resources s))
                        (ResourceRateLimits (resources s) ++ [rc]))).
Proof.
  intros Hok0 Hk Hrun.
  destruct (resource_adds_keep_labels _ _ _ _ _ _ Hk Hok0 Hrun)
    as (Hok & _ & _).
  split; [assumption|].
  destruct Hok as (_ & Hec & _ & Her).
  intros conf w nconf rc Hn. split; intros Hl Hd.
  - rewrite (AddCacheYAML_decoded _ _ _ _ _ Hn Hl Hd). split.
    + intros Hin.
      case_decide as Hlab; [rewrite Hlab in Hin; contradiction|].
      destruct (first_with_label_taken _ _ Hin) as (cc & -> & ->).
      reflexivity.
    + intros s' Hadd.
      case_decide as Hlab; [discriminate|].
      destruct (first_with_label _ _) as [cc|] eqn:Hf; [discriminate|].
      simplify_eq. split; [assumption|].
      split; [now apply first_with_label_free | reflexivity].
  - rewrite (AddRateLimitYAML_decoded _ _ _ _ _ Hn Hl Hd). split.
    + intros Hin.
      case_decide as Hlab; [rewrite Hlab in Hin; contradiction|].
      destruct (first_with_label_taken _ _ Hin) as (cc & -> & ->).
      reflexivity.
    + intros s' Hadd.
      case_decide as Hlab; [discriminate|].
      destruct (first_with_label _ _) as [cc|] eqn:Hf; [discriminate|].
      simplify_eq. split; [assumption|].
      split; [now apply first_with_label_free | reflexivity].
Qed.

End resource_registry.

(** ** The per-message consumer *)

Section per_message_consumer.
Context `{C : Collaborators} {HSt : Type}.
Implicit Types (f : handler_fn HSt Message) (c : context_Context).
Implicit Types (mb pre post calls : list Message) (st : HSt).

(** While the handler returns nil the closure goes on to the next
    message; the log grows by the messages in batch order. *)
Lemma per_message_quiet f c mb :
  forall st st' calls,
    quiet f c mb st st' ->
    per_message (Some (traced f)) c mb (st, calls)
    = (Returns None, (st', calls ++ mb)).
Proof.
  induction mb as [|m mb IH]; intros st st' calls Hq; inversion Hq; subst.
  - simpl. now rewrite app_nil_r.
  - simpl. unfold traced at 1. simpl.
    match goal with H : f c m st = _ |- _ => rewrite H end.
    rewrite (IH _ _ _ ltac:(eassumption)).
    now rewrite <- app_assoc.
Qed.

(** At the first message on which the handler returns an error the
    closure returns that error; the messages after it are not logged. *)
Lemma per_message_first_failure f c pre m post e :
  forall st st1 st2 calls,
    quiet f c pre st st1 ->
    f c m st1 = (Returns (Some e), st2) ->
    per_message (Some (traced f)) c (pre ++ m :: post) (st, calls)
    = (Returns (Some e), (st2, calls ++ pre ++ [m])).
Proof.
  induction pre as [|p pre IH]; intros st st1 st2 calls Hq Hf;
    inversion Hq; subst.
  - simpl. unfold traced at 1. simpl. now rewrite Hf.
  - simpl. unfold traced at 1. simpl.
    match goal with H : f c p st = _ |- _ => rewrite H end.
    rewrite (IH _ _ _ _ ltac:(eassumption) Hf).
    now rewrite <- app_assoc.
Qed.

(** The log does not change what the handler returns nor its state. *)
Lemma per_message_traced f c mb :
  forall st calls,
    fst (per_message (Some (traced f)) c mb (st, calls))
    = fst (per_message (Some f) c mb st)
    /\ fst (snd (per_message (Some (traced f)) c mb (st, calls)))
       = snd (per_message (Some f) c mb st).
Proof.
  induction mb as [|m mb IH]; intros st calls; [now split|].
  simpl. unfold traced at 1 3. simpl.
  destruct (f c m st) as [[[e|]|] st1]; simpl; try now split.
  apply IH.
Qed.

(** Every run of the handler over a batch is of one of three kinds: nil
    on every message, a first error, or a first panic. *)
Lemma handler_run_cases f c mb :
  forall st,
    (exists st', quiet f c mb st st')
    \/ (exists pre m post r st1 st2,
          mb = pre ++ m :: post /\ quiet f c pre st st1
          /\ f c m st1 = (r, st2) /\ r <> Returns None).
Proof.
  induction mb as [|m mb IH]; intros st.
  - left. exists st. constructor.
  - destruct (f c m st) as [r st1] eqn:Hf.
    assert (Hdec : r = Returns None \/ r <> Returns None).
    { destruct r as [[e|]|]; [right|left|right]; congruence. }
    destruct Hdec as [->|Hr].
    + destruct (IH st1) as [[st' Hq]|(pre & m' & post & r & sa & sb & -> & Hq & Hf' & Hr)].
      * left. exists st'. econstructor; eassumption.
      * right. exists (m :: pre), m', post, r, sa, sb.
        repeat split; try assumption. econstructor; eassumption.
    + right. exists [], m, mb, r, st, st1.
      repeat split; try assumption. constructor.
Qed.

(** C6. Let the per-message handler [f], observed through [traced], be
    registered with [AddConsumerFunc], and let the stream hand over a
    transaction. The closure calls [f] on the messages of the batch in
    order. If [f] returns nil on every message, the acknowledgement sent
    for the transaction is nil and [f] was called on the whole batch. If
    [f] returns nil on the messages [pre] and then an error on [m], the
    acknowledgement is that error and [f] was called on [pre] and [m] and
    on nothing after. *)
Theorem per_message_stops_at_first_failure f w (s : StreamBuilder (HSt * list Message)) w' s' :
  AddConsumerFunc (Some (traced f)) w s = (None, w', s') ->
  forall (tran : Transaction) st,
    (forall st',
       quiet f context_Background (NewInternalMessage <$> Payload tran) st st' ->
       consume s' tran (st, [])
       = (Returns (responseChan tran, None),
          (st', NewInternalMessage <$> Payload tran)))
    /\ (forall pre m post (e : error) st1 st2,
          NewInternalMessage <$> Payload tran = pre ++ m :: post ->
          quiet f context_Background pre st st1 ->
          f context_Background m st1 = (Returns (Some e), st2) ->
          consume s' tran (st, [])
          = (Returns (responseChan tran, Some e), (st2, pre ++ [m]))).
Proof.
  intros Hreg tran st.
  destruct (AddConsumerFunc_success _ _ _ _ _ Hreg) as (_ & Hfn & _).
  unfold consume. rewrite Hfn. simpl. split.
  - intros st' Hq. now rewrite (per_message_quiet _ _ _ _ _ [] Hq).
  - intros pre m post e st1 st2 Hsplit Hq Hf. rewrite Hsplit.
    now rewrite (per_message_first_failure _ _ _ _ post _ _ _ _ [] Hq Hf).
Qed.

End per_message_consumer.

(** ** What calls leave alone, and how they compose *)

Section frames.
Context `{C : Collaborators} {HSt : Type}.
Implicit Types (s : StreamBuilder HSt) (w : World) (op : Op HSt).

(** Opens the body of a builder method case by case. *)
Local Ltac open_call :=
  repeat first
    [ progress simpl in *
    | progress simplify_eq
    | case_match ].

(** Writing a field back to itself changes nothing. *)
Lemma set_resources_same s : set_resources (resources s) s = s.
Proof. now destruct s. Qed.

(** X7. Every builder call but [AddResourcesYAML] is all or nothing: when
    it returns an error the builder is exactly as before the call. *)
Theorem failed_call_leaves_builder op w s :
  (forall conf, op <> CallAddResourcesYAML conf) ->
  fst (fst (step op w s)) <> None ->
  snd (step op w s) = s.
Proof.
  intros Hop Herr.
  destruct op; unfold step in *; simpl in *; try congruence.
  - unfold AddProducerFunc in *. open_call; congruence.
  - unfold AddBatchProducerFunc in *. open_call; congruence.
  - unfold AddInputYAML in *. open_call; congruence.
  - unfold AddProcessorYAML in *. open_call; congruence.
  - unfold AddConsumerFunc in *. open_call; congruence.
  - unfold AddBatchConsumerFunc in *. open_call; congruence.
  - unfold AddOutputYAML in *. open_call; congruence.
  - unfold AddCacheYAML in *. open_call; congruence.
  - unfold AddRateLimitYAML in *. open_call; congruence.
  - now destruct (Hop conf).
  - unfold SetYAML in *. open_call; congruence.
  - unfold SetFields in *. open_call; congruence.
  - unfold SetBufferYAML in *. open_call; congruence.
  - unfold SetMetricsYAML in *. open_call; congruence.
  - unfold SetTracerYAML in *. open_call; congruence.
  - unfold SetLoggerYAML in *. open_call; congruence.
Qed.

(** X8. Once the document is read, linted and parsed, [AddResourcesYAML]
    returns the error of [AddFrom] on the resources of the builder and
    the parsed ones, and stores the resources that [AddFrom] left, also
    when that error is not nil. It writes no field but [resources]. When
    the document is not read, linted or parsed, the call returns an error
    and nothing changes at all. *)
Theorem AddResourcesYAML_only_resources (conf : string) w s :
  (forall node pConf rconf,
     getYAMLNode s w conf = Ok node ->
     lintYAMLSpec s manager_Spec node = None ->
     FieldSpecs_ParsedConfigFromAny manager_Spec (any_yaml node) = Ok pConf ->
     manager_FromParsed (env_internal (env s)) pConf = Ok rconf ->
     AddResourcesYAML conf w s
     = (snd (ResourceConfig_AddFrom (resources s) rconf),
        set_resources (fst (ResourceConfig_AddFrom (resources s) rconf)) s))
  /\ snd (AddResourcesYAML conf w s)
     = set_resources (resources (snd (AddResourcesYAML conf w s))) s
  /\ forall e1 e2 e3 : error,
       (getYAMLNode s w conf = Err e1
        \/ (exists node,
              getYAMLNode s w conf = Ok node
              /\ (lintYAMLSpec s manager_Spec node <> None
                  \/ FieldSpecs_ParsedConfigFromAny manager_Spec (any_yaml node)
                     = Err e2
                  \/ exists pConf,
                       FieldSpecs_ParsedConfigFromAny manager_Spec
                         (any_yaml node) = Ok pConf
                       /\ manager_FromParsed (env_internal (env s)) pConf
                          = Err e3))) ->
       fst (AddResourcesYAML conf w s) <> None
       /\ snd (AddResourcesYAML conf w s) = s.
Proof.
  split; [|split].
  - intros node pConf rconf Hn Hl Hp Hr. unfold AddResourcesYAML.
    rewrite Hn, Hl, Hp, Hr.
    now destruct (ResourceConfig_AddFrom (resources s) rconf).
  - unfold AddResourcesYAML.
    destruct (getYAMLNode s w conf) as [node|e]; [|now destruct s].
    destruct (lintYAMLSpec s manager_Spec node); [now destruct s|].
    destruct (FieldSpecs_ParsedConfigFromAny _ _) as [pConf|e];
      [|now destruct s].
    destruct (manager_FromParsed _ _) as [rconf|e]; [|now destruct s].
    now destruct (ResourceConfig_AddFrom (resources s) rconf).
  - intros e1 e2 e3 [Hn|(node & Hn & [Hl|[Hp|(pConf & Hp & Hr)]])];
      unfold AddResourcesYAML; rewrite Hn; [now split| | |].
    + destruct (lintYAMLSpec s manager_Spec node); [now split|congruence].
    + destruct (lintYAMLSpec s manager_Spec node); [now split|].
      now rewrite Hp.
    + destruct (lintYAMLSpec s manager_Spec node); [now split|].
      now rewrite Hp, Hr.
Qed.

(** Each call keeps the endpoints wired. *)
Lemma step_keeps_wired op w s : wired s -> wired (snd (step op w s)).
Proof.
  intros [Hp Hc].
  assert (Hs : wired s) by (split; assumption).
  destruct op; unfold step; try exact Hs.
  - unfold SetSchema. simpl. case_decide; exact Hs.
  - unfold AddProducerFunc.
    destruct (producerChan s) eqn:Hch in |- *; [exact Hs|].
    destruct (uuid_NewV4 w) as [[u|e] w1]; [|exact Hs].
    destruct (make_chan w1) as [tChan w2]. simpl. split.
    + intros _. apply elem_of_app. right. apply list_elem_of_here.
    + exact Hc.
  - unfold AddBatchProducerFunc.
    destruct (producerChan s) eqn:Hch in |- *; [exact Hs|].
    destruct (uuid_NewV4 w) as [[u|e] w1]; [|exact Hs].
    destruct (make_chan w1) as [tChan w2]. simpl. split.
    + intros _. apply elem_of_app. right. apply list_elem_of_here.
    + exact Hc.
  - unfold AddInputYAML.
    destruct (getYAMLNode s w conf) as [n|e0]; [|exact Hs].
    destruct (lintYAMLComponent s n docs.TypeInput); [exact Hs|].
    destruct (input_FromAny _ _); [|exact Hs].
    split; [|exact Hc].
    intros H. apply elem_of_app. left. now apply Hp.
  - unfold AddProcessorYAML.
    destruct (getYAMLNode s w conf) as [n|e0]; [|exact Hs].
    destruct (lintYAMLComponent s n docs.TypeProcessor); [exact Hs|].
    destruct (processor_FromAny _ _); exact Hs.
  - unfold AddConsumerFunc.
    destruct (consumerFunc s) eqn:Hf in |- *; [exact Hs|].
    destruct (uuid_NewV4 w) as [[u|e] w1]; [|exact Hs].
    simpl. split; [exact Hp|].
    intros _. apply elem_of_app. right. apply list_elem_of_here.
  - unfold AddBatchConsumerFunc.
    destruct (consumerFunc s) eqn:Hf in |- *; [exact Hs|].
    destruct (uuid_NewV4 w) as [[u|e] w1]; [|exact Hs].
    simpl. split; [exact Hp|].
    intros _. apply elem_of_app. right. apply list_elem_of_here.
  - unfold AddOutputYAML.
    destruct (getYAMLNode s w conf) as [n|e0]; [|exact Hs].
    destruct (lintYAMLComponent s n docs.TypeOutput); [exact Hs|].
    destruct (output_FromAny _ _); [|exact Hs].
    split; [exact Hp|].
    intros H. apply elem_of_app. left. now apply Hc.
  - unfold AddCacheYAML.
    destruct (getYAMLNode s w conf) as [n|e0]; [|exact Hs].
    destruct (lintYAMLComponent s n docs.TypeCache); [exact Hs|].
    destruct (cache_FromAny _ _); [|exact Hs].
    case_decide; [exact Hs|]. destruct (first_with_label _ _); exact Hs.
  - unfold AddRateLimitYAML.
    destruct (getYAMLNode s w conf) as [n|e0]; [|exact Hs].
    destruct (lintYAMLComponent s n docs.TypeRateLimit); [exact Hs|].
    destruct (ratelimit_FromAny _ _); [|exact Hs].
    case_decide; [exact Hs|]. destruct (first_with_label _ _); exact Hs.
  - unfold AddResourcesYAML.
    destruct (getYAMLNode s w conf) as [n|e0]; [|exact Hs].
    simpl. destruct (lintYAMLSpec s manager_Spec n); [exact Hs|].
    destruct (FieldSpecs_ParsedConfigFromAny _ _); [|exact Hs].
    destruct (manager_FromParsed _ _); [|exact Hs].
    destruct (ResourceConfig_AddFrom _ _). exact Hs.
  - unfold SetYAML.
    destruct (producerChan s) eqn:Hch in |- *; [exact Hs|].
    destruct (consumerFunc s) eqn:Hf in |- *; [exact Hs|].
    destruct (getYAMLNode s w conf) as [n|e0]; [|exact Hs].
    simpl. destruct (lintYAMLSpec s (configSpec s) n); [exact Hs|].
    destruct (FieldSpecs_ParsedConfigFromAny _ _); [|exact Hs].
    destruct (config_parse.FromParsed _ _ _); [|exact Hs].
    split; simpl; intros H; congruence.
  - unfold SetFields.
    destruct (producerChan s) eqn:Hch in |- *; [exact Hs|].
    destruct (consumerFunc s) eqn:Hf in |- *; [exact Hs|].
    destruct (negb _); [exact Hs|].
    destruct (yaml_Encode _); [|exact Hs].
    destruct (FieldSpecs_SanitiseYAML _ _ _); [|exact Hs].
    destruct (set_paths _ _ _ _); [|exact Hs].
    simpl. destruct (lintYAMLSpec s (configSpec s) _); [exact Hs|].
    destruct (FieldSpecs_ParsedConfigFromAny _ _); [|exact Hs].
    destruct (config_parse.FromParsed _ _ _); [|exact Hs].
    split; simpl; intros H; congruence.
  - unfold SetBufferYAML.
    destruct (getYAMLNode s w conf) as [n|e0]; [|exact Hs].
    destruct (lintYAMLComponent s n docs.TypeBuffer); [exact Hs|].
    destruct (buffer_FromAny _ _); exact Hs.
  - unfold SetMetricsYAML.
    destruct (getYAMLNode s w conf) as [n|e0]; [|exact Hs].
    destruct (lintYAMLComponent s n docs.TypeMetrics); [exact Hs|].
    destruct (metrics_FromAny _ _); exact Hs.
  - unfold SetTracerYAML.
    destruct (getYAMLNode s w conf) as [n|e0]; [|exact Hs].
    destruct (lintYAMLComponent s n docs.TypeTracer); [exact Hs|].
    destruct (config_parse.tracer_FromAny _ _) as [tconf [e|]]; exact Hs.
  - unfold SetLoggerYAML.
    destruct (getYAMLNode s w conf) as [n|e0]; [|exact Hs].
    simpl. destruct (lintYAMLSpec s log_Spec n); [exact Hs|].
    destruct (FieldSpecs_ParsedConfigFromAny _ _); [|exact Hs].
    destruct (log_FromParsed _); exact Hs.
Qed.

(** X9. After every sequence of calls on a new builder the synthetic
    endpoints are wired: if a producer channel is held, the input list
    holds the [inproc] config that carries the producer id; if a consumer
    function is held, the output list holds the [inproc] config that
    carries the consumer id. No call, [SetYAML] and [SetFields] included,
    drops them. *)
Theorem endpoints_stay_wired (ops : list (Op HSt)) w :
  wired (snd (run ops w (NewStreamBuilder HSt))).
Proof.
  assert (Hgen : forall ops w s, wired s -> wired (snd (run ops w s))).
  { clear. intros ops. induction ops as [|op ops IH]; intros w s Hw.
    - exact Hw.
    - rewrite run_cons.
      pose proof (step_keeps_wired op w s Hw) as Hw1.
      destruct (step op w s) as [[e w1] s1]. simpl in Hw1.
      specialize (IH w1 s1 Hw1).
      destruct (run ops w1 s1) as [[log w2] s2]. exact IH. }
  apply Hgen. split; intros H; now destruct H.
Qed.

(** No call switches linting back on, takes the multiplexer away or takes
    the custom logger away. *)
Lemma step_keeps_switches op w s :
  (lintingDisabled s = true -> lintingDisabled (snd (step op w s)) = true)
  /\ (apiMut s <> None -> apiMut (snd (step op w s)) <> None)
  /\ (customLogger s <> None -> customLogger (snd (step op w s)) <> None).
Proof.
  destruct op; unfold step;
    unfold SetSchema, AddProducerFunc, AddBatchProducerFunc, AddInputYAML,
      AddProcessorYAML, AddConsumerFunc, AddBatchConsumerFunc, AddOutputYAML,
      AddCacheYAML, AddRateLimitYAML, AddResourcesYAML, SetYAML, SetFields,
      SetBufferYAML, SetMetricsYAML, SetTracerYAML, SetLoggerYAML;
    open_call; repeat split; intros; first [assumption | congruence].
Qed.

(** X10. Three switches of the builder are one-way. Once linting is
    disabled it stays disabled through every later sequence of calls; once
    a multiplexer is set, no later snapshot carries the [http] section;
    once a custom logger is set, no later snapshot carries the [logger]
    section. *)
Theorem one_way_switches (ops : list (Op HSt)) w s :
  (lintingDisabled s = true ->
   lintingDisabled (snd (run ops w s)) = true)
  /\ (apiMut s <> None -> bc_HTTP (buildConfig (snd (run ops w s))) = None)
  /\ (customLogger s <> None ->
      bc_Logger (buildConfig (snd (run ops w s))) = None).
Proof.
  assert (Hgen : forall ops w s,
    (lintingDisabled s = true -> lintingDisabled (snd (run ops w s)) = true)
    /\ (apiMut s <> None -> apiMut (snd (run ops w s)) <> None)
    /\ (customLogger s <> None -> customLogger (snd (run ops w s)) <> None)).
  { clear. intros ops. induction ops as [|op ops IH]; intros w s.
    - repeat split; intros; assumption.
    - rewrite run_cons.
      destruct (step_keeps_switches op w s) as (Hl & Ha & Hc).
      destruct (step op w s) as [[e w1] s1]. simpl in Hl, Ha, Hc.
      destruct (IH w1 s1) as (Hl' & Ha' & Hc').
      destruct (run ops w1 s1) as [[log w2] s2]. simpl in *.
      repeat split; intros; auto. }
  destruct (Hgen ops w s) as (Hl & Ha & Hc).
  split; [exact Hl|]. split; intros H.
  - specialize (Ha H). unfold buildConfig. simpl.
    destruct (apiMut (snd (run ops w s))); [reflexivity|congruence].
  - specialize (Hc H). unfold buildConfig. simpl.
    destruct (customLogger (snd (run ops w s))); [reflexivity|congruence].
Qed.

(** X11. A producer registration that returns no error composes with what
    was added before: on a builder without inputs the composed input of
    the snapshot is the [inproc] config itself, and on a builder with
    inputs it is a broker over those inputs, in order, followed by the
    [inproc] config. *)
Theorem producer_joins_inputs op w s w' s' :
  is_producer_registration op = true ->
  step op w s = (None, w', s') ->
  composed_input s' =
    match inputs s with
    | [] => inproc_conf input_NewConfig (producerID s')
    | _ :: _ =>
        mkComponentConfig "" "broker"
          (any_map (input_broker_payload
                      (inputs s
                       ++ [inproc_conf input_NewConfig (producerID s')])))
    end.
Proof.
  intros Hk Hstep.
  assert (Hin : inputs s' =
                inputs s ++ [inproc_conf input_NewConfig (producerID s')]).
  { destruct op; try discriminate Hk; unfold step in Hstep.
    - destruct (AddProducerFunc w s) as [[[h|e] w1] s1] eqn:Ha;
        simpl in Hstep; [|discriminate]. simplify_eq.
      now destruct (AddProducerFunc_success _ _ _ _ _ Ha) as (_ & _ & ?).
    - destruct (AddBatchProducerFunc w s) as [[[h|e] w1] s1] eqn:Ha;
        simpl in Hstep; [|discriminate]. simplify_eq.
      now destruct (AddBatchProducerFunc_success _ _ _ _ _ Ha) as (_ & _ & ?). }
  destruct (inputs s) as [|a l] eqn:Hs.
  - unfold composed_input, buildConfig. now rewrite Hin.
  - rewrite composed_input_many; rewrite Hin; [reflexivity|].
    simpl. rewrite length_app. simpl. lia.
Qed.

(** X12. A consumer registration that returns no error composes with what
    was added before, in the same way on the output side; the broker
    carries the pattern entry under the rule of the composed output. *)
Theorem consumer_joins_outputs op w s w' s' :
  is_consumer_registration op = true ->
  step op w s = (None, w', s') ->
  composed_output s' =
    match outputs s with
    | [] => inproc_conf output_NewConfig (consumerID s')
    | _ :: _ =>
        mkComponentConfig "" "broker"
          (any_map (output_broker_payload
                      (outputs s
                       ++ [inproc_conf output_NewConfig (consumerID s')])
                      (outputBrokerPattern s)))
    end.
Proof.
  intros Hk Hstep.
  assert (Hout : outputs s' =
                 outputs s ++ [inproc_conf output_NewConfig (consumerID s')]
                 /\ outputBrokerPattern s' = outputBrokerPattern s).
  { destruct op; try discriminate Hk; unfold step in Hstep.
    - destruct (AddConsumerFunc_success _ _ _ _ _ Hstep) as (_ & _ & Ho).
      split; [exact Ho|].
      unfold AddConsumerFunc in Hstep. open_call; reflexivity.
    - destruct (AddBatchConsumerFunc_success _ _ _ _ _ Hstep) as (_ & _ & Ho).
      split; [exact Ho|].
      unfold AddBatchConsumerFunc in Hstep. open_call; reflexivity. }
  destruct Hout as [Hout Hpat].
  destruct (outputs s) as [|a l] eqn:Hs.
  - unfold composed_output, buildConfig. now rewrite Hout.
  - rewrite composed_output_many; rewrite Hout, ?Hpat; [reflexivity|].
    simpl. rewrite length_app. simpl. lia.
Qed.

(** X13. With fewer than two outputs the pattern plays no part: setting
    it leaves the whole snapshot as it was, and a single output is the
    composed output itself. *)
Theorem pattern_unused_below_two_outputs pattern s :
  length (outputs s) <= 1 ->
  buildConfig (SetOutputBrokerPattern pattern s) = buildConfig s
  /\ (length (outputs s) = 1 -> outputs s = [composed_output s])
  /\ (length (outputs s) = 0 -> composed_output s = output_NewConfig).
Proof.
  intros Hlen. unfold composed_output, buildConfig, SetOutputBrokerPattern.
  simpl. destruct (outputs s) as [|a [|b l]]; simpl in *;
    [| |lia]; repeat split; intros; try reflexivity; lia.
Qed.

(** What [SetYAML] reads of the builder is untouched by [setFromConfig]. *)
Lemma setFromConfig_reads sconf s :
  producerChan (setFromConfig sconf s) = producerChan s
  /\ consumerFunc (setFromConfig sconf s) = consumerFunc s
  /\ configSpec (setFromConfig sconf s) = configSpec s
  /\ env (setFromConfig sconf s) = env s
  /\ (forall w b, getYAMLNode (setFromConfig sconf s) w b = getYAMLNode s w b)
  /\ (forall spec node,
        lintYAMLSpec (setFromConfig sconf s) spec node
        = lintYAMLSpec s spec node).
Proof. repeat split. Qed.

(** Writing a second config over a first leaves the second alone. *)
Lemma setFromConfig_twice sconf1 sconf2 s :
  setFromConfig sconf2 (setFromConfig sconf1 s) = setFromConfig sconf2 s.
Proof. reflexivity. Qed.

(** [SetYAML] that returns no error, step by step. *)
Lemma SetYAML_success_inv conf w s s' :
  SetYAML conf w s = (None, s') ->
  producerChan s = None /\ consumerFunc s = None
  /\ exists node pConf sconf,
       getYAMLNode s w conf = Ok node
       /\ lintYAMLSpec s (configSpec s) node = None
       /\ FieldSpecs_ParsedConfigFromAny (configSpec s) (any_yaml node)
          = Ok pConf
       /\ config_parse.FromParsed (env_internal (env s)) pConf any_nil
          = Ok sconf
       /\ s' = setFromConfig sconf s.
Proof.
  unfold SetYAML. intros H.
  destruct (producerChan s); [discriminate|].
  destruct (consumerFunc s); [discriminate|].
  destruct (getYAMLNode s w conf) as [node|e] eqn:Hn; [|discriminate].
  simpl in H.
  destruct (lintYAMLSpec s (configSpec s) node) eqn:Hl; [discriminate|].
  destruct (FieldSpecs_ParsedConfigFromAny _ _) as [pConf|e] eqn:Hp;
    [|discriminate].
  destruct (config_parse.FromParsed _ _ _) as [sconf|e] eqn:Hf;
    [|discriminate].
  simplify_eq. split; [reflexivity|]. split; [reflexivity|].
  exists node, pConf, sconf. repeat split; assumption.
Qed.

(** X14. When [SetYAML] returns no error, everything added before is
    replaced by what [config.FromParsed] made of the document: the
    builder holds exactly its input and its output, so the snapshot's
    input and output are those two configs and never a broker made by the
    builder; the HTTP, buffer, processors, threads, resources, logger,
    metrics and tracer settings are the document's as well. The switches
    set by other methods (engine version, schema, linting, pattern,
    multiplexer, custom logger, lookup function) are kept. *)
Theorem SetYAML_replaces_everything (conf : string) w s s' :
  SetYAML conf w s = (None, s') ->
  exists (node : yaml.Node) (pConf : ParsedConfig) (sconf : config.Type_),
    getYAMLNode s w conf = Ok node
    /\ FieldSpecs_ParsedConfigFromAny (configSpec s) (any_yaml node)
       = Ok pConf
    /\ config_parse.FromParsed (env_internal (env s)) pConf any_nil
       = Ok sconf
    /\ http s' = config.HTTP sconf
    /\ inputs s' = [Input (config.Config sconf)]
    /\ buffer s' = Buffer (config.Config sconf)
    /\ processors s' = Processors (Pipeline (config.Config sconf))
    /\ threads s' = Threads (Pipeline (config.Config sconf))
    /\ outputs s' = [Output (config.Config sconf)]
    /\ resources s' = config.ResourceConfig_ sconf
    /\ logger s' = config.Logger sconf
    /\ metrics s' = config.Metrics sconf
    /\ tracer s' = config.Tracer sconf
    /\ composed_input s' = Input (config.Config sconf)
    /\ composed_output s' = Output (config.Config sconf)
    /\ (engineVersion s', configSpec s', lintingDisabled s',
        outputBrokerPattern s', apiMut s', customLogger s',
        envVarLookupFn s', env s')
       = (engineVersion s, configSpec s, lintingDisabled s,
          outputBrokerPattern s, apiMut s, customLogger s,
          envVarLookupFn s, env s).
Proof.
  intros H.
  destruct (SetYAML_success_inv _ _ _ _ H)
    as (_ & _ & node & pConf & sconf & Hn & _ & Hp & Hf & ->).
  exists node, pConf, sconf.
  split; [exact Hn|]. split; [exact Hp|]. split; [exact Hf|].
  repeat split.
Qed.

(** X15. A second [SetYAML] overrides a first one completely: after a
    [SetYAML] that returned no error, a further [SetYAML] returns what it
    would have returned on the builder before the first, and when it
    returns no error it leaves the builder it would have left. *)
Theorem SetYAML_overrides_SetYAML (c1 c2 : string) w1 w2 s s1 :
  SetYAML c1 w1 s = (None, s1) ->
  fst (SetYAML c2 w2 s1) = fst (SetYAML c2 w2 s)
  /\ (fst (SetYAML c2 w2 s) = None ->
      snd (SetYAML c2 w2 s1) = snd (SetYAML c2 w2 s)).
Proof.
  intros H1.
  destruct (SetYAML_success_inv _ _ _ _ H1)
    as (Hp & Hc & node & pConf & sconf & _ & _ & _ & _ & ->).
  destruct (setFromConfig_reads sconf s) as (Rp & Rc & Rs & Re & Rn & Rl).
  unfold SetYAML. rewrite Rp, Rc, Rs, Re, Rn, Hp, Hc.
  destruct (getYAMLNode s w2 c2) as [n2|e]; [|split; [reflexivity|discriminate]].
  simpl. rewrite Rl.
  destruct (lintYAMLSpec s (configSpec s) n2);
    [split; [reflexivity|discriminate]|].
  destruct (FieldSpecs_ParsedConfigFromAny _ _) as [p2|e];
    [|split; [reflexivity|discriminate]].
  destruct (config_parse.FromParsed _ _ _) as [sconf2|e];
    [|split; [reflexivity|discriminate]].
  split; [reflexivity|]. intros _. simpl. apply setFromConfig_twice.
Qed.

(** A call that is no wholesale replacement only extends the lists of
    inputs, processors and outputs. *)
Lemma step_extends_lists op w s :
  is_replacement op = false ->
  inputs s `prefix_of` inputs (snd (step op w s))
  /\ processors s `prefix_of` processors (snd (step op w s))
  /\ outputs s `prefix_of` outputs (snd (step op w s)).
Proof.
  intros Hop.
  assert (Hsame : forall l : list (ComponentConfig any), l `prefix_of` l)
    by reflexivity.
  assert (Hsnoc : forall (l : list (ComponentConfig any)) x,
            l `prefix_of` l ++ [x]) by (intros; now eexists).
  destruct op; try discriminate Hop; unfold step;
    unfold SetSchema, AddProducerFunc, AddBatchProducerFunc, AddInputYAML,
      AddProcessorYAML, AddConsumerFunc, AddBatchConsumerFunc, AddOutputYAML,
      AddCacheYAML, AddRateLimitYAML, AddResourcesYAML,
      SetBufferYAML, SetMetricsYAML, SetTracerYAML, SetLoggerYAML;
    open_call; repeat split; first [apply Hsame | apply Hsnoc].
Qed.

(** X16. The [Add...] and the other incremental calls never drop or
    reorder what was added: through every sequence of calls without
    [SetYAML] and [SetFields], the inputs, the processors and the outputs
    held at the start remain, in their order, at the front of the lists
    held at the end. *)
Theorem additions_only_extend (ops : list (Op HSt)) w s :
  Forall (fun op => is_replacement op = false) ops ->
  inputs s `prefix_of` inputs (snd (run ops w s))
  /\ processors s `prefix_of` processors (snd (run ops w s))
  /\ outputs s `prefix_of` outputs (snd (run ops w s)).
Proof.
  revert w s. induction ops as [|op ops IH]; intros w s Hops.
  - repeat split; reflexivity.
  - apply Forall_cons in Hops as [Hop Hops]. rewrite run_cons.
    destruct (step_extends_lists op w s Hop) as (Hi & Hp & Ho).
    destruct (step op w s) as [[e w1] s1]. simpl in Hi, Hp, Ho.
    destruct (IH w1 s1 Hops) as (Hi' & Hp' & Ho').
    destruct (run ops w1 s1) as [[log w2] s2]. simpl in *.
    repeat split; etrans; eassumption.
Qed.

(** X17. Labels are scoped by kind: whether a cache addition is accepted
    does not depend on the rate limits held, and whether a rate limit
    addition is accepted does not depend on the caches held. *)
Theorem resource_kinds_independent (conf : string) w s
    (others : list (ComponentConfig any)) :
  fst (AddCacheYAML conf w
         (set_resources
            (mkResourceConfig (ResourceCaches (resources s)) others) s))
  = fst (AddCacheYAML conf w s)
  /\ fst (AddRateLimitYAML conf w
            (set_resources
               (mkResourceConfig others (ResourceRateLimits (resources s))) s))
     = fst (AddRateLimitYAML conf w s).
Proof.
  split.
  - unfold AddCacheYAML, getYAMLNode, lintYAMLComponent, getLintContext.
    simpl. open_call; try reflexivity; congruence.
  - unfold AddRateLimitYAML, getYAMLNode, lintYAMLComponent, getLintContext.
    simpl. open_call; try reflexivity; congruence.
Qed.

End frames.

(** ** The consumer loop *)

Section pump.
Context `{C : Collaborators} {HSt : Type}.
Implicit Types (s : StreamBuilder HSt) (w : World) (st : HSt).

(** The loop over an observed batch handler, from any log. *)
Lemma consume_all_traced_batch (h : handler_fn HSt MessageBatch)
    (sb : StreamBuilder (HSt * list MessageBatch))
    (trans : list Transaction) st log acks st' calls :
  consumerFunc sb = Some (traced_batch h) ->
  consume_all sb trans (st, log) = (Returns acks, (st', calls)) ->
  calls
  = log ++ ((fun tran => NewInternalMessage <$> Payload tran) <$> trans)
  /\ fst <$> acks = responseChan <$> trans
  /\ answers h context_Background
       ((fun tran => NewInternalMessage <$> Payload tran) <$> trans)
       st (snd <$> acks) st'.
Proof.
  intros Hc. revert st log acks st' calls.
  induction trans as [|tran rest IH]; intros st log acks st' calls H;
    simpl in H.
  - simplify_eq. simpl. rewrite app_nil_r.
    split; [reflexivity|]. split; [reflexivity|]. constructor.
  - unfold consume in H. rewrite Hc in H. simpl in H.
    unfold traced_batch in H. simpl in H.
    destruct (h context_Background (NewInternalMessage <$> Payload tran) st)
      as [[e|] st1] eqn:Hh; simpl in H; [|discriminate].
    destruct (consume_all sb rest _) as [[acks1|] st2] eqn:Hrest;
      [|discriminate].
    simplify_eq.
    destruct (IH _ _ _ _ _ Hrest) as (Hcalls & Hchans & Hans).
    split; [|split].
    + rewrite Hcalls, <- app_assoc. reflexivity.
    + simpl. f_equal. exact Hchans.
    + simpl. econstructor; [exact Hh|exact Hans].
Qed.

(** X18. The loop started by [runConsumerFunc] calls the registered batch
    function exactly once for every transaction, in the order of
    arrival, on the batch rebuilt from the whole payload of the
    transaction, and what the function returned on that batch is what the
    transaction is acknowledged with. The calls are observed in the log
    of [traced_batch]. *)
Theorem batch_consumer_called_once_per_transaction
    (h : handler_fn HSt MessageBatch) w
    (sb : StreamBuilder (HSt * list MessageBatch)) w' sb'
    (trans : list Transaction) st acks st' calls :
  AddBatchConsumerFunc (Some (traced_batch h)) w sb = (None, w', sb') ->
  consume_all sb' trans (st, []) = (Returns acks, (st', calls)) ->
  calls = (fun tran => NewInternalMessage <$> Payload tran) <$> trans
  /\ fst <$> acks = responseChan <$> trans
  /\ answers h context_Background calls st (snd <$> acks) st'.
Proof.
  intros Hreg Hrun.
  assert (Hc : consumerFunc sb' = Some (traced_batch h)).
  { unfold AddBatchConsumerFunc in Hreg.
    destruct (consumerFunc sb); [discriminate|].
    destruct (uuid_NewV4 w) as [[u|e] w1]; [|discriminate].
    now simplify_eq. }
  destruct (consume_all_traced_batch h sb' trans st [] acks st' calls Hc Hrun)
    as (Hcalls & Hchans & Hans).
  simpl in Hcalls. subst calls. repeat split; assumption.
Qed.

(** X19. The per-message closure on an empty batch calls nothing and
    returns nil, so an empty transaction is acknowledged with nil even
    when [AddConsumerFunc] was given the nil function; given the nil
    function, the registration is accepted and the first message of any
    non-empty batch panics. *)
Theorem per_message_edges (fn : MessageHandlerFunc HSt) w s w' s' :
  AddConsumerFunc fn w s = (None, w', s') ->
  forall (tran : Transaction) st,
    (Payload tran = [] ->
     consume s' tran st = (Returns (responseChan tran, None), st))
    /\ (fn = None -> Payload tran <> [] ->
        consume s' tran st = (Panics, st)).
Proof.
  intros Hreg tran st.
  destruct (AddConsumerFunc_success _ _ _ _ _ Hreg) as (_ & Hfn & _).
  unfold consume. rewrite Hfn. split.
  - intros ->. reflexivity.
  - intros -> Hne. destruct (Payload tran) as [|p ps]; [congruence|].
    reflexivity.
Qed.

(** X20. Without a consumer function [runConsumerFunc] starts nothing and
    asks the manager for no pipe. This is so on a new builder and after
    every sequence of calls that registers no consumer, whatever else the
    calls add or set. *)
Theorem no_consumer_nothing_runs (ops : list (Op HSt)) w mgr :
  Forall (fun op => is_consumer_registration op = false) ops ->
  runConsumerFunc (snd (run ops w (NewStreamBuilder HSt))) mgr = Ok None.
Proof.
  intros Hops.
  assert (Hgen : forall ops w s,
            Forall (fun op : Op HSt => is_consumer_registration op = false) ops ->
            consumerFunc s = None ->
            consumerFunc (snd (run ops w s)) = None).
  { clear. intros ops. induction ops as [|op ops IH]; intros w s Hops Hs.
    - exact Hs.
    - apply Forall_cons in Hops as [Hop Hops]. rewrite run_cons.
      assert (H1 : consumerFunc (snd (step op w s)) = None).
      { destruct op; try discriminate Hop; unfold step;
          unfold SetSchema, AddProducerFunc, AddBatchProducerFunc,
            AddInputYAML, AddProcessorYAML, AddOutputYAML, AddCacheYAML,
            AddRateLimitYAML, AddResourcesYAML, SetYAML, SetFields,
            SetBufferYAML, SetMetricsYAML, SetTracerYAML, SetLoggerYAML;
          repeat first [progress simpl in * | progress simplify_eq | case_match];
          first [assumption | congruence]. }
      destruct (step op w s) as [[e w1] s1]. simpl in H1.
      specialize (IH w1 s1 Hops H1).
      destruct (run ops w1 s1) as [[log w2] s2]. exact IH. }
  unfold runConsumerFunc. now rewrite (Hgen ops w (NewStreamBuilder HSt) Hops eq_refl).
Qed.

End pump.

(** ** Decoding a tracer config *)

Section tracer_decoding.
Variable Provider : Type.
Variable GetInferenceCandidateFromMap :
  Provider -> docs.Type_ -> gmap string any -> string * option error.
Variable GetInferenceCandidateFromYAML :
  Provider -> docs.Type_ -> yaml.Node -> string * option error.
Variable GetPluginConfigYAML : string -> yaml.Node -> yaml.Node * option error.
Variable NewLintError : Z -> docs.LintType -> error -> error.

Local Abbreviation FromAny :=
  (tracer.FromAny Provider GetInferenceCandidateFromMap
     GetInferenceCandidateFromYAML GetPluginConfigYAML NewLintError).

(** X21. [FromAny] returns no error exactly in these cases: the value is a
    typed config; it is a YAML node for which the type inference and the
    reading of the plugin node both return no error; it is a map for which
    the type inference returns no error. Whenever it returns an error,
    the plugin of the returned config is nil. *)
Theorem FromAny_success_cases (prov : Provider) (value : any) :
  (snd (FromAny prov value) = None <->
   match value with
   | any_tracer _ => True
   | any_yaml n =>
       snd (GetInferenceCandidateFromYAML prov docs.TypeTracer n) = None
       /\ snd (GetPluginConfigYAML
                 (fst (GetInferenceCandidateFromYAML prov docs.TypeTracer n))
                 n) = None
   | any_map m =>
       snd (GetInferenceCandidateFromMap prov docs.TypeTracer m) = None
   | _ => False
   end)
  /\ (snd (FromAny prov value) <> None ->
      tracer_Plugin (fst (FromAny prov value)) = any_nil).
Proof.
  destruct value; simpl;
    try (split; [split; [discriminate|tauto]|reflexivity]).
  - unfold tracer.fromMap.
    destruct (GetInferenceCandidateFromMap prov docs.TypeTracer m)
      as [ty [e|]]; simpl.
    + split; [split; discriminate|reflexivity].
    + destruct (m !! ty); [|destruct (m !! "plugin")];
        (split; [split; reflexivity|intros H; now destruct H]).
  - unfold tracer.fromYAML.
    destruct (GetInferenceCandidateFromYAML prov docs.TypeTracer n)
      as [ty [e|]]; simpl.
    + split; [split; [discriminate|intros [? _]; discriminate]|reflexivity].
    + destruct (GetPluginConfigYAML ty n) as [pn [e|]]; simpl.
      * split; [split; [discriminate|intros [_ ?]; discriminate]|reflexivity].
      * split; [split; [intros _; now split|reflexivity]|intros H; now destruct H].
  - split; [split; [reflexivity|reflexivity]|intros H; now destruct H].
Qed.

(** X22. Decoding a map: when the type inference returns the name [ty]
    without error, the config has that type, and its plugin is the entry
    of the map under [ty] when there is one; only without such an entry
    is the entry under [plugin] used, and without either the plugin is
    nil. *)
Theorem FromAny_map_plugin (prov : Provider) (m : gmap string any) (ty : string) :
  GetInferenceCandidateFromMap prov docs.TypeTracer m = (ty, None) ->
  exists conf : tracer.Config,
    FromAny prov (any_map m) = (conf, None)
    /\ tracer_Type conf = ty
    /\ (forall p, m !! ty = Some p -> tracer_Plugin conf = p)
    /\ (m !! ty = None ->
        tracer_Plugin conf = default any_nil (m !! "plugin")).
Proof.
  intros Hty. simpl. unfold tracer.fromMap. rewrite Hty.
  destruct (m !! ty) as [p|] eqn:Hp.
  - eexists. split; [reflexivity|]. split; [reflexivity|].
    split; [intros q Hq; now simplify_eq|discriminate].
  - destruct (m !! "plugin") as [q|] eqn:Hq;
      (eexists; split; [reflexivity|]; split; [reflexivity|];
       split; [discriminate|reflexivity]).
Qed.

End tracer_decoding.

(** ** Parsing the service config; versions *)

Section parsing.
Context `{C : Collaborators}.
Import config_parse.

(** The loop over the tests appends one value per entry, in order. *)
Lemma collect_tests_map (tests : list any) (tmpTests : list ParsedConfig) :
  collect_tests tests tmpTests
  = tests ++ ((fun v => fst (ParsedConfig_FieldAny v [])) <$> tmpTests).
Proof.
  unfold collect_tests. revert tests.
  induction tmpTests as [|v l IH]; intros tests; simpl.
  - now rewrite app_nil_r.
  - rewrite IH, <- app_assoc. reflexivity.
Qed.

(** X23. A parsed document that holds none of the service keys gets the
    defaults of the packages: when the stream and the resources parse,
    [http] and [logger] are not contained, [metrics] and [tracer] read as
    nil, and the shutdown keys and [tests] are not contained, [FromParsed]
    returns the new configs of [api], [log], [metrics] and [tracer], empty
    shutdown strings and no tests. *)
Theorem FromParsed_missing_keys (prov : Provider) (pConf : ParsedConfig)
    (raw : any) stream res :
  stream_FromParsed prov pConf any_nil = Ok stream ->
  manager_FromParsed prov pConf = Ok res ->
  (forall k, k ∈ [fieldHTTP; fieldLogger; fieldSystemCloseDelay;
                  fieldSystemCloseTimeout; fieldTests] ->
             ParsedConfig_Contains pConf [k] = false) ->
  (forall k, k ∈ [fieldMetrics; fieldTracer] ->
             fst (ParsedConfig_FieldAny pConf [k]) = any_nil) ->
  FromParsed prov pConf raw
  = Ok (config.mkType api_NewConfig stream res log_NewConfig
          metrics_NewConfig tracer.NewConfig "" "" [] raw).
Proof.
  intros Hs Hr Hc Ha. unfold FromParsed, noStreamFromParsed.
  rewrite Hs, Hr.
  rewrite !Hc by (repeat first [apply list_elem_of_here | apply list_elem_of_further]).
  rewrite !Ha by (repeat first [apply list_elem_of_here | apply list_elem_of_further]).
  reflexivity.
Qed.

(** X24. What a [FromParsed] that returns no error holds: the raw source
    it was given (which the stream parser does not see, it gets nil), the
    stream and the resources as their parsers returned them, and the
    tests of the document, one value per list entry in the order of the
    list, or none when the key is not contained. *)
Theorem FromParsed_result (prov : Provider) (pConf : ParsedConfig)
    (raw : any) (conf : config.Type_) :
  FromParsed prov pConf raw = Ok conf ->
  config.GetRawSource conf = raw
  /\ stream_FromParsed prov pConf any_nil = Ok (config.Config conf)
  /\ manager_FromParsed prov pConf = Ok (config.ResourceConfig_ conf)
  /\ (ParsedConfig_Contains pConf [fieldTests] = false ->
      config.Tests conf = [])
  /\ (ParsedConfig_Contains pConf [fieldTests] = true ->
      exists tmpTests,
        ParsedConfig_FieldAnyList pConf [fieldTests] = Ok tmpTests
        /\ config.Tests conf
           = (fun v => fst (ParsedConfig_FieldAny v [])) <$> tmpTests).
Proof.
  unfold FromParsed, noStreamFromParsed. intros H.
  destruct (stream_FromParsed prov pConf any_nil) as [stream|]; [|discriminate].
  destruct (manager_FromParsed prov pConf) as [res|]; [|discriminate].
  repeat match type of H with
         | match ?x with _ => _ end = _ =>
             let E := fresh "E" in destruct x eqn:E; try discriminate H
         end.
  simplify_eq. simpl.
  split; [reflexivity|]. split; [reflexivity|]. split; [reflexivity|].
  match goal with
  | E : (if ParsedConfig_Contains pConf [fieldTests] then _ else _) = Ok _ |- _ =>
      destruct (ParsedConfig_Contains pConf [fieldTests]);
      [destruct (ParsedConfig_FieldAnyList pConf [fieldTests]) as [tmp|] eqn:Hl;
       [|discriminate E] |]; simplify_eq
  end.
  - split; [discriminate|]. intros _. exists tmp. split; [reflexivity|].
    now rewrite collect_tests_map.
  - split; [reflexivity|discriminate].
Qed.

End parsing.

Section versions.
Context `{C : Collaborators} {HSt : Type}.
Implicit Types s : StreamBuilder HSt.

(** X25. An engine version set by the caller is never replaced by the
    version of a schema: with a non-empty version, [SetEngineVersion] and
    [SetSchema] give the same builder in either order, holding the
    caller's version and the fields of the schema. The version of the
    schema is taken only while the builder has none; the schema's fields
    always replace the builder's. *)
Theorem engine_version_wins (ev : string) (schema : ConfigSchema) s :
  ev <> "" ->
  SetSchema schema (SetEngineVersion ev s)
  = SetEngineVersion ev (SetSchema schema s)
  /\ engineVersion (SetSchema schema (SetEngineVersion ev s)) = ev
  /\ configSpec (SetSchema schema (SetEngineVersion ev s)) = fields schema
  /\ engineVersion (SetSchema schema s)
     = (if decide (engineVersion s = "") then version schema
        else engineVersion s).
Proof.
  intros Hev. unfold SetSchema, SetEngineVersion. simpl.
  destruct (decide (ev = "")) as [|_]; [contradiction|].
  repeat split; case_decide; reflexivity.
Qed.

End versions.

(** ** The schema without the stream fields *)

Section stream_filter.
Variable FieldSpec : Type.
Variable Name : FieldSpec -> string.
Variable stream_Spec : list FieldSpec.

Local Abbreviation streamFields := (schema.streamFields FieldSpec Name stream_Spec).
Local Abbreviation SpecWithoutStream :=
  (schema.SpecWithoutStream FieldSpec Name stream_Spec).

(** The set holds exactly the names of the stream fields. *)
Lemma streamFields_names (n : string) :
  n ∈ streamFields <-> n ∈ Name <$> stream_Spec.
Proof.
  unfold schema.streamFields.
  assert (Hgen : forall (l : list FieldSpec) (acc : gset string),
            n ∈ foldl (fun names f => {[ Name f ]} ∪ names) acc l
            <-> n ∈ acc \/ n ∈ Name <$> l).
  { induction l as [|f l IH]; intros acc; simpl.
    - rewrite elem_of_nil. tauto.
    - rewrite IH, elem_of_union, elem_of_singleton, elem_of_cons. tauto. }
  rewrite Hgen. rewrite elem_of_empty. tauto.
Qed.

(** The loop of [SpecWithoutStream] is a filter. *)
Lemma SpecWithoutStream_filter (spec : list FieldSpec) :
  SpecWithoutStream spec
  = filter (fun f => Name f ∉ Name <$> stream_Spec) spec.
Proof.
  unfold schema.SpecWithoutStream.
  assert (Hgen : forall (l acc : list FieldSpec),
            foldl (fun fields f =>
                     if decide (Name f ∈ streamFields) then fields
                     else fields ++ [f]) acc l
            = acc ++ filter (fun f => Name f ∉ Name <$> stream_Spec) l).
  { induction l as [|f l IH]; intros acc; simpl.
    - now rewrite app_nil_r.
    - rewrite IH, filter_cons.
      destruct (decide (Name f ∈ streamFields)) as [Hin|Hout].
      + apply streamFields_names in Hin.
        rewrite decide_False by tauto. reflexivity.
      + rewrite decide_True
          by (intros Hin; apply Hout; now apply streamFields_names).
        now rewrite <- app_assoc. }
  apply Hgen.
Qed.

(** Of the stream spec itself nothing is left. *)
Lemma SpecWithoutStream_stream : SpecWithoutStream stream_Spec = [].
Proof.
  rewrite SpecWithoutStream_filter.
  assert (Hgen : forall l : list FieldSpec,
            (forall f, f ∈ l -> Name f ∈ Name <$> stream_Spec) ->
            filter (fun f => Name f ∉ Name <$> stream_Spec) l = []).
  { induction l as [|f l IH]; intros Hall; [reflexivity|].
    rewrite filter_cons, decide_False.
    - apply IH. intros g Hg. apply Hall. now apply list_elem_of_further.
    - intros Hout. apply Hout, Hall, list_elem_of_here. }
  apply Hgen. intros f Hf. apply list_elem_of_fmap. now exists f.
Qed.

(** X26. [SpecWithoutStream] keeps exactly the fields whose name is not
    the name of a stream field, in their order: a field is in the result
    if and only if it is in the given spec and no field of the stream spec
    has its name; the result is a sublist of the given spec; applying
    the function twice changes nothing more; and of the stream spec itself
    nothing is left. *)
Theorem SpecWithoutStream_keeps_the_rest (spec : list FieldSpec) :
  (forall f, f ∈ SpecWithoutStream spec
             <-> f ∈ spec /\ (Name f ∉ Name <$> stream_Spec))
  /\ SpecWithoutStream spec `sublist_of` spec
  /\ SpecWithoutStream (SpecWithoutStream spec) = SpecWithoutStream spec
  /\ SpecWithoutStream stream_Spec = [].
Proof.
  rewrite !SpecWithoutStream_filter. split; [|split; [|split]].
  - intros f. rewrite list_elem_of_filter. tauto.
  - apply sublist_filter.
  - apply list_filter_filter_l. tauto.
  - rewrite <- SpecWithoutStream_filter. apply SpecWithoutStream_stream.
Qed.

End stream_filter.

Section whole_schema.
Variable FieldSpec : Type.
Variable Name : FieldSpec -> string.
Variable FieldObject FieldMetrics FieldTracer FieldString
  : string -> string -> FieldSpec.
Variable WithChildren : FieldSpec -> list FieldSpec -> FieldSpec.
Variable HasDefault : FieldSpec -> any -> FieldSpec.
Variable Advanced : FieldSpec -> FieldSpec.
Variable api_Spec log_Spec stream_Spec manager_Spec : list FieldSpec.
Variable test_ConfigSpec : FieldSpec.
Variable GetDocs_exists : string -> docs.Type_ -> bool.

Local Abbreviation SpecWithoutStream :=
  (schema.SpecWithoutStream FieldSpec Name stream_Spec).
Local Abbreviation httpField :=
  (schema.httpField FieldSpec FieldObject WithChildren api_Spec).
Local Abbreviation observabilityFields :=
  (schema.observabilityFields FieldSpec FieldObject FieldMetrics FieldTracer
     FieldString WithChildren HasDefault log_Spec GetDocs_exists).
Local Abbreviation Spec :=
  (schema.Spec FieldSpec FieldObject FieldMetrics FieldTracer FieldString
     WithChildren HasDefault Advanced api_Spec log_Spec stream_Spec
     manager_Spec test_ConfigSpec GetDocs_exists).

(** X27. Taking the stream fields out of the whole schema leaves the
    other sections as [Spec] lists them: when no field of the [http],
    resource, observability or test sections bears the name of a stream
    field, [SpecWithoutStream (Spec ())] is the [http] field, the manager
    fields, the observability fields and the test field, in that order. *)
Theorem SpecWithoutStream_of_Spec :
  (forall f,
     f ∈ [httpField] ++ manager_Spec ++ observabilityFields
         ++ [Advanced test_ConfigSpec] ->
     Name f ∉ Name <$> stream_Spec) ->
  SpecWithoutStream Spec
  = [httpField] ++ manager_Spec ++ observabilityFields
    ++ [Advanced test_ConfigSpec].
Proof.
  intros Hnames.
  pose proof (SpecWithoutStream_stream FieldSpec Name stream_Spec) as Hs.
  assert (Hkeep : forall l : list FieldSpec,
            (forall f, f ∈ l -> Name f ∉ Name <$> stream_Spec) ->
            filter (fun f => Name f ∉ Name <$> stream_Spec) l = l).
  { induction l as [|f l IH]; intros Hall; [reflexivity|].
    rewrite filter_cons, decide_True by apply Hall, list_elem_of_here.
    f_equal. apply IH. intros g Hg. apply Hall. now apply list_elem_of_further. }
  rewrite SpecWithoutStream_filter in Hs.
  rewrite SpecWithoutStream_filter. unfold schema.Spec.
  rewrite !filter_app, Hs, app_nil_r.
  rewrite <- !filter_app, <- !app_assoc. apply Hkeep. exact Hnames.
Qed.

End whole_schema.

(** ** The properties on the concrete environment *)

Section examples.
Import demo.

(** A string is not an accepted shape: the decoder returns the zero config
    and names the type. *)
Lemma FromAny_string_rejected :
  tracer.accepted_shape (any_string "jaeger") = false
  /\ config_parse.tracer_FromAny (C := collaborators) tt (any_string "jaeger")
     = (tracer.zero, Some "unexpected value, expected object, got string").
Proof.
  split; [reflexivity|].
  apply (FromAny_unexpected_shape (@Provider decls)
           docs_GetInferenceCandidateFromMap docs_GetInferenceCandidateFromYAML
           docs_GetPluginConfigYAML docs_NewLintError tt (any_string "jaeger")).
  reflexivity.
Defined.

(** One input: the snapshot holds it as it was decoded. *)
Lemma one_input_unwrapped :
  length (inputs one_input) = 1
  /\ inputs one_input = [composed_input one_input].
Proof.
  split; [reflexivity|].
  apply (single_input_unwrapped one_input). reflexivity.
Defined.

(** Three inputs: the broker lists them in the order of addition. *)
Lemma three_inputs_in_order :
  1 < length (inputs three_inputs)
  /\ inputs three_inputs = [mkComponentConfig "a" "generate" any_nil;
                            mkComponentConfig "b" "generate" any_nil;
                            mkComponentConfig "c" "generate" any_nil]
  /\ exists (m : gmap string any) (subs : list any),
       composed_input three_inputs = mkComponentConfig "" "broker" (any_map m)
       /\ m = {[ "inputs" := any_slice subs ]}
       /\ subs = any_input <$> inputs three_inputs
       /\ length subs = length (inputs three_inputs)
       /\ forall i : nat, subs !! i = any_input <$> (inputs three_inputs !! i).
Proof.
  split; [vm_compute; lia|]. split; [reflexivity|].
  apply (many_inputs_broker_in_order three_inputs). vm_compute. lia.
Defined.

(** C1, refuted as stated: two outputs on a builder whose pattern was
    never set compose to a broker whose payload has no [pattern] entry, so
    no [fan_out] symbol is attached to it. *)
Lemma default_pattern_not_attached :
  1 < length (outputs two_outputs)
  /\ outputBrokerPattern two_outputs = ""
  /\ exists m : gmap string any,
       composed_output two_outputs = mkComponentConfig "" "broker" (any_map m)
       /\ m !! "pattern" = None
       /\ m !! "pattern" <> Some (any_string "fan_out").
Proof.
  split; [vm_compute; lia|]. split; [reflexivity|].
  exists (output_broker_payload (outputs two_outputs) "").
  split; [reflexivity|]. split; [reflexivity|].
  rewrite output_broker_payload_pattern. discriminate.
Qed.

(** Two outputs and the pattern [round_robin]. *)
Lemma two_outputs_pattern :
  1 < length (outputs two_outputs)
  /\ "round_robin" <> ""
  /\ exists m : gmap string any,
       composed_output (SetOutputBrokerPattern "round_robin" two_outputs)
       = mkComponentConfig "" "broker" (any_map m)
       /\ m !! "outputs" = Some (any_slice (any_output <$> outputs two_outputs))
       /\ m !! "pattern" = Some (any_string "round_robin").
Proof.
  split; [vm_compute; lia|]. split; [discriminate|].
  apply (many_outputs_broker_pattern two_outputs);
    [vm_compute; lia | discriminate].
Defined.

(** After a producer was registered the document is refused. *)
Lemma SetYAML_after_producer :
  (producerChan with_producer <> None \/ consumerFunc with_producer <> None)
  /\ exists err : error,
       SetYAML "input: {}" (world 0) with_producer = (Some err, with_producer)
       /\ (producerChan with_producer <> None ->
           err = "attempted to override inputs config after adding a func producer")
       /\ (producerChan with_producer = None ->
           err = "attempted to override outputs config after adding a func consumer").
Proof.
  split; [left; discriminate|].
  apply (SetYAML_conflict_leaves_builder "input: {}" (world 0) with_producer).
  left. discriminate.
Defined.

(** Two batch registrations of the nil function on a new builder. *)
Lemma nil_batch_consumer_twice_on_new_builder :
  consumerFunc fresh = None
  /\ uuid_NewV4 (world 0) = (Ok "uuid-0", world 1)
  /\ uuid_NewV4 (world 1) = (Ok "uuid-1", world 2)
  /\ exists s1 s2 : StreamBuilder nat,
       AddBatchConsumerFunc None (world 0) fresh = (None, world 1, s1)
       /\ AddBatchConsumerFunc None (world 1) s1 = (None, world 2, s2)
       /\ consumerFunc s2 = None
       /\ outputs s2 =
            outputs fresh ++ [inproc_conf output_NewConfig "uuid-0";
                              inproc_conf output_NewConfig "uuid-1"]
       /\ length (succeeded is_consumer_registration
                    (fst (fst (run [CallAddBatchConsumerFunc None;
                                    CallAddBatchConsumerFunc None] (world 0) fresh))))
          = 2.
Proof.
  split; [reflexivity|]. split; [reflexivity|]. split; [reflexivity|].
  apply (nil_batch_consumer_registers_twice (world 0) fresh "uuid-0" "uuid-1"
           (world 1) (world 2));
    reflexivity.
Defined.

(** A second cache labelled [a] collides; so does a second rate limit. *)
Lemma second_label_a_collides :
  labels_ok fresh
  /\ run [CallAddCacheYAML "a"; CallAddRateLimitYAML "a"] (world 0) fresh
     = ([(CallAddCacheYAML "a", None); (CallAddRateLimitYAML "a", None)],
        world 0, with_resources)
  /\ AddCacheYAML "a" (world 0) with_resources
     = (Some (collision_error "a"), with_resources)
  /\ AddRateLimitYAML "a" (world 0) with_resources
     = (Some (collision_error "a"), with_resources).
Proof.
  assert (Hok : labels_ok fresh) by apply new_builder_labels_ok.
  assert (Hrun : run [CallAddCacheYAML "a"; CallAddRateLimitYAML "a"] (world 0) fresh
                 = ([(CallAddCacheYAML "a", None);
                     (CallAddRateLimitYAML "a", None)], world 0, with_resources))
    by reflexivity.
  split; [exact Hok|]. split; [exact Hrun|].
  destruct (label_collision_rejected
              [CallAddCacheYAML "a"; CallAddRateLimitYAML "a"] (world 0) fresh
              _ (world 0) with_resources Hok
              ltac:(repeat constructor) Hrun) as [_ Hadd].
  destruct (Hadd "a" (world 0) (scalar "a") (mkComponentConfig "a" "memory" any_nil)
              eq_refl) as [Hcache _].
  destruct (Hadd "a" (world 0) (scalar "a") (mkComponentConfig "a" "local" any_nil)
              eq_refl) as [_ Hrate].
  split.
  - apply (Hcache eq_refl eq_refl). vm_compute. apply list_elem_of_here.
  - apply (Hrate eq_refl eq_refl). vm_compute. apply list_elem_of_here.
Defined.

(** Registrations with handlers: the second and third are refused. *)
Lemma consumer_registered_once_example :
  Forall (fun op : Op nat => gives_handler op = true)
    [CallAddConsumerFunc None; CallAddBatchConsumerFunc (Some (fun _ _ n => (Returns None, n)));
     CallAddConsumerFunc None]
  /\ length (succeeded is_consumer_registration
               (fst (fst (run [CallAddConsumerFunc None;
                               CallAddBatchConsumerFunc
                                 (Some (fun _ _ n => (Returns None, n)));
                               CallAddConsumerFunc None] (world 0) fresh))))
     <= 1.
Proof.
  assert (Hg : Forall (fun op : Op nat => gives_handler op = true)
                 [CallAddConsumerFunc None;
                  CallAddBatchConsumerFunc
                    (Some (fun _ _ n => (Returns None, n)));
                  CallAddConsumerFunc None])
    by (repeat constructor).
  split; [exact Hg|].
  exact (consumer_registered_at_most_once _ (world 0) fresh Hg).
Defined.

(** Both producer registrations are refused after a producer. *)
Lemma duplicate_producer_example :
  producerChan with_producer <> None
  /\ AddProducerFunc (world 1) with_producer =
       (Err "unable to add multiple producer funcs to a stream builder",
        world 1, with_producer)
  /\ AddBatchProducerFunc (world 1) with_producer =
       (Err "unable to add multiple producer funcs to a stream builder",
        world 1, with_producer).
Proof.
  assert (Hp : producerChan with_producer <> None) by discriminate.
  split; [exact Hp|].
  exact (proj1 (duplicate_registration_leaves_builder (world 1) with_producer)
           Hp).
Defined.

(** A path without its value is refused. *)
Lemma SetFields_odd_example :
  (producerChan fresh <> None \/ consumerFunc fresh <> None
   \/ Nat.even (length [any_string "http.enabled"]) = false)
  /\ exists err : error,
       SetFields [any_string "http.enabled"] fresh = (Some err, fresh).
Proof.
  split; [right; right; reflexivity|].
  apply (SetFields_conflict_or_odd [any_string "http.enabled"] fresh).
  right; right; reflexivity.
Defined.

(** The input [b] is appended after the input [a]. *)
Lemma AddInputYAML_appends_example :
  getYAMLNode one_input (world 0) "b" = Ok (scalar "b")
  /\ lintYAMLComponent one_input (scalar "b") docs.TypeInput = None
  /\ input_FromAny tt (any_yaml (scalar "b"))
     = Ok (mkComponentConfig "b" "generate" any_nil)
  /\ AddInputYAML "b" (world 0) one_input
     = (None,
        set_inputs (inputs one_input ++ [mkComponentConfig "b" "generate" any_nil])
          one_input).
Proof.
  split; [reflexivity|]. split; [reflexivity|]. split; [reflexivity|].
  apply (AddInputYAML_appends "b" (world 0) one_input (scalar "b")
           (mkComponentConfig "b" "generate" any_nil)); reflexivity.
Defined.

(** Three messages, the handler failing on the second: the failure is the
    acknowledgement, and the handler ran on the first two messages only. *)
Lemma fails_on_second_of_three :
  AddConsumerFunc (Some (traced (fails_on "m2"))) (world 0)
    (NewStreamBuilder (nat * list string)) = (None, world 1, with_consumer)
  /\ quiet (fails_on "m2") tt ["m1"] 0 1
  /\ fails_on "m2" tt "m2" 1 = (Returns (Some "rejected m2"), 2)
  /\ consume with_consumer three_messages (0, [])
     = (Returns (7, Some "rejected m2"), (2, ["m1"; "m2"])).
Proof.
  assert (Hq : quiet (fails_on "m2") tt ["m1"] 0 1).
  { exact (quiet_cons (D := decls) (fails_on "m2") tt "m1" [] 0 1 1
             eq_refl (quiet_nil (D := decls) (fails_on "m2") tt 1)). }
  assert (Hreg : AddConsumerFunc (Some (traced (fails_on "m2"))) (world 0)
                   (NewStreamBuilder (nat * list string))
                 = (None, world 1, with_consumer)) by reflexivity.
  assert (Hf : fails_on "m2" tt "m2" 1 = (Returns (Some "rejected m2"), 2))
    by reflexivity.
  split; [exact Hreg|]. split; [exact Hq|]. split; [exact Hf|].
  destruct (per_message_stops_at_first_failure (fails_on "m2") (world 0)
              (NewStreamBuilder (nat * list string)) (world 1)
              with_consumer Hreg three_messages 0) as [_ Hfail].
  apply (Hfail ["m1"] "m2" ["m3"] "rejected m2" 1 2); [reflexivity | exact Hq | exact Hf].
Defined.

End examples.

(** ** Further properties on the concrete environment *)

Section more_examples.
Import demo.

(** A colliding cache addition fails and leaves the builder. *)
Lemma collision_leaves_builder :
  (forall conf, CallAddCacheYAML (HSt := nat) "a" <> CallAddResourcesYAML conf)
  /\ fst (fst (step (CallAddCacheYAML "a") (world 0) with_resources)) <> None
  /\ snd (step (CallAddCacheYAML "a") (world 0) with_resources)
     = with_resources.
Proof.
  assert (H1 : forall conf,
            CallAddCacheYAML (HSt := nat) "a" <> CallAddResourcesYAML conf)
    by discriminate.
  assert (H2 : fst (fst (step (CallAddCacheYAML "a") (world 0) with_resources))
               <> None) by discriminate.
  split; [exact H1|]. split; [exact H2|].
  exact (failed_call_leaves_builder (CallAddCacheYAML "a") (world 0)
           with_resources H1 H2).
Defined.

(** A producer after one input: a broker over the input and the
    [inproc] config. *)
Lemma producer_after_one_input :
  is_producer_registration (CallAddProducerFunc (HSt := nat)) = true
  /\ step CallAddProducerFunc (world 0) one_input
     = (None, world 2, input_and_producer)
  /\ composed_input input_and_producer
     = mkComponentConfig "" "broker"
         (any_map (input_broker_payload
                     [mkComponentConfig "a" "generate" any_nil;
                      mkComponentConfig "" "inproc" (any_string "uuid-0")])).
Proof.
  split; [reflexivity|]. split; [reflexivity|].
  exact (producer_joins_inputs CallAddProducerFunc (world 0) one_input
           (world 2) input_and_producer eq_refl eq_refl).
Defined.

(** A consumer after two outputs: a broker over the three. *)
Lemma consumer_after_two_outputs :
  is_consumer_registration (CallAddConsumerFunc (HSt := nat) None) = true
  /\ step (CallAddConsumerFunc None) (world 0) two_outputs
     = (None, world 1, outputs_and_consumer)
  /\ composed_output outputs_and_consumer
     = mkComponentConfig "" "broker"
         (any_map (output_broker_payload
                     [mkComponentConfig "a" "drop" any_nil;
                      mkComponentConfig "b" "drop" any_nil;
                      mkComponentConfig "" "inproc" (any_string "uuid-0")]
                     "")).
Proof.
  split; [reflexivity|]. split; [reflexivity|].
  exact (consumer_joins_outputs (CallAddConsumerFunc None) (world 0)
           two_outputs (world 1) outputs_and_consumer eq_refl eq_refl).
Defined.

(** One output: the pattern changes nothing. *)
Lemma pattern_on_one_output :
  length (outputs one_output) <= 1
  /\ buildConfig (SetOutputBrokerPattern "round_robin" one_output)
     = buildConfig one_output.
Proof.
  assert (H : length (outputs one_output) <= 1) by (vm_compute; lia).
  split; [exact H|].
  exact (proj1 (pattern_unused_below_two_outputs "round_robin" one_output H)).
Defined.

(** A document set over three inputs leaves the document's input alone. *)
Lemma SetYAML_over_three_inputs :
  SetYAML "input: {}" (world 0) three_inputs = (None, replaced)
  /\ exists (node : yaml.Node) (pConf : ParsedConfig) (sconf : config.Type_),
       getYAMLNode three_inputs (world 0) "input: {}" = Ok node
       /\ FieldSpecs_ParsedConfigFromAny (configSpec three_inputs)
            (any_yaml node) = Ok pConf
       /\ config_parse.FromParsed (env_internal (env three_inputs)) pConf
            any_nil = Ok sconf
       /\ http replaced = config.HTTP sconf
       /\ inputs replaced = [Input (config.Config sconf)]
       /\ buffer replaced = Buffer (config.Config sconf)
       /\ processors replaced = Processors (Pipeline (config.Config sconf))
       /\ threads replaced = Threads (Pipeline (config.Config sconf))
       /\ outputs replaced = [Output (config.Config sconf)]
       /\ resources replaced = config.ResourceConfig_ sconf
       /\ logger replaced = config.Logger sconf
       /\ metrics replaced = config.Metrics sconf
       /\ tracer replaced = config.Tracer sconf
       /\ composed_input replaced = Input (config.Config sconf)
       /\ composed_output replaced = Output (config.Config sconf)
       /\ (engineVersion replaced, configSpec replaced,
           lintingDisabled replaced, outputBrokerPattern replaced,
           apiMut replaced, customLogger replaced, envVarLookupFn replaced,
           env replaced)
          = (engineVersion three_inputs, configSpec three_inputs,
             lintingDisabled three_inputs, outputBrokerPattern three_inputs,
             apiMut three_inputs, customLogger three_inputs,
             envVarLookupFn three_inputs, env three_inputs).
Proof.
  assert (H : SetYAML "input: {}" (world 0) three_inputs = (None, replaced))
    by reflexivity.
  split; [exact H|].
  exact (SetYAML_replaces_everything "input: {}" (world 0) three_inputs
           replaced H).
Defined.

(** A second document over a first. *)
Lemma SetYAML_twice :
  SetYAML "input: {}" (world 0) three_inputs = (None, replaced)
  /\ fst (SetYAML "output: {}" (world 0) replaced)
     = fst (SetYAML "output: {}" (world 0) three_inputs)
  /\ (fst (SetYAML "output: {}" (world 0) three_inputs) = None ->
      snd (SetYAML "output: {}" (world 0) replaced)
      = snd (SetYAML "output: {}" (world 0) three_inputs)).
Proof.
  assert (H : SetYAML "input: {}" (world 0) three_inputs = (None, replaced))
    by reflexivity.
  split; [exact H|].
  exact (SetYAML_overrides_SetYAML "input: {}" "output: {}" (world 0)
           (world 0) three_inputs replaced H).
Defined.

(** An input and a thread count after one input. *)
Lemma additions_extend_one_input :
  Forall (fun op : Op nat => is_replacement op = false)
    [CallAddInputYAML "b"; CallSetThreads 4]
  /\ inputs one_input
     `prefix_of` inputs (snd (run [CallAddInputYAML "b"; CallSetThreads 4]
                                (world 0) one_input)).
Proof.
  assert (H : Forall (fun op : Op nat => is_replacement op = false)
                [CallAddInputYAML "b"; CallSetThreads 4])
    by (repeat constructor).
  split; [exact H|].
  exact (proj1 (additions_only_extend _ (world 0) one_input H)).
Defined.

(** Two transactions, two calls of the batch function, two
    acknowledgements. *)
Lemma two_transactions_two_calls :
  AddBatchConsumerFunc (Some (traced_batch rejects_long)) (world 0)
    (NewStreamBuilder (nat * list (list string)))
  = (None, world 1, with_batch_consumer)
  /\ consume_all with_batch_consumer [three_messages; no_messages] (0, [])
     = (Returns [(7, Some "batch too long"); (8, None)],
        (3, [["m1"; "m2"; "m3"]; []]))
  /\ [["m1"; "m2"; "m3"]; []]
     = (fun tran => NewInternalMessage <$> Payload tran)
         <$> [three_messages; no_messages]
  /\ fst <$> [(7, Some "batch too long"); (8, @None error)]
     = responseChan <$> [three_messages; no_messages]
  /\ answers rejects_long context_Background [["m1"; "m2"; "m3"]; []] 0
       (snd <$> [(7, Some "batch too long"); (8, @None error)]) 3.
Proof.
  assert (Hreg : AddBatchConsumerFunc (Some (traced_batch rejects_long))
                   (world 0) (NewStreamBuilder (nat * list (list string)))
                 = (None, world 1, with_batch_consumer)) by reflexivity.
  assert (Hrun : consume_all with_batch_consumer
                   [three_messages; no_messages] (0, [])
                 = (Returns [(7, Some "batch too long"); (8, None)],
                    (3, [["m1"; "m2"; "m3"]; []]))) by reflexivity.
  split; [exact Hreg|]. split; [exact Hrun|].
  exact (batch_consumer_called_once_per_transaction rejects_long (world 0)
           _ (world 1) with_batch_consumer [three_messages; no_messages]
           0 _ 3 _ Hreg Hrun).
Defined.

(** The nil per-message function: accepted, harmless on an empty
    transaction, a panic on a message. *)
Lemma nil_per_message_function :
  AddConsumerFunc None (world 0) fresh = (None, world 1, with_nil_consumer)
  /\ Payload no_messages = []
  /\ consume with_nil_consumer no_messages 0 = (Returns (8, None), 0)
  /\ Payload three_messages <> []
  /\ consume with_nil_consumer three_messages 0 = (Panics, 0).
Proof.
  assert (H : AddConsumerFunc None (world 0) fresh
              = (None, world 1, with_nil_consumer)) by reflexivity.
  assert (Hne : Payload three_messages <> []) by discriminate.
  destruct (per_message_edges None (world 0) fresh (world 1)
              with_nil_consumer H no_messages 0) as [Hempty _].
  destruct (per_message_edges None (world 0) fresh (world 1)
              with_nil_consumer H three_messages 0) as [_ Hpanic].
  split; [exact H|]. split; [reflexivity|]. split; [exact (Hempty eq_refl)|].
  split; [exact Hne|]. exact (Hpanic eq_refl Hne).
Defined.

(** No consumer among the calls: nothing to run. *)
Lemma producer_only_runs_nothing :
  Forall (fun op : Op nat => is_consumer_registration op = false)
    [CallAddInputYAML "a"; CallAddProducerFunc]
  /\ runConsumerFunc
       (snd (run [CallAddInputYAML "a"; CallAddProducerFunc] (world 0) fresh))
       tt
     = Ok None.
Proof.
  assert (H : Forall (fun op : Op nat => is_consumer_registration op = false)
                [CallAddInputYAML "a"; CallAddProducerFunc])
    by (repeat constructor).
  split; [exact H|].
  exact (no_consumer_nothing_runs _ (world 0) tt H).
Defined.

(** The typed entry of the map wins over the [plugin] entry. *)
Lemma typed_entry_wins :
  @docs_GetInferenceCandidateFromMap decls collaborators tt docs.TypeTracer
    tracer_map = ("none", None)
  /\ tracer_map !! "none" = Some (any_string "typed")
  /\ tracer_Plugin
       (fst (config_parse.tracer_FromAny (C := collaborators) tt
               (any_map tracer_map)))
     = any_string "typed".
Proof.
  assert (H : @docs_GetInferenceCandidateFromMap decls collaborators tt
                docs.TypeTracer tracer_map = ("none", None)) by reflexivity.
  assert (Hl : tracer_map !! "none" = Some (any_string "typed"))
    by reflexivity.
  split; [exact H|]. split; [exact Hl|].
  destruct (FromAny_map_plugin (@Provider decls)
              docs_GetInferenceCandidateFromMap
              docs_GetInferenceCandidateFromYAML docs_GetPluginConfigYAML
              docs_NewLintError tt tracer_map "none" H)
    as (conf & Heq & _ & Htyped & _).
  unfold config_parse.tracer_FromAny. rewrite Heq. simpl.
  exact (Htyped _ Hl).
Defined.

(** A document without service keys: the defaults. *)
Lemma empty_document_defaults :
  @stream_FromParsed decls collaborators tt (scalar "") any_nil
  = Ok {| Input := mkComponentConfig "" "stdin" any_nil;
          Buffer := "none";
          Pipeline := {| Threads := (-1)%Z; Processors := [] |};
          Output := mkComponentConfig "" "stdout" any_nil |}
  /\ @manager_FromParsed decls collaborators tt (scalar "")
     = Ok manager_NewResourceConfig
  /\ config_parse.FromParsed (C := collaborators) tt (scalar "")
       (any_string "benthos.yaml")
     = Ok (config.mkType api_NewConfig
             {| Input := mkComponentConfig "" "stdin" any_nil;
                Buffer := "none";
                Pipeline := {| Threads := (-1)%Z; Processors := [] |};
                Output := mkComponentConfig "" "stdout" any_nil |}
             manager_NewResourceConfig log_NewConfig metrics_NewConfig
             tracer.NewConfig "" "" [] (any_string "benthos.yaml")).
Proof.
  split; [reflexivity|]. split; [reflexivity|].
  apply (FromParsed_missing_keys (C := collaborators) tt (scalar "")
           (any_string "benthos.yaml"));
    [reflexivity | reflexivity | intros k _; reflexivity
    | intros k _; reflexivity].
Defined.

(** The parsed document keeps the raw source it was given. *)
Lemma parsed_document_keeps_source :
  config_parse.FromParsed (C := collaborators) tt (scalar "")
    (any_string "benthos.yaml")
  = Ok (config.mkType api_NewConfig
          {| Input := mkComponentConfig "" "stdin" any_nil;
             Buffer := "none";
             Pipeline := {| Threads := (-1)%Z; Processors := [] |};
             Output := mkComponentConfig "" "stdout" any_nil |}
          manager_NewResourceConfig log_NewConfig metrics_NewConfig
          tracer.NewConfig "" "" [] (any_string "benthos.yaml"))
  /\ config.GetRawSource
       (config.mkType api_NewConfig
          {| Input := mkComponentConfig "" "stdin" any_nil;
             Buffer := "none";
             Pipeline := {| Threads := (-1)%Z; Processors := [] |};
             Output := mkComponentConfig "" "stdout" any_nil |}
          manager_NewResourceConfig log_NewConfig metrics_NewConfig
          tracer.NewConfig "" "" [] (any_string "benthos.yaml"))
     = any_string "benthos.yaml".
Proof.
  assert (H : config_parse.FromParsed (C := collaborators) tt (scalar "")
                (any_string "benthos.yaml")
              = Ok (config.mkType api_NewConfig
                      {| Input := mkComponentConfig "" "stdin" any_nil;
                         Buffer := "none";
                         Pipeline := {| Threads := (-1)%Z; Processors := [] |};
                         Output := mkComponentConfig "" "stdout" any_nil |}
                      manager_NewResourceConfig log_NewConfig metrics_NewConfig
                      tracer.NewConfig "" "" [] (any_string "benthos.yaml")))
    by reflexivity.
  split; [exact H|].
  exact (proj1 (FromParsed_result (C := collaborators) tt (scalar "")
                  (any_string "benthos.yaml") _ H)).
Defined.

(** The caller's version and a schema, in either order. *)
Lemma version_and_schema_commute :
  "4.1.0" <> ""
  /\ SetSchema short_schema (SetEngineVersion "4.1.0" fresh)
     = SetEngineVersion "4.1.0" (SetSchema short_schema fresh)
  /\ engineVersion (SetSchema short_schema (SetEngineVersion "4.1.0" fresh))
     = "4.1.0".
Proof.
  assert (H : "4.1.0" <> "") by discriminate.
  destruct (engine_version_wins "4.1.0" short_schema fresh H)
    as (Hc & Hv & _).
  split; [exact H|]. split; [exact Hc | exact Hv].
Defined.

(** The whole schema without its four stream fields. *)
Lemma whole_spec_without_stream :
  (forall f : string,
     f ∈ ["http"] ++ ["cache_resources"]
         ++ ["logger"; "metrics"; "tracer"; "shutdown_delay";
             "shutdown_timeout"] ++ ["tests"] ->
     f ∉ (fun n : string => n) <$> stream_names)
  /\ schema.SpecWithoutStream string (fun n => n) stream_names whole_spec
     = ["http"; "cache_resources"; "logger"; "metrics"; "tracer";
        "shutdown_delay"; "shutdown_timeout"; "tests"].
Proof.
  assert (H : forall f : string,
            f ∈ ["http"] ++ ["cache_resources"]
                ++ ["logger"; "metrics"; "tracer"; "shutdown_delay";
                    "shutdown_timeout"] ++ ["tests"] ->
            f ∉ (fun n : string => n) <$> stream_names).
  { intros f Hf Hs. simpl in Hf, Hs.
    repeat (apply elem_of_cons in Hs as [Hs|Hs];
            [subst f;
             repeat (apply elem_of_cons in Hf as [Hf|Hf]; [discriminate Hf|]);
             now apply elem_of_nil in Hf|]).
    now apply elem_of_nil in Hs. }
  split; [exact H|].
  exact (SpecWithoutStream_of_Spec string (fun n => n) named named named named
           (fun f _ => f) (fun f _ => f) (fun f => f) ["address"] ["level"]
           stream_names ["cache_resources"] "tests" (fun _ _ => false) H).
Defined.

(** Resources that collide half way: the error is returned and the caches
    taken before it stay. *)
Lemma resources_kept_on_error :
  @AddResourcesYAML decls strict nat "cache_resources: [a, b, a]" (world 0)
    fresh_strict
  = (Some "resource label collides: a",
     set_resources (mkResourceConfig (cache <$> ["a"; "b"]) []) fresh_strict)
  /\ @ResourceConfig_AddFrom decls strict (resources fresh_strict)
       (mkResourceConfig (cache <$> ["a"; "b"; "a"]) [])
     = (mkResourceConfig (cache <$> ["a"; "b"]) [],
        Some "resource label collides: a").
Proof.
  assert (Hn : @getYAMLNode decls strict nat fresh_strict (world 0)
                 "cache_resources: [a, b, a]"
               = Ok (scalar "cache_resources: [a, b, a]")) by reflexivity.
  assert (Hl : @lintYAMLSpec decls strict nat fresh_strict
                 (@manager_Spec decls strict)
                 (scalar "cache_resources: [a, b, a]") = None)
    by reflexivity.
  assert (Hp : @FieldSpecs_ParsedConfigFromAny decls strict
                 (@manager_Spec decls strict)
                 (any_yaml (scalar "cache_resources: [a, b, a]"))
               = Ok (scalar "cache_resources: [a, b, a]")) by reflexivity.
  assert (Hr : @manager_FromParsed decls strict
                 (@env_internal decls strict (env fresh_strict))
                 (scalar "cache_resources: [a, b, a]")
               = Ok (mkResourceConfig (cache <$> ["a"; "b"; "a"]) []))
    by reflexivity.
  split; [|reflexivity].
  exact (proj1 (@AddResourcesYAML_only_resources decls strict nat
                  "cache_resources: [a, b, a]" (world 0) fresh_strict)
           _ _ _ Hn Hl Hp Hr).
Defined.

(** A document set after the nil function was registered as the batch
    consumer: no error, and the [inproc] output is gone. *)
Lemma nil_batch_consumer_then_document :
  producerChan fresh = None
  /\ consumerFunc fresh = None
  /\ uuid_NewV4 (world 0) = (Ok "uuid-0", world 1)
  /\ getYAMLNode fresh (world 1) "output: {}" = Ok (scalar "output: {}")
  /\ lintYAMLSpec fresh (configSpec fresh) (scalar "output: {}") = None
  /\ FieldSpecs_ParsedConfigFromAny (configSpec fresh)
       (any_yaml (scalar "output: {}")) = Ok (scalar "output: {}")
  /\ config_parse.FromParsed (env_internal (env fresh))
       (scalar "output: {}") any_nil = Ok parsed
  /\ Output (config.Config parsed) <> inproc_conf output_NewConfig "uuid-0"
  /\ exists s1 : StreamBuilder nat,
       AddBatchConsumerFunc None (world 0) fresh = (None, world 1, s1)
       /\ outputs s1 = outputs fresh ++ [inproc_conf output_NewConfig "uuid-0"]
       /\ consumerID s1 = "uuid-0"
       /\ SetYAML "output: {}" (world 1) s1 = (None, setFromConfig parsed s1)
       /\ consumerID (setFromConfig parsed s1) = "uuid-0"
       /\ outputs (setFromConfig parsed s1) = [Output (config.Config parsed)]
       /\ (Output (config.Config parsed)
           <> inproc_conf output_NewConfig "uuid-0" ->
           inproc_conf output_NewConfig "uuid-0"
           ∉ outputs (setFromConfig parsed s1)).
Proof.
  assert (Hp : producerChan fresh = None) by reflexivity.
  assert (Hc : consumerFunc fresh = None) by reflexivity.
  assert (Hu : uuid_NewV4 (world 0) = (Ok "uuid-0", world 1)) by reflexivity.
  assert (Hn : getYAMLNode fresh (world 1) "output: {}"
               = Ok (scalar "output: {}")) by reflexivity.
  assert (Hl : lintYAMLSpec fresh (configSpec fresh) (scalar "output: {}")
               = None) by reflexivity.
  assert (Hpc : FieldSpecs_ParsedConfigFromAny (configSpec fresh)
                  (any_yaml (scalar "output: {}"))
                = Ok (scalar "output: {}")) by reflexivity.
  assert (Hf : config_parse.FromParsed (env_internal (env fresh))
                 (scalar "output: {}") any_nil = Ok parsed) by reflexivity.
  assert (Hne : Output (config.Config parsed)
                <> inproc_conf output_NewConfig "uuid-0") by discriminate.
  repeat (split; [assumption|]).
  exact (SetYAML_after_nil_batch_consumer (world 0) fresh "uuid-0" (world 1)
           "output: {}" (world 1) _ _ parsed Hp Hc Hu Hn Hl Hpc Hf).
Defined.

(** A producer call with a context that is done while the stream is not
    receiving: the cancellation error, and nothing sent. *)
Lemma cancelled_call_on_stalled_stream :
  (AddProducerFunc (world 0) fresh
   = (Ok (producer_func 1), world 2, with_producer)
   \/ AddBatchProducerFunc (world 0) fresh
      = (Ok (producer_func 1), world 2, with_producer))
  /\ done_before_call stalled = true
  /\ stream_receives stalled = false
  /\ fst (producer_func_body part_of make_resChan 1 context_Background "m1"
            stalled (world 2))
     = mkDelivery (Returned (Some "context canceled")) None false
  /\ exists (tChan : Chan) (parts : list message_Part) (d : Delivery),
       producerChan with_producer = Some tChan
       /\ ((producer_func 1 = producer_func tChan /\ parts = [part_of "m1"]
            /\ d = fst (producer_func_body part_of make_resChan tChan
                          context_Background "m1" stalled (world 2)))
           \/ (producer_func 1 = batch_producer_func tChan
               /\ parts = part_of <$> ["m1"; "m2"]
               /\ d = fst (batch_producer_func_body part_of make_resChan
                             tChan context_Background ["m1"; "m2"] stalled
                             (world 2))))
       /\ ended d <> Blocked
       /\ (stream_receives stalled = false \/ picks_send stalled = false ->
           d = mkDelivery (Returned (Some (ctx_Err stalled))) None false)
       /\ (stream_receives stalled = true -> picks_send stalled = true ->
           handed_over d
           = Some (tChan, mkTransaction parts (fst (make_resChan (world 2))))
           /\ match stream_responds stalled with
              | Some res =>
                  if picks_response stalled then
                    ended d = Returned res /\ response_received d = true
                  else
                    ended d = Returned (Some (ctx_Err stalled))
                    /\ response_received d = false
              | None =>
                  ended d = Returned (Some (ctx_Err stalled))
                  /\ response_received d = false
              end).
Proof.
  assert (Hreg : AddProducerFunc (world 0) fresh
                 = (Ok (producer_func 1), world 2, with_producer)
                 \/ AddBatchProducerFunc (world 0) fresh
                    = (Ok (producer_func 1), world 2, with_producer))
    by (left; reflexivity).
  assert (Hdone : done_before_call stalled = true) by reflexivity.
  split; [exact Hreg|]. split; [exact Hdone|]. split; [reflexivity|].
  split; [reflexivity|].
  exact (cancelled_producer_call part_of make_resChan (world 0) fresh _
           (world 2) with_producer context_Background "m1" ["m1"; "m2"]
           stalled (world 2) Hreg Hdone).
Defined.

(** C9, refuted as stated: a producer call with a context that is done
    while the stream is receiving and answers at once. When Go picks the
    communication with the stream both times,
    the transaction is handed over and the call returns nil, the delivery
    success, and not the cancellation error. *)
Lemma cancelled_call_can_deliver :
  AddProducerFunc (world 0) fresh
  = (Ok (producer_func 1), world 2, with_producer)
  /\ done_before_call raced = true
  /\ producer_func_body part_of make_resChan 1 context_Background "m1" raced
       (world 2)
     = (mkDelivery (Returned None)
          (Some (1, mkTransaction ["m1"] 2)) true, world 3)
  /\ Returned None <> Returned (Some (ctx_Err raced)).
Proof.
  split; [reflexivity|]. split; [reflexivity|]. split; [reflexivity|].
  discriminate.
Qed.

End more_examples.
